(** * A shallow embedding of [static/script.js]

    The script is the browser side of a payment-splitting ledger: it keeps
    the document [appData] (configuration, roster, sites), edits it from
    form fields, renders it, and shows the [calculations] the server sends
    back.  The sources hold two copies of the script, the current one and
    a legacy one; where the two differ the model takes a [Version].

    Conventions of the embedding.
    - A JavaScript string is a Rocq [string] holding its UTF-8 bytes.
    - Integral JavaScript numbers are [Z]; a number that may also be [NaN]
      (the result of [parseInt]) is a [number]; amounts that may carry a
      fraction are [Q].  Binary64 rounding is not modelled: every result
      below is about values that binary64 represents exactly, or about
      comparisons that rounding does not change.
    - Global variables, the page and the dialogs live in a [State] that
      every function threads; a JavaScript exception is an outcome, and
      what was written before it stays written. *)

From Stdlib Require Import ZArith QArith Qround String Ascii List.
From Stdlib Require Import Sorting.Sorted Sorting.Permutation.
From stdpp Require Import gmap strings list fin_maps.

Import ListNotations.
Local Open Scope string_scope.
Local Open Scope Z_scope.

(** ** Characters and strings *)

Module Str.

Definition code (c : ascii) : N := N_of_ascii c.

(** [\d] of a regular expression without the unicode flag: [0-9]. *)
Definition isDigit (c : ascii) : bool :=
  ((48 <=? code c) && (code c <=? 57))%N.

Definition digitValue (c : ascii) : Z := Z.of_N (code c) - 48.

(** A digit of radix 16: [0-9], [a-f] or [A-F], with its value. *)
Definition hexValue (c : ascii) : option Z :=
  let n := code c in
  if ((48 <=? n) && (n <=? 57))%N then Some (Z.of_N n - 48)
  else if ((97 <=? n) && (n <=? 102))%N then Some (Z.of_N n - 87)
  else if ((65 <=? n) && (n <=? 70))%N then Some (Z.of_N n - 55)
  else None.

Definition radixValue (radix : Z) (c : ascii) : option Z :=
  if radix =? 16 then hexValue c
  else if isDigit c then Some (digitValue c) else None.

(** [s.replace(/C/g, '')] for a character class [C]: the characters of
    [s] that are not in the class. *)
Fixpoint remove (inClass : ascii -> bool) (s : string) : string :=
  match s with
  | EmptyString => EmptyString
  | String c r =>
      if inClass c then remove inClass r else String c (remove inClass r)
  end.

(** [s.split(/C+/)] for a character class [C]: the pieces of [s]
    between maximal runs of characters of the class; a run at either
    end leaves an empty piece there.  [inRun] tells that the character
    before [s] was in the class. *)
Fixpoint splitRuns (inClass : ascii -> bool) (s : string) (inRun : bool)
  : list string :=
  match s with
  | EmptyString => [EmptyString]
  | String c r =>
      if inClass c then
        if inRun then splitRuns inClass r true
        else EmptyString :: splitRuns inClass r true
      else
        match splitRuns inClass r false with
        | piece :: pieces => String c piece :: pieces
        | [] => [String c EmptyString]
        end
  end.

Fixpoint rev_onto (s acc : string) : string :=
  match s with
  | EmptyString => acc
  | String c r => rev_onto r (String c acc)
  end.

Definition rev (s : string) : string := rev_onto s EmptyString.

Fixpoint dropPrefix (p s : string) : option string :=
  match p, s with
  | EmptyString, _ => Some s
  | String a p', String b s' =>
      if Ascii.eqb a b then dropPrefix p' s' else None
  | String _ _, EmptyString => None
  end.

Definition bytes (l : list nat) : string :=
  string_of_list_ascii (List.map ascii_of_nat l).

(** The white space and line terminators of ECMAScript (what [trim]
    strips and [parseInt] skips), each as its UTF-8 bytes: TAB, LF, VT,
    FF, CR, SP, U+00A0, U+1680, U+2000 to U+200A, U+2028, U+2029,
    U+202F, U+205F, U+3000 and U+FEFF. *)
Definition whiteSpace : list string :=
  List.map bytes
    [ [9]; [10]; [11]; [12]; [13]; [32]; [194; 160]; [225; 154; 128];
      [226; 128; 128]; [226; 128; 129]; [226; 128; 130]; [226; 128; 131];
      [226; 128; 132]; [226; 128; 133]; [226; 128; 134]; [226; 128; 135];
      [226; 128; 136]; [226; 128; 137]; [226; 128; 138]; [226; 128; 168];
      [226; 128; 169]; [226; 128; 175]; [226; 129; 159]; [227; 128; 128];
      [239; 187; 191] ]%nat.

(** The rest of [s] after one leading member of [ws], if there is one. *)
Fixpoint dropOne (ws : list string) (s : string) : option string :=
  match ws with
  | [] => None
  | w :: ws' =>
      match dropPrefix w s with
      | Some r => Some r
      | None => dropOne ws' s
      end
  end.

(** Strips leading members of [ws]; every member is non-empty, so the
    string's length bounds the number of rounds. *)
Fixpoint dropWhile (fuel : nat) (ws : list string) (s : string) : string :=
  match fuel with
  | O => s
  | S fuel' =>
      match dropOne ws s with
      | Some r => dropWhile fuel' ws r
      | None => s
      end
  end.

Definition trimStart (s : string) : string :=
  dropWhile (String.length s) whiteSpace s.

Definition trimEnd (s : string) : string :=
  rev (dropWhile (String.length s) (List.map rev whiteSpace) (rev s)).

(** [String.prototype.trim]. *)
Definition trim (s : string) : string := trimEnd (trimStart s).

(** The longest prefix of digits of the radix, as the value it denotes
    (most significant digit first), and whether it is non-empty. *)
Fixpoint digitsValue (radix : Z) (s : string) (acc : Z) (seen : bool)
  : Z * bool :=
  match s with
  | EmptyString => (acc, seen)
  | String c r =>
      match radixValue radix c with
      | Some d => digitsValue radix r (radix * acc + d) true
      | None => (acc, seen)
      end
  end.

(** The digit of value [d] below 36: [0-9] then [a-z]. *)
Definition digitChar (d : N) : ascii :=
  if (d <? 10)%N then ascii_of_N (48 + d) else ascii_of_N (87 + d).

(** The digits of a natural number in a radix, most significant first.
    Every round divides by the radix, which is at least two, so the
    binary size of [n] is fuel enough. *)
Fixpoint numeralFuel (fuel : nat) (radix n : N) (acc : string) : string :=
  match fuel with
  | O => acc
  | S fuel' =>
      let acc' := String (digitChar (n mod radix)) acc in
      if (n <? radix)%N then acc'
      else numeralFuel fuel' radix (n / radix)%N acc'
  end.

Definition numeral (radix n : N) : string :=
  numeralFuel (S (N.to_nat (N.log2 n))) radix n EmptyString.

Definition decimal (n : N) : string := numeral 10 n.

(** [Array.prototype.join]. *)
Definition join (sep : string) (l : list string) : string :=
  String.concat sep l.

End Str.

(** ** Numbers *)

(** What [parseInt] returns: [NaN] or an integer. *)
Inductive number : Type :=
| NaN
| Int (z : Z).

(** [a < b] and [a > b] on numbers: false as soon as a side is [NaN]. *)
Definition lessThan (a : number) (b : Z) : bool :=
  match a with NaN => false | Int z => z <? b end.

Definition greaterThan (a : number) (b : Z) : bool :=
  match a with NaN => false | Int z => b <? z end.

(** [x || 0] on a number. *)
Definition orZero (a : number) : Z :=
  match a with NaN => 0 | Int z => z end.

(** [Number.prototype.toString] and the string a number becomes in a
    template literal or as a property key (safe integers). *)
Definition Z_toString (z : Z) : string :=
  if z <? 0 then "-" ++ Str.decimal (Z.to_N (- z)) else Str.decimal (Z.to_N z).

Definition Number_toString (a : number) : string :=
  match a with NaN => "NaN" | Int z => Z_toString z end.

(** [parseInt(s)] with no radix: leading white space is skipped, a sign
    is read, [0x] or [0X] switches to radix 16, and the longest prefix of
    digits is the value; no digit at all gives [NaN]. *)
Definition parseInt (s : string) : number :=
  let s1 := Str.trimStart s in
  let '(negative, s2) :=
    match s1 with
    | String "-" r => (true, r)
    | String "+" r => (false, r)
    | _ => (false, s1)
    end in
  let '(radix, s3) :=
    match s2 with
    | String "0" (String "x" r) => (16, r)
    | String "0" (String "X" r) => (16, r)
    | _ => (10, s2)
    end in
  match Str.digitsValue radix s3 0 false with
  | (v, true) => Int (if negative then - v else v)
  | (_, false) => NaN
  end.

(** [Math.round]: the nearest integer, halves going up. *)
Definition Math_round (q : Q) : Z := Qfloor (q + (1 # 2)).

(** The locales the script names. *)
Inductive Locale : Type := en_US | de_DE | it_IT.

(** The grouping separator of a locale (CLDR): a comma for [en-US], a
    full stop for [de-DE] and [it-IT]. *)
Definition groupSeparator (l : Locale) : string :=
  match l with en_US => "," | de_DE => "." | it_IT => "." end.

(** Digits in groups of three counted from the right. *)
Fixpoint group3 (sep : string) (digits : string) : string :=
  match digits with
  | EmptyString => EmptyString
  | String d rest =>
      let n := String.length rest in
      String d
        (if (negb (n =? 0)%nat && (n mod 3 =? 0)%nat)%bool
         then sep ++ group3 sep rest
         else group3 sep rest)
  end.

(** [Number.prototype.toLocaleString] on an integer. *)
Definition toLocaleString (l : Locale) (z : Z) : string :=
  if z <? 0
  then "-" ++ group3 (groupSeparator l) (Str.decimal (Z.to_N (- z)))
  else group3 (groupSeparator l) (Str.decimal (Z.to_N z)).

(** [a || b] on strings that may be missing: the first that is neither
    missing nor empty. *)
Definition orElse (a : option string) (b : string) : string :=
  match a with
  | Some s => if String.eqb s "" then b else s
  | None => b
  end.

(** A number that need not be finite: what [parseFloat] returns, and
    what a division gives. *)
Inductive float : Type :=
| FNaN
| FInfinity (negative : bool)
| FNum (q : Q).

(** [a / b] on numbers.  A division by zero throws nothing: the quotient
    is [NaN] when the dividend is zero too, and [Infinity] with the sign
    of the dividend otherwise (the zero of [Z] is [+0]). *)
Definition divide (a : Q) (b : Z) : float :=
  if b =? 0 then
    if Qeq_bool a 0 then FNaN else FInfinity (negb (Qle_bool 0 a))
  else FNum (a / inject_Z b).

(** The digits at the head of [s]: their value, how many there are, and
    the rest of the string. *)
Fixpoint leadingDigits (s : string) (acc : Z) (count : nat)
  : Z * nat * string :=
  match s with
  | String c r =>
      if Str.isDigit c
      then leadingDigits r (10 * acc + Str.digitValue c) (S count)
      else (acc, count, s)
  | EmptyString => (acc, count, s)
  end.

(** The exponent part at the head of [s]: [e] or [E], a sign or none, and
    at least one digit; 0 when there is no such part. *)
Definition exponentPart (s : string) : Z :=
  match s with
  | String c r =>
      if (Ascii.eqb c "e" || Ascii.eqb c "E")%bool then
        let '(negative, r') :=
          match r with
          | String "-" t => (true, t)
          | String "+" t => (false, t)
          | _ => (false, r)
          end in
        match leadingDigits r' 0 0 with
        | (_, O, _) => 0
        | (e, S _, _) => if negative then - e else e
        end
      else 0
  | EmptyString => 0
  end.

Definition power10 (e : Z) : Q :=
  if e <? 0 then 1 # Z.to_pos (10 ^ (- e)) else inject_Z (10 ^ e).

(** [parseFloat(s)]: the longest prefix of the trimmed string that is a
    decimal literal. *)
Definition parseFloat (s : string) : float :=
  let s1 := Str.trimStart s in
  let '(negative, s2) :=
    match s1 with
    | String "-" r => (true, r)
    | String "+" r => (false, r)
    | _ => (false, s1)
    end in
  match Str.dropPrefix "Infinity" s2 with
  | Some _ => FInfinity negative
  | None =>
      let '(whole, n1, s3) := leadingDigits s2 0 0 in
      let '(mantissa, n2, s4) :=
        match s3 with
        | String "." r =>
            let '(m, n, r') := leadingDigits r whole 0 in (m, n, r')
        | _ => (whole, O, s3)
        end in
      match n1, n2 with
      | O, O => FNaN
      | _, _ =>
          let q := (inject_Z mantissa * power10 (- Z.of_nat n2)
                    * power10 (exponentPart s4))%Q in
          FNum (if negative then (- q)%Q else q)
      end
  end.

(** ** The document *)

(** The two copies of the script in the sources: the first one, which
    identifies members by UUID strings, and the one after it, which
    identifies them by numbers. *)
Inductive Version : Type := Current | Legacy.

(** A member identifier: a string in the current script, a number in the
    legacy one. *)
Inductive ident : Type :=
| IdStr (s : string)
| IdNum (n : number).

(** [a === b] on identifiers: same type and same value, and [NaN] is
    equal to nothing. *)
Definition strictEq (a b : ident) : bool :=
  match a, b with
  | IdStr s, IdStr t => String.eqb s t
  | IdNum (Int x), IdNum (Int y) => x =? y
  | _, _ => false
  end.

(** An identifier inside a template literal. *)
Definition ident_toString (i : ident) : string :=
  match i with
  | IdStr s => s
  | IdNum n => Number_toString n
  end.

Module Member.
Record t : Type := mk { name : string; isSalvager : bool; id : ident }.
End Member.

Module Site.
Record t : Type :=
  mk { id : Z; name : string; level : number; participants : list ident }.
End Site.

Module Config.
(** [levelValues] and [levelNames] are JavaScript objects used as maps;
    their keys are strings (a numeric key is its decimal string).  The
    script tests both for absence, and [numberFormat] is absent from
    the legacy document, so these are optional, as [currency] is. *)
Record t : Type := mk {
  levelValues : option (gmap string Z);
  levelNames : option (gmap string string);
  hasSalvager : bool;
  salvagerPercent : float;
  currency : option string;
  autoCalculate : bool;
  numberFormat : option string
}.
End Config.

Record AppData : Type := mkAppData {
  config : Config.t;
  members : list Member.t;
  sites : list Site.t
}.

Module Payment.
Record t : Type := mk {
  memberId : ident;
  name : string;
  isSalvager : bool;
  sitesCount : Z;
  total : Q
}.
End Payment.

(** Arrays of payments are objects with an identity: [calculations]
    holds a reference, and the array itself lives in the heap. *)
Definition loc : Type := positive.

Record Calculations : Type := mkCalculations {
  totalPaid : Q;
  totalSites : Z;
  payments : loc
}.

(** ** Formatting *)

(** [formatNumber(num, format)]; the format falls back on the configured
    one and then on ['comma']. *)
Definition formatNumber (cfg : Config.t) (num : Q) (format : option string)
  : string :=
  let fmt := orElse format (orElse (Config.numberFormat cfg) "comma") in
  let num_int := Math_round num in
  if String.eqb fmt "space" then toLocaleString de_DE num_int
  else if String.eqb fmt "dot" then toLocaleString it_IT num_int
  else toLocaleString en_US num_int.

(** [parseFormattedNumber(str)]: every character that is not a digit is
    dropped and the rest is read as an integer; an empty string, or one
    with no digit, gives 0. *)
Definition parseFormattedNumber (str : string) : Z :=
  if String.eqb str "" then 0
  else orZero (parseInt (Str.remove (fun c => negb (Str.isDigit c)) str)).

(** ** Functions of the script as state transformers *)

(** A [TypeError] is what reading a property of [null] or [undefined]
    throws; [Error] is the one the script throws itself, and
    [SyntaxError] comes from [JSON.parse]. *)
Inductive Exception : Type :=
| TypeError
| SyntaxError
| Error (message : string).

Inductive Outcome (A : Type) : Type :=
| Ok (a : A)
| Throw (e : Exception).

Arguments Ok {A} a.
Arguments Throw {A} e.

(** A function of the script: from a state to what it returns, or the
    exception it throws, and the state it leaves. *)
Definition Script (S A : Type) : Type := S -> Outcome A * S.

Definition ret {S A : Type} (a : A) : Script S A := fun st => (Ok a, st).

Definition throw {S A : Type} (e : Exception) : Script S A := fun st => (Throw e, st).

Definition bind {S A B : Type} (m : Script S A) (k : A -> Script S B)
  : Script S B :=
  fun st =>
    match m st with
    | (Ok a, st') => k a st'
    | (Throw e, st') => (Throw e, st')
    end.

Notation "x <- m ;; k" := (bind m (fun x => k))
  (at level 20, m at level 99, k at level 200, only parsing).
Notation "m ;; k" := (bind m (fun _ => k))
  (at level 100, k at level 200, only parsing, right associativity).

Definition gets {S A : Type} (f : S -> A) : Script S A :=
  fun st => (Ok (f st), st).

Definition modify {S : Type} (f : S -> S) : Script S unit :=
  fun st => (Ok tt, f st).

(** The body of an [async function]: an exception inside it rejects the
    promise the call returns and does not reach the caller. *)
Definition async {S : Type} (m : Script S unit) : Script S unit :=
  fun st => (Ok tt, snd (m st)).

(** [try { m } catch (e) { handler e }]. *)
Definition tryCatch {S A : Type} (m : Script S A)
    (handler : Exception -> Script S A) : Script S A :=
  fun st =>
    match m st with
    | (Ok a, st') => (Ok a, st')
    | (Throw e, st') => handler e st'
    end.

(** [l.forEach(f)]. *)
Fixpoint forEach {S A : Type} (l : list A) (f : A -> Script S unit)
  : Script S unit :=
  match l with
  | [] => ret tt
  | x :: l' => f x ;; forEach l' f
  end.

(** [l.map(f)] for a callback that may throw. *)
Fixpoint mapM {S A B : Type} (f : A -> Script S B) (l : list A)
  : Script S (list B) :=
  match l with
  | [] => ret []
  | x :: l' => y <- f x ;; ys <- mapM f l' ;; ret (y :: ys)
  end.

(** ** The state of the page *)

(** An element of the page, by the properties the script reads and
    writes: [value], [checked], [dataset.rawValue], [disabled], and
    [content] for [textContent] and [innerHTML].  Styles and CSS classes
    are not modelled. *)
Record Element : Type := mkElement {
  value : string;
  checked : bool;
  rawValue : option string;
  content : string;
  disabled : bool
}.

Definition emptyElement : Element := mkElement "" false None "" false.

(** A message shown in the active section: its class and its text. *)
Record Toast : Type := mkToast { className : string; textContent : string }.

Definition set_value (s : string) (e : Element) : Element :=
  mkElement s (checked e) (rawValue e) (content e) (disabled e).

Definition set_checked (b : bool) (e : Element) : Element :=
  mkElement (value e) b (rawValue e) (content e) (disabled e).

Definition set_content (s : string) (e : Element) : Element :=
  mkElement (value e) (checked e) (rawValue e) s (disabled e).

Definition set_disabled (b : bool) (e : Element) : Element :=
  mkElement (value e) (checked e) (rawValue e) (content e) b.


(** ** Text of the page *)

(** A double quote, a line break, and a line break followed by [k]
    spaces and a text: the pieces the template literals are made of. *)
Definition dq : string := String (ascii_of_nat 34) EmptyString.

Definition quoted (s : string) : string := dq ++ s ++ dq.

Definition nl : string := String (ascii_of_nat 10) EmptyString.

Fixpoint spaces (k : nat) : string :=
  match k with
  | O => EmptyString
  | S k' => String " " (spaces k')
  end.

Definition ln (k : nat) (s : string) : string := nl ++ spaces k ++ s.

(** A number in a radix, as [Number.prototype.toString(radix)] writes an
    integer. *)
Definition Z_toStringRadix (radix : N) (z : Z) : string :=
  if z <? 0 then "-" ++ Str.numeral radix (Z.to_N (- z))
  else Str.numeral radix (Z.to_N z).

(** [x | 0] on a fraction: the integer part, wrapped to 32 bits. *)
Definition toInt32 (q : Q) : Z :=
  let t := if Qle_bool 0 q then Qfloor q else Qceiling q in
  (t + 2 ^ 31) mod 2 ^ 32 - 2 ^ 31.

(** Everything a function of the script can read or write.  The type
    [D] of the document is a parameter: the functions that edit the
    document take it as [AppData], and the import of a file, which moves
    whatever it has parsed, takes it as raw JSON.
    - [appData], [calculations], [saveTimeout]: the script's globals
      ([saveTimeout] only tells whether a save is pending);
    - [heap]: the arrays [calculations.payments] may refer to;
    - [page]: the elements that have an id; [participantChecks]: the
      elements of class [participant-check], in document order;
      [activeSection]: the messages in the section of the active tab, if
      there is such a section;
    - [alerts], [console]: what [alert] has shown and what was logged;
    - [locale]: the default locale of the browser;
    - [clock], [randoms], [answers]: what the coming calls of
      [Date.now()], [Math.random()] and [confirm()] return. *)
Section Page.

Context {D : Type}.

Record State : Type := mkState {
  appData : D;
  calculations : option Calculations;
  saveTimeout : bool;
  heap : gmap loc (list Payment.t);
  page : gmap string Element;
  participantChecks : list Element;
  activeSection : option (list Toast);
  alerts : list string;
  console : list string;
  locale : Locale;
  clock : nat -> Z;
  randoms : nat -> Q;
  answers : nat -> bool
}.

Definition set_appData (f : D -> D) (st : State) : State :=
  mkState (f (appData st)) (calculations st) (saveTimeout st) (heap st)
    (page st) (participantChecks st) (activeSection st) (alerts st)
    (console st) (locale st) (clock st) (randoms st) (answers st).

Definition set_saveTimeout (b : bool) (st : State) : State :=
  mkState (appData st) (calculations st) b (heap st)
    (page st) (participantChecks st) (activeSection st) (alerts st)
    (console st) (locale st) (clock st) (randoms st) (answers st).

Definition set_heap (f : gmap loc (list Payment.t) -> gmap loc (list Payment.t))
    (st : State) : State :=
  mkState (appData st) (calculations st) (saveTimeout st) (f (heap st))
    (page st) (participantChecks st) (activeSection st) (alerts st)
    (console st) (locale st) (clock st) (randoms st) (answers st).

Definition set_page (f : gmap string Element -> gmap string Element)
    (st : State) : State :=
  mkState (appData st) (calculations st) (saveTimeout st) (heap st)
    (f (page st)) (participantChecks st) (activeSection st) (alerts st)
    (console st) (locale st) (clock st) (randoms st) (answers st).

Definition set_participantChecks (f : list Element -> list Element)
    (st : State) : State :=
  mkState (appData st) (calculations st) (saveTimeout st) (heap st)
    (page st) (f (participantChecks st)) (activeSection st) (alerts st)
    (console st) (locale st) (clock st) (randoms st) (answers st).

Definition set_activeSection (s : option (list Toast)) (st : State) : State :=
  mkState (appData st) (calculations st) (saveTimeout st) (heap st)
    (page st) (participantChecks st) s (alerts st)
    (console st) (locale st) (clock st) (randoms st) (answers st).

Definition set_alerts (f : list string -> list string) (st : State) : State :=
  mkState (appData st) (calculations st) (saveTimeout st) (heap st)
    (page st) (participantChecks st) (activeSection st) (f (alerts st))
    (console st) (locale st) (clock st) (randoms st) (answers st).

Definition set_console (f : list string -> list string) (st : State) : State :=
  mkState (appData st) (calculations st) (saveTimeout st) (heap st)
    (page st) (participantChecks st) (activeSection st) (alerts st)
    (f (console st)) (locale st) (clock st) (randoms st) (answers st).

Definition set_clock (f : (nat -> Z) -> nat -> Z) (st : State) : State :=
  mkState (appData st) (calculations st) (saveTimeout st) (heap st)
    (page st) (participantChecks st) (activeSection st) (alerts st)
    (console st) (locale st) (f (clock st)) (randoms st) (answers st).

Definition set_randoms (f : (nat -> Q) -> nat -> Q) (st : State) : State :=
  mkState (appData st) (calculations st) (saveTimeout st) (heap st)
    (page st) (participantChecks st) (activeSection st) (alerts st)
    (console st) (locale st) (clock st) (f (randoms st)) (answers st).

Definition set_answers (f : (nat -> bool) -> nat -> bool) (st : State)
  : State :=
  mkState (appData st) (calculations st) (saveTimeout st) (heap st)
    (page st) (participantChecks st) (activeSection st) (alerts st)
    (console st) (locale st) (clock st) (randoms st) (f (answers st)).

(** [logAction(action, details)] writes a line on the console; the model
    keeps the action and drops the details. *)
Definition logAction (action : string) : Script State unit :=
  modify (set_console (fun c => (c ++ [action])%list)).

(** [console.warn] and [console.error]. *)
Definition consoleWrite (text : string) : Script State unit :=
  modify (set_console (fun c => (c ++ [text])%list)).

Definition alert (message : string) : Script State unit :=
  modify (set_alerts (fun a => (a ++ [message])%list)).

(** [confirm(message)]: the next answer of the user. *)
Definition confirm : Script State bool :=
  fun st => (Ok (answers st O), set_answers (fun a n => a (S n)) st).

Definition Date_now : Script State Z :=
  fun st => (Ok (clock st O), set_clock (fun c n => c (S n)) st).

Definition Math_random : Script State Q :=
  fun st => (Ok (randoms st O), set_randoms (fun r n => r (S n)) st).

Definition getElementById (id : string) : Script State (option Element) :=
  gets (fun st => page st !! id).

(** Reading a property of what [getElementById] returned. *)
Definition property {A : Type} (id : string) (get : Element -> A) : Script State A :=
  e <- getElementById id ;;
  match e with
  | Some el => ret (get el)
  | None => throw TypeError
  end.

(** Writing a property of what [getElementById] returned. *)
Definition assign (id : string) (set : Element -> Element) : Script State unit :=
  e <- getElementById id ;;
  match e with
  | Some el => modify (set_page (fun p => <[id := set el]> p))
  | None => throw TypeError
  end.

(** The callback of [generateUUID] on one character of the pattern. *)
Definition uuidChar (c : ascii) : Script State string :=
  if (Ascii.eqb c "x" || Ascii.eqb c "y")%bool then
    rnd <- Math_random ;;
    let r := toInt32 (rnd * 16) in
    let v := if Ascii.eqb c "x" then r else Z.lor (Z.land r 3) 8 in
    ret (Z_toStringRadix 16 v)
  else ret (String c EmptyString).

(** [pattern.replace(/[xy]/g, callback)]. *)
Fixpoint replaceXY (pattern : string) : Script State string :=
  match pattern with
  | EmptyString => ret EmptyString
  | String c r => s <- uuidChar c ;; t <- replaceXY r ;; ret (s ++ t)
  end.

Definition generateUUID : Script State string :=
  replaceXY "xxxxxxxx-xxxx-4xxx-yxxx-xxxxxxxxxxxx".

(** The identifier [addMember] gives a new member: [generateUUID()] in
    the current script, [Date.now() + Math.floor(Math.random()*1000)] in
    the legacy one. *)
Definition newId (v : Version) : Script State ident :=
  match v with
  | Current => s <- generateUUID ;; ret (IdStr s)
  | Legacy =>
      now <- Date_now ;;
      rnd <- Math_random ;;
      ret (IdNum (Int (now + Qfloor (rnd * 1000))))
  end.

Definition showMessage (message type : string) : Script State unit :=
  logAction "UI_MESSAGE_DISPLAY" ;;
  let className :=
    if String.eqb type "success" then "success-message" else "error-message" in
  section <- gets activeSection ;;
  match section with
  | None => consoleWrite "No active section found for message display"
  | Some toasts =>
      modify (set_activeSection (Some (mkToast className message :: toasts)))
  end.

Definition updateDataStatus (status : string) : Script State unit :=
  logAction "UI_DATA_STATUS_UPDATE" ;;
  if String.eqb status "saving"
  then assign "dataStatus" (set_content "Guardando...")
  else assign "dataStatus" (set_content "Guardado").

(** [saveData()] up to the point where it has armed its timer; what the
    timer does later (the request to the server and the new
    [calculations]) is another turn of the event loop. *)
Definition saveData : Script State unit :=
  async (
    logAction "DATA_SAVE_TRIGGERED" ;;
    updateDataStatus "saving" ;;
    modify (set_saveTimeout true)).

End Page.

Arguments State D : clear implicits.

(** The functions that edit the document run on a state that holds an
    [AppData]. *)
Abbreviation M := (Script (State AppData)).

Definition nat_toString (n : nat) : string := Z_toString (Z.of_nat n).

Definition updateBadges : M unit :=
  memberCount <- gets (fun st => length (members (appData st))) ;;
  siteCount <- gets (fun st => length (sites (appData st))) ;;
  assign "memberBadge" (set_content (nat_toString memberCount)) ;;
  assign "siteBadge" (set_content (nat_toString siteCount)) ;;
  logAction "UI_BADGES_UPDATE".

Definition updateAutoCalcIndicator : M unit :=
  auto <- gets (fun st => Config.autoCalculate (config (appData st))) ;;
  if auto : bool
  then assign "autoCalcIndicator" (set_content "Cálculo Automático")
  else assign "autoCalcIndicator" (set_content "Manual").

Definition checkMembersExist : M unit :=
  addSiteBtn <- getElementById "addSiteBtn" ;;
  count <- gets (fun st => length (members (appData st))) ;;
  match addSiteBtn with
  | Some el =>
      modify (set_page (fun p =>
        <["addSiteBtn" := set_disabled (count =? 0)%nat el]> p))
  | None => ret tt
  end.

Definition emptyState (first second : string) : string :=
  "<div class=" ++ quoted "empty-state" ++ "><p>" ++ first ++ "</p><p style="
  ++ quoted "font-size: 0.9em; margin-top: 10px;" ++ ">" ++ second
  ++ "</p></div>".

Definition memberItem (v : Version) (m : Member.t) : string :=
  ln 8 "<div class="
  ++ quoted ("member-item " ++ (if Member.isSalvager m then "salvager" else ""))
  ++ ">"
  ++ ln 12 "<div class=" ++ quoted "member-info" ++ ">"
  ++ ln 16 "<span>" ++ Member.name m ++ "</span>"
  ++ ln 16 ""
  ++ (if Member.isSalvager m
      then "<span class=" ++ quoted "salvager-tag" ++ ">SALVAGER</span>"
      else "")
  ++ ln 12 "</div>"
  ++ ln 12 "<div class=" ++ quoted "member-controls" ++ ">"
  ++ ln 16 "<button class=" ++ quoted "btn btn-danger" ++ " onclick="
  ++ quoted ("removeMember("
             ++ match v with
                | Current => "'" ++ ident_toString (Member.id m) ++ "'"
                | Legacy => ident_toString (Member.id m)
                end
             ++ ")")
  ++ ">Eliminar</button>"
  ++ ln 12 "</div>"
  ++ ln 8 "</div>"
  ++ ln 4 "".

Definition updateMembersList (v : Version) : M unit :=
  ms <- gets (fun st => members (appData st)) ;;
  assign "memberCount" (set_content (nat_toString (length ms))) ;;
  if (length ms =? 0)%nat then
    assign "membersList"
      (set_content (emptyState "No hay miembros registrados"
                      "Agrega miembros para comenzar"))
  else
    assign "membersList"
      (set_content (Str.join "" (List.map (memberItem v) ms))).

(** What follows a salvager's name: the word in the current script, a
    star (U+2B50) in the legacy one. *)
Definition salvagerMark (v : Version) (isSalvager : bool) : string :=
  if isSalvager
  then match v with Current => "Salvager" | Legacy => " ⭐" end
  else "".

Definition participantLabel (v : Version) (m : Member.t) : string :=
  ln 8 "<label class=" ++ quoted "checkbox-label" ++ ">"
  ++ ln 12 "<input type=" ++ quoted "checkbox" ++ " value="
  ++ quoted (ident_toString (Member.id m)) ++ " class="
  ++ quoted "participant-check" ++ ">"
  ++ ln 12 "<span>" ++ Member.name m
  ++ salvagerMark v (Member.isSalvager m) ++ "</span>"
  ++ ln 8 "</label>"
  ++ ln 4 "".

(** Writing the container's [innerHTML] replaces the check boxes: one
    for each member, with the member's identifier as value, unchecked. *)
Definition updateParticipantCheckboxes (v : Version) : M unit :=
  ms <- gets (fun st => members (appData st)) ;;
  if (length ms =? 0)%nat then
    assign "participantCheckboxes"
      (set_content ("<p style=" ++ quoted "color: #6c7293;"
                    ++ ">Agrega miembros primero</p>")) ;;
    modify (set_participantChecks (fun _ => []))
  else
    assign "participantCheckboxes"
      (set_content (Str.join "" (List.map (participantLabel v) ms))) ;;
    modify (set_participantChecks (fun _ =>
      List.map (fun m => set_value (ident_toString (Member.id m)) emptyElement)
        ms)).

Definition uncheckAll : M unit :=
  modify (set_participantChecks (List.map (set_checked false))).

Definition clearSiteForm : M unit :=
  logAction "SITE_FORM_CLEAR" ;;
  assign "siteName" (set_value "") ;;
  assign "siteLevel" (set_value "1") ;;
  uncheckAll.

(** ** The roster *)

Definition with_config (f : Config.t -> Config.t) (d : AppData) : AppData :=
  mkAppData (f (config d)) (members d) (sites d).

Definition with_members (f : list Member.t -> list Member.t) (d : AppData)
  : AppData :=
  mkAppData (config d) (f (members d)) (sites d).

Definition with_sites (f : list Site.t -> list Site.t) (d : AppData)
  : AppData :=
  mkAppData (config d) (members d) (f (sites d)).

(** The class [[\n,]]. *)
Definition isDelimiter (c : ascii) : bool :=
  (Ascii.eqb c (ascii_of_nat 10) || Ascii.eqb c ",")%bool.

(** [Boolean(s)] on a string. *)
Definition nonEmpty (s : string) : bool := negb (String.eqb s "").

(** [raw.split(/[\n,]+/).map(n => n.trim()).filter(Boolean)]. *)
Definition namesOf (raw : string) : list string :=
  List.filter nonEmpty (List.map Str.trim (Str.splitRuns isDelimiter raw false)).

(** The fields of a text that commas and line breaks delimit: one more
    than there are delimiters. *)
Fixpoint fields (s : string) : list string :=
  match s with
  | EmptyString => [EmptyString]
  | String c r =>
      if isDelimiter c then EmptyString :: fields r
      else
        match fields r with
        | field :: rest => String c field :: rest
        | [] => [String c EmptyString]
        end
  end.

(** The names a text holds, in the words of the specification: its
    fields without the white space around them, blank fields left out. *)
Definition delimitedNames (raw : string) : list string :=
  List.filter nonEmpty (List.map Str.trim (fields raw)).

Definition pushMember (v : Version) (isSalvager : bool) (n : string) : M unit :=
  i <- newId v ;;
  modify (set_appData (with_members (fun ms =>
    (ms ++ [Member.mk n isSalvager i])%list))).

Definition addMember (v : Version) : M unit :=
  logAction "MEMBER_ADD_ATTEMPT" ;;
  raw <- property "memberName" value ;;
  isSalvager <- property "isSalvager" checked ;;
  let names := namesOf raw in
  if (length names =? 0)%nat then
    logAction "MEMBER_ADD_VALIDATION_FAILED" ;;
    alert "Ingresa un nombre"
  else
    logAction "MEMBER_ADD_SUCCESS" ;;
    forEach names (pushMember v isSalvager) ;;
    assign "memberName" (set_value "") ;;
    assign "isSalvager" (set_checked false) ;;
    saveData ;;
    updateMembersList v ;;
    updateParticipantCheckboxes v ;;
    updateBadges ;;
    checkMembersExist ;;
    showMessage (nat_toString (length names) ++ " miembro(s) agregado(s)")
      "success".

Definition removeMember (v : Version) (id : ident) : M unit :=
  logAction "MEMBER_REMOVE_ATTEMPT" ;;
  confirmed <- confirm ;;
  if negb confirmed then
    logAction "MEMBER_REMOVE_CANCELLED"
  else
    logAction "MEMBER_REMOVE_CONFIRMED" ;;
    modify (set_appData (with_members
      (List.filter (fun m => negb (strictEq (Member.id m) id))))) ;;
    saveData ;;
    updateMembersList v ;;
    updateParticipantCheckboxes v ;;
    updateBadges ;;
    checkMembersExist.

(** ** Sites *)

(** [members.find(m => m.id === pid)]. *)
Definition findMember (ms : list Member.t) (pid : ident) : option Member.t :=
  List.find (fun m => strictEq (Member.id m) pid) ms.

Definition participantName (ms : list Member.t) (pid : ident) : string :=
  match findMember ms pid with
  | Some member => Member.name member
  | None => "Desconocido"
  end.

(** [map[key] || 0]. *)
Definition valueOr0 (m : gmap string Z) (key : string) : Z :=
  match m !! key with
  | Some v => v
  | None => 0
  end.

(** One row of the table of sites, from its five cells. *)
Definition siteRowHtml (name levelName participantNames value id : string)
  : string :=
  ln 24 "<tr>"
  ++ ln 28 "<td><strong>" ++ name ++ "</strong></td>"
  ++ ln 28 "<td>" ++ levelName ++ "</td>"
  ++ ln 28 "<td style=" ++ quoted "font-size: 0.85em;" ++ ">"
  ++ participantNames ++ "</td>"
  ++ ln 28 "<td>" ++ value ++ "</td>"
  ++ ln 28 "<td><button class=" ++ quoted "btn btn-danger" ++ " onclick="
  ++ quoted ("removeSite(" ++ id ++ ")") ++ ">Eliminar</button></td>"
  ++ ln 24 "</tr>"
  ++ ln 20 "".

Definition sitesTableHtml (rows : string) : string :=
  ln 8 "<table>"
  ++ ln 12 "<thead>"
  ++ ln 16 "<tr>"
  ++ ln 20 "<th>Sitio</th>"
  ++ ln 20 "<th>Nivel</th>"
  ++ ln 20 "<th>Participantes</th>"
  ++ ln 20 "<th>Valor</th>"
  ++ ln 20 "<th>Acción</th>"
  ++ ln 16 "</tr>"
  ++ ln 12 "</thead>"
  ++ ln 12 "<tbody>"
  ++ ln 16 "" ++ rows
  ++ ln 12 "</tbody>"
  ++ ln 8 "</table>"
  ++ ln 4 "".

(** The amount in the fourth cell: [formatNumber(levelValue)] in the
    current script, [levelValue.toLocaleString()] in the legacy one. *)
Definition formatLevelValue (v : Version) (l : Locale) (cfg : Config.t)
    (levelValue : Z) : string :=
  match v with
  | Current => formatNumber cfg (inject_Z levelValue) None
  | Legacy => toLocaleString l levelValue
  end.

(** [participantNames] in the callback of [updateSitesList]: every
    participant by name, or as unknown, joined by commas. *)
Definition participantNames (ms : list Member.t) (s : Site.t) : string :=
  Str.join ", " (List.map (participantName ms) (Site.participants s)).

(** [levelName] there: the configured name if there is one and it is not
    empty. *)
Definition levelNameOf (cfg : Config.t) (key : string) : string :=
  match Config.levelNames cfg with
  | Some names =>
      match names !! key with
      | Some n => if nonEmpty n then n else "Nivel " ++ key
      | None => "Nivel " ++ key
      end
  | None => "Nivel " ++ key
  end.

(** The row of a site, given the map of level values. *)
Definition siteRowOf (v : Version) (l : Locale) (cfg : Config.t)
    (values : gmap string Z) (ms : list Member.t) (s : Site.t) : string :=
  let key := Number_toString (Site.level s) in
  let levelValue := valueOr0 values key in
  let value :=
    formatLevelValue v l cfg levelValue ++ " "
    ++ orElse (Config.currency cfg) "ISK" in
  siteRowHtml (Site.name s) (levelNameOf cfg key) (participantNames ms s) value
    (Z_toString (Site.id s)).

(** The callback of [appData.sites.map] in [updateSitesList]; reading a
    key of [levelValues] throws when the map itself is missing. *)
Definition siteRow (v : Version) (s : Site.t) : M string :=
  ms <- gets (fun st => members (appData st)) ;;
  cfg <- gets (fun st => config (appData st)) ;;
  l <- gets locale ;;
  match Config.levelValues cfg with
  | None => throw TypeError
  | Some values => ret (siteRowOf v l cfg values ms s)
  end.

Definition updateSitesList (v : Version) : M unit :=
  ss <- gets (fun st => sites (appData st)) ;;
  let totalSites := length ss in
  assign "siteCount" (set_content (nat_toString totalSites)) ;;
  if (totalSites =? 0)%nat then
    assign "sitesList"
      (set_content (emptyState "No hay sitios registrados"
                      "Registra sitios para comenzar a calcular pagos"))
  else
    rows <- mapM (siteRow v) ss ;;
    assign "sitesList" (set_content (sitesTableHtml (Str.join "" rows))).

(** The identifier a checked box stands for: its [value] in the current
    script, [parseInt] of it in the legacy one. *)
Definition participantId (v : Version) (cb : Element) : ident :=
  match v with
  | Current => IdStr (value cb)
  | Legacy => IdNum (parseInt (value cb))
  end.

Definition addSite (v : Version) : M unit :=
  logAction "SITE_ADD_ATTEMPT" ;;
  siteName <- property "siteName" value ;;
  let name := Str.trim siteName in
  siteLevel <- property "siteLevel" value ;;
  let level := parseInt siteLevel in
  if negb (nonEmpty name) then
    logAction "SITE_ADD_VALIDATION_FAILED" ;;
    alert "Ingresa un nombre para el sitio"
  else if (lessThan level 1 || greaterThan level 10)%bool then
    logAction "SITE_ADD_VALIDATION_FAILED" ;;
    alert "El nivel debe estar entre 1 y 10"
  else
    boxes <- gets participantChecks ;;
    let participantIds :=
      List.map (participantId v) (List.filter checked boxes) in
    if (length participantIds =? 0)%nat then
      logAction "SITE_ADD_VALIDATION_FAILED" ;;
      alert "Selecciona al menos un participante"
    else
      now <- Date_now ;;
      let siteData := Site.mk now name level participantIds in
      logAction "SITE_ADD_SUCCESS" ;;
      modify (set_appData (with_sites (fun ss => (ss ++ [siteData])%list))) ;;
      clearSiteForm ;;
      saveData ;;
      updateSitesList v ;;
      updateBadges ;;
      showMessage "Sitio registrado correctamente" "success".

(** ** Payments *)

(** [Array.prototype.sort(compare)] on the elements: [x] goes before [y]
    when [compare x y] is negative and after it when positive, and
    elements that compare as equal keep their order (the sort is stable).
    Insertion from the right: [x] stood before every element of [l]. *)
Fixpoint insertSorted {A : Type} (compare : A -> A -> Q) (x : A) (l : list A)
  : list A :=
  match l with
  | [] => [x]
  | y :: l' =>
      if Qle_bool (compare x y) 0 then x :: y :: l'
      else y :: insertSorted compare x l'
  end.

Definition sorted {A : Type} (compare : A -> A -> Q) (l : list A) : list A :=
  List.fold_right (insertSorted compare) [] l.

(** Reading the array behind a reference; a reference to nothing is a
    [payments] that is not an array. *)
Definition readArray (a : loc) : M (list Payment.t) :=
  h <- gets heap ;;
  match h !! a with
  | Some items => ret items
  | None => throw TypeError
  end.

(** [[...a]]: a new array with the elements of [a]. *)
Definition spread (a : loc) : M loc :=
  items <- readArray a ;;
  h <- gets heap ;;
  let b := fresh (dom h) in
  modify (set_heap (fun h => <[b := items]> h)) ;;
  ret b.

(** [a.sort(compare)] sorts the array [a] itself and returns it. *)
Definition Array_sort (compare : Payment.t -> Payment.t -> Q) (a : loc)
  : M loc :=
  items <- readArray a ;;
  modify (set_heap (fun h => <[a := sorted compare items]> h)) ;;
  ret a.

(** [(a, b) => b.total - a.total]. *)
Definition byTotalDescending (a b : Payment.t) : Q :=
  (Payment.total b - Payment.total a)%Q.

(** [a] may stand before [b] in a list by descending total. *)
Definition totalGe (a b : Payment.t) : Prop :=
  (Payment.total b <= Payment.total a)%Q.

(** An amount as the payments panel writes it: [formatNumber(x)] in the
    current script, [Math.round(x).toLocaleString()] in the legacy one. *)
Definition formatAmount (v : Version) (l : Locale) (cfg : Config.t) (x : Q)
  : string :=
  match v with
  | Current => formatNumber cfg x None
  | Legacy => toLocaleString l (Math_round x)
  end.

(** The same on a number that need not be finite: [Math.round] leaves
    [NaN] and the infinities as they are, and [toLocaleString] writes
    them "NaN", "∞" and "-∞" in the locales of the script. *)
Definition formatFloat (v : Version) (l : Locale) (cfg : Config.t) (x : float)
  : string :=
  match x with
  | FNum q => formatAmount v l cfg q
  | FNaN => "NaN"
  | FInfinity negative => if negative then "-∞" else "∞"
  end.

Definition paymentItem (v : Version) (l : Locale) (cfg : Config.t)
    (currency : string) (p : Payment.t) : string :=
  ln 8 "<div class="
  ++ quoted ("payment-item "
             ++ (if Payment.isSalvager p then "salvager" else ""))
  ++ ">"
  ++ ln 12 "<div class=" ++ quoted "payment-name" ++ ">" ++ Payment.name p
  ++ salvagerMark v (Payment.isSalvager p) ++ "</div>"
  ++ ln 12 "<div style=" ++ quoted "color: #9ca3b8; font-size: 0.85em;" ++ ">"
  ++ Z_toString (Payment.sitesCount p) ++ " sitio(s)</div>"
  ++ ln 12 "<div class=" ++ quoted "payment-amount" ++ ">"
  ++ formatAmount v l cfg (Payment.total p) ++ " " ++ currency ++ "</div>"
  ++ ln 8 "</div>"
  ++ ln 4 "".

Definition noPayments (text : string) : string :=
  "<div class=" ++ quoted "empty-state" ++ "><p>" ++ text ++ "</p></div>".

Definition updatePaymentsDisplay (v : Version) : M unit :=
  cfg <- gets (fun st => config (appData st)) ;;
  l <- gets locale ;;
  let currency := orElse (Config.currency cfg) "ISK" in
  calc <- gets calculations ;;
  match calc with
  | None =>
      assign "totalPaid" (set_content ("0 " ++ currency)) ;;
      assign "totalSites" (set_content "0") ;;
      assign "avgPerSite" (set_content ("0 " ++ currency)) ;;
      assign "paymentsList" (set_content (noPayments "No hay datos de pagos"))
  | Some c =>
      assign "totalPaid"
        (set_content (formatAmount v l cfg (totalPaid c) ++ " " ++ currency)) ;;
      assign "totalSites" (set_content (Z_toString (totalSites c))) ;;
      let avgPerSite :=
        if 0 <? totalSites c
        then divide (totalPaid c) (totalSites c)
        else FNum 0 in
      assign "avgPerSite"
        (set_content (formatFloat v l cfg avgPerSite ++ " " ++ currency)) ;;
      items <- readArray (payments c) ;;
      if (length items =? 0)%nat then
        assign "paymentsList" (set_content (noPayments "Sin pagos"))
      else
        copy <- spread (payments c) ;;
        sortedPayments <- Array_sort byTotalDescending copy ;;
        shown <- readArray sortedPayments ;;
        assign "paymentsList"
          (set_content
             (Str.join "" (List.map (paymentItem v l cfg currency) shown)))
  end.

(** ** Configuration *)

Definition with_levelValues (f : option (gmap string Z) -> option (gmap string Z))
    (c : Config.t) : Config.t :=
  Config.mk (f (Config.levelValues c)) (Config.levelNames c)
    (Config.hasSalvager c) (Config.salvagerPercent c) (Config.currency c)
    (Config.autoCalculate c) (Config.numberFormat c).

Definition with_levelNames
    (f : option (gmap string string) -> option (gmap string string))
    (c : Config.t) : Config.t :=
  Config.mk (Config.levelValues c) (f (Config.levelNames c))
    (Config.hasSalvager c) (Config.salvagerPercent c) (Config.currency c)
    (Config.autoCalculate c) (Config.numberFormat c).

(** [object[key] = x] on an object used as a map; the caller has made
    sure the object is there. *)
Definition store {A : Type} (key : string) (x : A) (o : option (gmap string A))
  : option (gmap string A) :=
  match o with
  | Some m => Some (<[key := x]> m)
  | None => None
  end.

(** [if (!o) o = {}]. *)
Definition orEmpty {A : Type} (o : option (gmap string A))
  : option (gmap string A) :=
  match o with
  | Some m => Some m
  | None => Some ∅
  end.

(** One round of the loop of [saveConfig] for the level [i]; the result
    tells whether the loop goes on ([false] is the [return] after the
    error message). *)
Definition saveLevel (i : Z) : M bool :=
  let n := Z_toString i in
  raw <- property ("level" ++ n) rawValue ;;
  shown <- property ("level" ++ n) value ;;
  let levelValue := parseFormattedNumber (orElse raw shown) in
  nameInput <- getElementById ("levelName" ++ n) ;;
  let typed :=
    match nameInput with
    | Some el => value el
    | None => "Sitio " ++ n
    end in
  let levelName := orElse (Some (Str.trim typed)) ("Sitio " ++ n) in
  if ((levelValue <? 0) || (999999999999 <? levelValue))%bool then
    showMessage ("Valor de nivel " ++ n ++ " inválido") "error" ;;
    ret false
  else
    modify (set_appData (with_config (fun c =>
      with_levelNames (fun o => store n levelName (store n levelName o))
        (with_levelValues (fun o => store n levelValue (store n levelValue o))
           c)))) ;;
    ret true.

(** A [for] loop whose body can [return] from the function. *)
Fixpoint forLevels (body : Z -> M bool) (levels : list Z) : M bool :=
  match levels with
  | [] => ret true
  | i :: rest =>
      continue <- body i ;;
      if continue : bool then forLevels body rest else ret false
  end.

Definition oneToTen : list Z := [1; 2; 3; 4; 5; 6; 7; 8; 9; 10].

(** [saveConfig] of the current script. *)
Definition saveConfig : M unit :=
  logAction "CONFIG_SAVE_START" ;;
  modify (set_appData (with_config (with_levelNames orEmpty))) ;;
  modify (set_appData (with_config (with_levelValues orEmpty))) ;;
  completed <- forLevels saveLevel oneToTen ;;
  if completed : bool then
    hasSalvager <- property "hasSalvager" checked ;;
    salvagerPercent <- property "salvagerPercent" value ;;
    currency <- property "currency" value ;;
    autoCalculate <- property "autoCalculate" checked ;;
    modify (set_appData (with_config (fun c =>
      Config.mk (Config.levelValues c) (Config.levelNames c) hasSalvager
        (parseFloat salvagerPercent) (Some currency) autoCalculate
        (Config.numberFormat c)))) ;;
    logAction "CONFIG_SAVE_COMPLETE" ;;
    saveData ;;
    updateAutoCalcIndicator ;;
    showMessage "Configuración guardada correctamente" "success"
  else ret tt.

(** ** Import of a file *)

(** What [JSON.parse] returns.  An object is the list of its properties;
    [JSON.parse] never leaves two with one key. *)
#[warnings="-register-all"]
Inductive JSON : Type :=
| JNull
| JBool (b : bool)
| JNumber (q : Q)
| JString (s : string)
| JArray (items : list JSON)
| JObject (properties : list (string * JSON)).

(** The document as [handleFileImport] sees it: three slots that take
    whatever the file held under the three keys. *)
Module Document.
Record t : Type := mk { config : JSON; members : JSON; sites : JSON }.
End Document.

(** [Boolean(v)]. *)
Definition truthy (v : JSON) : bool :=
  match v with
  | JNull => false
  | JBool b => b
  | JNumber q => negb (Qeq_bool q 0)
  | JString s => nonEmpty s
  | JArray _ => true
  | JObject _ => true
  end.

Fixpoint lookupProperty (key : string) (properties : list (string * JSON))
  : option JSON :=
  match properties with
  | [] => None
  | (k, v) :: rest => if String.eqb k key then Some v else lookupProperty key rest
  end.

(** [v.key] for a key that no prototype defines: a [TypeError] on
    [null], the property of an object if it has it, and [undefined]
    ([None]) in every other case. *)
Definition getProperty {S : Type} (v : JSON) (key : string)
  : Script S (option JSON) :=
  match v with
  | JNull => throw TypeError
  | JObject properties => ret (lookupProperty key properties)
  | _ => ret None
  end.

(** The parsed document is an object with a property of that key. *)
Definition hasKey (doc : JSON) (key : string) : bool :=
  match doc with
  | JObject properties =>
      match lookupProperty key properties with
      | Some _ => true
      | None => false
      end
  | _ => false
  end.

(** [error.message]; for the errors the browser raises the model gives
    their name. *)
Definition messageOf (e : Exception) : string :=
  match e with
  | TypeError => "TypeError"
  | SyntaxError => "SyntaxError"
  | Error message => message
  end.

(** The file of the input element: its MIME type and its text, or no
    text when reading it fails. *)
Record File : Type := mkFile { fileType : string; fileText : option string }.

Section FileImport.

(** [JSON.parse], with [None] for the [SyntaxError] it throws, and what
    [renderAll] does on a document of any shape are parameters. *)
Variable JSON_parse : string -> option JSON.
Variable renderAll : Script (State Document.t) unit.

(** [reader.onload].  The three properties are read once here; the
    script reads them again for the assignments, and reads of one value
    give one result. *)
Definition onload (text : string) : Script (State Document.t) unit :=
  tryCatch
    (match JSON_parse text with
     | None => throw SyntaxError
     | Some importedData =>
         logAction "DATA_IMPORT_PARSE_SUCCESS" ;;
         c <- getProperty importedData "config" ;;
         m <- getProperty importedData "members" ;;
         s <- getProperty importedData "sites" ;;
         match c, m, s with
         | Some c', Some m', Some s' =>
             if (truthy c' && truthy m' && truthy s')%bool then
               confirmed <- confirm ;;
               if negb confirmed then
                 logAction "DATA_IMPORT_CANCELLED"
               else
                 logAction "DATA_IMPORT_CONFIRMED" ;;
                 modify (set_appData (fun d =>
                   Document.mk c' (Document.members d) (Document.sites d))) ;;
                 modify (set_appData (fun d =>
                   Document.mk (Document.config d) m' (Document.sites d))) ;;
                 modify (set_appData (fun d =>
                   Document.mk (Document.config d) (Document.members d) s')) ;;
                 saveData ;;
                 renderAll ;;
                 showMessage "Datos importados correctamente" "success" ;;
                 logAction "DATA_IMPORT_SUCCESS"
             else throw (Error "Estructura de datos inválida")
         | _, _, _ => throw (Error "Estructura de datos inválida")
         end
     end)
    (fun error =>
       logAction "DATA_IMPORT_ERROR" ;;
       consoleWrite "Error importing data:" ;;
       alert ("Error al importar datos: " ++ messageOf error)).

(** [handleFileImport(event)] followed by the callback of the reader it
    starts: [onload] with the text of the file, or [onerror]. *)
Definition handleFileImport (file : option File)
  : Script (State Document.t) unit :=
  match file with
  | None => logAction "DATA_IMPORT_CANCELLED"
  | Some f =>
      logAction "DATA_IMPORT_FILE_SELECTED" ;;
      if negb (String.eqb (fileType f) "application/json") then
        logAction "DATA_IMPORT_VALIDATION_FAILED" ;;
        alert "Por favor selecciona un archivo JSON válido"
      else
        match fileText f with
        | Some text => onload text
        | None =>
            logAction "DATA_IMPORT_READ_ERROR" ;;
            alert "Error al leer el archivo"
        end
  end.

End FileImport.

(** ** Words of the properties *)

(** Whether [addSite] takes a form: a name that is not blank, a level
    that is neither below 1 nor above 10, and a checked box. *)
Definition takesSite (name level : string) (boxes : list Element) : bool :=
  (nonEmpty (Str.trim name)
   && negb (lessThan (parseInt level) 1 || greaterThan (parseInt level) 10)
   && negb (length (List.filter checked boxes) =? 0)%nat)%bool.

(** The level values of a state. *)
Definition levelValuesOf (st : State AppData) : option (gmap string Z) :=
  Config.levelValues (config (appData st)).

(** Every level value of [st'] is either a non-negative integer of at
    most twelve digits or the value [st] had under the same key. *)
Definition writesInRange (st st' : State AppData) : Prop :=
  forall values' key x,
    levelValuesOf st' = Some values' -> values' !! key = Some x ->
    0 <= x <= 999999999999
    \/ exists values, levelValuesOf st = Some values /\ values !! key = Some x.

(** [m] leaves the part [f] of the state as it found it, whatever it
    returns or throws. *)
Definition preserves {S A B : Type} (f : S -> B) (m : Script S A) : Prop :=
  forall st, f (snd (m st)) = f st.

(** A string of decimal digits, and its value read after [acc]. *)
Fixpoint allDigits (s : string) : bool :=
  match s with
  | EmptyString => true
  | String c r => (Str.isDigit c && allDigits r)%bool
  end.

Fixpoint horner (s : string) (acc : Z) : Z :=
  match s with
  | EmptyString => acc
  | String c r => horner r (10 * acc + Str.digitValue c)
  end.

(** The class [[^\d]]. *)
Definition notDigit (c : ascii) : bool := negb (Str.isDigit c).

(** No comma and no line break in the text. *)
Fixpoint delimiterFree (s : string) : bool :=
  match s with
  | EmptyString => true
  | String c r => (negb (isDelimiter c) && delimiterFree r)%bool
  end.

(** The names among the pieces of a split text. *)
Definition namesAmong (pieces : list string) : list string :=
  List.filter nonEmpty (List.map Str.trim pieces).

(** ** Scenarios *)

(** The document the script starts with. *)
Definition initialAppData : AppData :=
  mkAppData
    (Config.mk (Some ∅) None false (FNum 10) (Some "ISK") true (Some "comma"))
    [] [].

(** A page with no element, an empty console, a clock that stands at
    1700000000000 ms, and a user who confirms. *)
Definition blankState : State AppData :=
  mkState initialAppData None false ∅ ∅ [] (Some []) [] [] en_US
    (fun _ => 1700000000000) (fun _ => 0%Q) (fun _ => true).

(** The site form with a name, the level field left empty, and the box
    of the only member checked. *)
Definition emptyLevelForm : State AppData :=
  set_participantChecks
    (fun _ => [set_checked true (set_value "7" emptyElement)])
    (set_page
       (fun _ =>
          <["siteName" := set_value "Alpha" emptyElement]>
            (<["siteLevel" := set_value "" emptyElement]> ∅))
       (set_appData
          (with_members (fun _ => [Member.mk "Ann" false (IdStr "7")]))
          blankState)).

(** A number field of the configuration form holding [digits]. *)
Definition levelInput (digits : string) : Element :=
  mkElement digits false (Some digits) "" false.

(** The configuration form with 5 typed for level 1, a value of thirteen
    digits for level 2 and 0 for the others, over a document whose level
    1 is worth 100000. *)
Definition oversizedLevelForm : State AppData :=
  set_page
    (fun _ =>
       <["level1" := levelInput "5"]>
         (<["level2" := levelInput "1000000000000"]>
            (list_to_map
               (List.map (fun i => ("level" ++ Z_toString i, levelInput "0"))
                  [3; 4; 5; 6; 7; 8; 9; 10]))))
    (set_appData
       (with_config (with_levelValues (fun _ => Some {["1" := 100000]})))
       blankState).

(** A roster of two; one site, at a level that has no value, whose second
    participant is on no roster; calculations with two payments, the
    smaller first; the member form filled in with two names; and the
    elements the functions write to. *)
Definition demoPayments : list Payment.t :=
  [ Payment.mk (IdStr "7") "Ann" false 1 (100 # 1);
    Payment.mk (IdStr "8") "Bob" true 1 (250 # 1) ].

Definition demoState : State AppData :=
  mkState
    (mkAppData
       (Config.mk (Some {["1" := 500000]}) None false (FNum 10) (Some "ISK")
          true (Some "comma"))
       [ Member.mk "Ann" false (IdStr "7"); Member.mk "Bob" true (IdStr "8") ]
       [ Site.mk 1700000000000 "Gate" (Int 3) [IdStr "7"; IdStr "9"] ])
    (Some (mkCalculations (350 # 1) 0 1%positive))
    false
    {[ 1%positive := demoPayments ]}
    (list_to_map
       [ ("memberName", set_value "Cy, Di" emptyElement);
         ("isSalvager", set_checked true emptyElement);
         ("siteCount", emptyElement); ("sitesList", emptyElement);
         ("totalPaid", emptyElement); ("totalSites", emptyElement);
         ("avgPerSite", emptyElement); ("paymentsList", emptyElement) ])
    [] (Some []) [] [] en_US
    (fun _ => 1700000000000) (fun _ => 0%Q) (fun _ => true).

(** A file whose text parses to an object with no [sites], over a
    document of three empty slots. *)
Definition sampleText : string :=
  "{" ++ quoted "config" ++ ": {}, " ++ quoted "members" ++ ": []}".

Definition sampleParse (text : string) : option JSON :=
  if String.eqb text sampleText
  then Some (JObject [("config", JObject []); ("members", JArray [])])
  else None.

Definition sampleFile : File := mkFile "application/json" (Some sampleText).

Definition importState : State Document.t :=
  mkState (Document.mk JNull JNull JNull) None false ∅ ∅ [] (Some []) [] []
    en_US (fun _ => 0) (fun _ => 0%Q) (fun _ => true).

(** ** The rest of the forms *)

Definition set_rawValue (r : option string) (e : Element) : Element :=
  mkElement (value e) (checked e) r (content e) (disabled e).

Definition selectAllParticipants : M unit :=
  logAction "SITE_SELECT_ALL_PARTICIPANTS" ;;
  modify (set_participantChecks (List.map (set_checked true))).

Definition deselectAllParticipants : M unit :=
  logAction "SITE_DESELECT_ALL_PARTICIPANTS" ;;
  modify (set_participantChecks (List.map (set_checked false))).

Definition updateSalvagerSettings : M unit :=
  hasSalvager <- property "hasSalvager" checked ;;
  assign "salvagerPercent" (set_disabled (negb hasSalvager)).

(** [removeSite(id)]; the button of a row calls it with the number the
    row was written with. *)
Definition removeSite (v : Version) (id : Z) : M unit :=
  logAction "SITE_REMOVE_ATTEMPT" ;;
  confirmed <- confirm ;;
  if negb confirmed then
    logAction "SITE_REMOVE_CANCELLED"
  else
    logAction "SITE_REMOVE_CONFIRMED" ;;
    modify (set_appData (with_sites
      (List.filter (fun s => negb (Site.id s =? id))))) ;;
    saveData ;;
    updateSitesList v ;;
    updateBadges.

Definition clearAllSites (v : Version) : M unit :=
  logAction "SITE_CLEAR_ALL_ATTEMPT" ;;
  confirmed <- confirm ;;
  if negb confirmed then
    logAction "SITE_CLEAR_ALL_CANCELLED"
  else
    logAction "SITE_CLEAR_ALL_CONFIRMED" ;;
    modify (set_appData (with_sites (fun _ => []))) ;;
    saveData ;;
    updateSitesList v ;;
    updateBadges ;;
    showMessage "Todos los sitios han sido eliminados" "success".

(** [Number(s)] for a string of decimal digits, the only strings the
    script hands to [formatNumber]. *)
Definition Number_ofDigits (s : string) : Z :=
  fst (Str.digitsValue 10 s 0 false).

(** [handleNumberInput(e)] on the field [e.target]: the digits of what
    was typed become the raw value, and their grouping is shown when
    there is a digit at all. *)
Definition handleNumberInput (cfg : Config.t) (input : Element) : Element :=
  let digits := Str.remove (fun c => negb (Str.isDigit c)) (value input) in
  let input' := set_rawValue (Some digits) input in
  if nonEmpty digits
  then set_value (formatNumber cfg (inject_Z (Number_ofDigits digits)) None)
         input'
  else input'.

(** One round of the loop of [resetLevels] in the current script. *)
Definition resetLevel (i : Z) : M unit :=
  let n := Z_toString i in
  let defaultValue := i * 100000 in
  cfg <- gets (fun st => config (appData st)) ;;
  assign ("level" ++ n)
    (set_value (formatNumber cfg (inject_Z defaultValue) None)) ;;
  assign ("level" ++ n) (set_rawValue (Some (Z_toString defaultValue))) ;;
  assign ("levelName" ++ n) (set_value ("Sitio " ++ n)).

Definition resetLevels : M unit :=
  logAction "CONFIG_RESET_LEVELS_ATTEMPT" ;;
  confirmed <- confirm ;;
  if negb confirmed then
    logAction "CONFIG_RESET_LEVELS_CANCELLED"
  else
    logAction "CONFIG_RESET_LEVELS_CONFIRMED" ;;
    forEach oneToTen resetLevel ;;
    showMessage "Valores restaurados a los predeterminados" "success".

(** The configuration form of the legacy script: number fields without
    a raw value, and no check of what they hold. *)
Module LegacyScript.

Definition resetLevel (i : Z) : M unit :=
  let n := Z_toString i in
  assign ("level" ++ n) (set_value (Z_toString (i * 100000))) ;;
  assign ("levelName" ++ n) (set_value ("Nivel " ++ n)).

Definition resetLevels : M unit :=
  logAction "CONFIG_RESET_LEVELS_ATTEMPT" ;;
  confirmed <- confirm ;;
  if negb confirmed then
    logAction "CONFIG_RESET_LEVELS_CANCELLED"
  else
    logAction "CONFIG_RESET_LEVELS_CONFIRMED" ;;
    forEach oneToTen resetLevel ;;
    showMessage "Valores restaurados a los predeterminados" "success".

(** One round of the loop of [saveConfig]: writing a key of
    [levelValues] throws when the map is missing, while [levelNames] is
    created on the way. *)
Definition saveLevel (i : Z) : M unit :=
  let n := Z_toString i in
  shown <- property ("level" ++ n) value ;;
  values <- gets (fun st => Config.levelValues (config (appData st))) ;;
  match values with
  | None => throw TypeError
  | Some _ =>
      modify (set_appData (with_config
        (with_levelValues (store n (orZero (parseInt shown))))))
  end ;;
  nameInput <- getElementById ("levelName" ++ n) ;;
  let typed :=
    match nameInput with
    | Some el => value el
    | None => "Nivel " ++ n
    end in
  let ln := Str.trim typed in
  modify (set_appData (with_config (with_levelNames orEmpty))) ;;
  modify (set_appData (with_config
    (with_levelNames (store n (orElse (Some ln) ("Nivel " ++ n)))))).

Definition saveConfig : M unit :=
  logAction "CONFIG_SAVE_START" ;;
  forEach oneToTen saveLevel ;;
  hasSalvager <- property "hasSalvager" checked ;;
  salvagerPercent <- property "salvagerPercent" value ;;
  currency <- property "currency" value ;;
  autoCalculate <- property "autoCalculate" checked ;;
  modify (set_appData (with_config (fun c =>
    Config.mk (Config.levelValues c) (Config.levelNames c) hasSalvager
      (parseFloat salvagerPercent) (Some currency) autoCalculate
      (Config.numberFormat c)))) ;;
  logAction "CONFIG_SAVE_COMPLETE" ;;
  saveData ;;
  updateAutoCalcIndicator ;;
  showMessage "Configuración guardada correctamente" "success".

End LegacyScript.

(** [saveConfig] and [resetLevels] of either script. *)
Definition saveConfigOf (v : Version) : M unit :=
  match v with Current => saveConfig | Legacy => LegacyScript.saveConfig end.

Definition resetLevelsOf (v : Version) : M unit :=
  match v with Current => resetLevels | Legacy => LegacyScript.resetLevels end.

(** What the user does on the page, by the handler [setupEventListeners]
    and the buttons of the rows attach to it.  Switching tabs, choosing a
    number format, the export and the import are left out. *)
Inductive Event : Type :=
| SubmitMemberForm
| ClickRemoveMember (id : ident)
| ClickSelectAll
| ClickDeselectAll
| ClickAddSite
| ClickClearSiteForm
| ClickRemoveSite (id : Z)
| ClickClearAllSites
| ClickSaveConfig
| ChangeAutoCalculate
| ClickResetLevels
| ChangeHasSalvager.

Definition handle (v : Version) (e : Event) : M unit :=
  match e with
  | SubmitMemberForm => addMember v
  | ClickRemoveMember id => removeMember v id
  | ClickSelectAll => selectAllParticipants
  | ClickDeselectAll => deselectAllParticipants
  | ClickAddSite => addSite v
  | ClickClearSiteForm => clearSiteForm
  | ClickRemoveSite id => removeSite v id
  | ClickClearAllSites => clearAllSites v
  | ClickSaveConfig => saveConfigOf v
  | ChangeAutoCalculate => saveConfigOf v
  | ClickResetLevels => resetLevelsOf v
  | ChangeHasSalvager => updateSalvagerSettings
  end.

(** The events of a session, one after the other; an exception ends a
    handler, not the session. *)
Fixpoint session (v : Version) (events : list Event) (st : State AppData)
  : State AppData :=
  match events with
  | [] => st
  | e :: rest => session v rest (snd (handle v e st))
  end.

(** ** Words of the further properties *)

(** The element is on the page. *)
Definition has (st : State AppData) (id : string) : Prop :=
  is_Some (page st !! id).

(** The element is on the page and holds the text. *)
Definition shows (st : State AppData) (id text : string) : Prop :=
  exists e, page st !! id = Some e /\ content e = text.

(** A lower-case hexadecimal digit. *)
Definition isLowerHex (c : ascii) : bool :=
  (Str.isDigit c || ((97 <=? Str.code c) && (Str.code c <=? 102))%N)%bool.

(** The text follows the pattern: a hexadecimal digit for every [x],
    one of [8], [9], [a], [b] for every [y], and the character of the
    pattern elsewhere. *)
Fixpoint followsPattern (pattern s : string) : bool :=
  match pattern, s with
  | EmptyString, EmptyString => true
  | String p pattern', String c s' =>
      ((if Ascii.eqb p "x" then isLowerHex c
        else if Ascii.eqb p "y"
             then (Ascii.eqb c "8" || Ascii.eqb c "9" || Ascii.eqb c "a"
                   || Ascii.eqb c "b")
             else Ascii.eqb p c)
       && followsPattern pattern' s')%bool
  | _, _ => false
  end.

(** The text begins, or ends, with white space. *)
Definition startsWithSpace (s : string) : bool :=
  match Str.dropOne Str.whiteSpace s with Some _ => true | None => false end.

Definition endsWithSpace (s : string) : bool :=
  match Str.dropOne (List.map Str.rev Str.whiteSpace) (Str.rev s) with
  | Some _ => true
  | None => false
  end.

(** The parts of the state no handler touches before the user has
    confirmed: everything but the console and the answers to come. *)
Definition sameButLog (st st' : State AppData) : Prop :=
  appData st' = appData st /\ calculations st' = calculations st
  /\ saveTimeout st' = saveTimeout st /\ heap st' = heap st
  /\ page st' = page st /\ participantChecks st' = participantChecks st
  /\ activeSection st' = activeSection st /\ alerts st' = alerts st.

(** The handlers that ask the user first. *)
Definition asksFirst (e : Event) : bool :=
  match e with
  | ClickRemoveMember _ | ClickRemoveSite _ | ClickClearAllSites
  | ClickResetLevels => true
  | _ => false
  end.

(** What [updateMembersList] writes for a roster and
    [updateParticipantCheckboxes] for its check boxes. *)
Definition rosterHtml (v : Version) (ms : list Member.t) : string :=
  if (length ms =? 0)%nat
  then emptyState "No hay miembros registrados" "Agrega miembros para comenzar"
  else Str.join "" (List.map (memberItem v) ms).

Definition boxesHtml (v : Version) (ms : list Member.t) : string :=
  if (length ms =? 0)%nat
  then "<p style=" ++ quoted "color: #6c7293;" ++ ">Agrega miembros primero</p>"
  else Str.join "" (List.map (participantLabel v) ms).

(** The check box of a member. *)
Definition boxOf (m : Member.t) : Element :=
  set_value (ident_toString (Member.id m)) emptyElement.

(** The table [updateSitesList] writes for a document, in a locale and
    given the map of level values. *)
Definition sitesHtml (v : Version) (l : Locale) (d : AppData)
    (values : gmap string Z) : string :=
  if (length (sites d) =? 0)%nat
  then emptyState "No hay sitios registrados"
         "Registra sitios para comenzar a calcular pagos"
  else sitesTableHtml
         (Str.join ""
            (List.map (siteRowOf v l (config d) values (members d)) (sites d))).

(** The elements the handlers of the roster and of the sites read and
    write. *)
Definition requiredIds : list string :=
  [ "memberName"; "isSalvager"; "memberCount"; "membersList";
    "participantCheckboxes"; "memberBadge"; "siteBadge"; "siteName";
    "siteLevel"; "siteCount"; "sitesList" ].

(** The page has these elements and the configuration its map of level
    values. *)
Definition ready (st : State AppData) : Prop :=
  is_Some (Config.levelValues (config (appData st)))
  /\ Forall (has st) requiredIds.

(** The page tells the document as it is: the counts and the badges are
    the numbers of members and of sites, the list of members and the
    check boxes are those of the roster, and the button that adds a site
    is disabled exactly when the roster is empty. *)
Definition inSync (v : Version) (st : State AppData) : Prop :=
  let ms := members (appData st) in
  let ss := sites (appData st) in
  shows st "memberCount" (nat_toString (length ms))
  /\ shows st "memberBadge" (nat_toString (length ms))
  /\ shows st "membersList" (rosterHtml v ms)
  /\ shows st "participantCheckboxes" (boxesHtml v ms)
  /\ List.map value (participantChecks st)
     = List.map (fun m => ident_toString (Member.id m)) ms
  /\ shows st "siteCount" (nat_toString (length ss))
  /\ shows st "siteBadge" (nat_toString (length ss))
  /\ (forall el, page st !! "addSiteBtn" = Some el ->
                 disabled el = (length ms =? 0)%nat).

(** What [inSync] looks at. *)
Definition view (st : State AppData) :=
  (members (appData st), sites (appData st),
   List.map value (participantChecks st),
   (page st !! "memberCount", page st !! "memberBadge",
    page st !! "membersList", page st !! "participantCheckboxes",
    page st !! "siteCount", page st !! "siteBadge", page st !! "addSiteBtn")).

(** A text the browser reads back from markup as it was written: no
    angle bracket that opens a tag, no ampersand, no double quote. *)
Fixpoint plainText (s : string) : bool :=
  match s with
  | EmptyString => true
  | String c r =>
      (negb (Ascii.eqb c "<" || Ascii.eqb c "&" || Ascii.eqb c (ascii_of_nat 34))
       && plainText r)%bool
  end.

(** An identifier as the script of that version gives them: a text in
    the current one, a number in the legacy one. *)
Definition nativeId (v : Version) (i : ident) : bool :=
  match v, i with
  | Current, IdStr s => plainText s
  | Legacy, IdNum (Int _) => true
  | _, _ => false
  end.

(** A page that is ready and in sync, with nobody on the roster and no
    site. *)
Definition syncedState : State AppData :=
  set_page
    (fun _ =>
       list_to_map
         [ ("memberName", set_value "Ann, Bob" emptyElement);
           ("isSalvager", emptyElement);
           ("memberCount", set_content "0" emptyElement);
           ("membersList", set_content (rosterHtml Current []) emptyElement);
           ("participantCheckboxes",
            set_content (boxesHtml Current []) emptyElement);
           ("memberBadge", set_content "0" emptyElement);
           ("siteBadge", set_content "0" emptyElement);
           ("siteName", set_value "Gate" emptyElement);
           ("siteLevel", set_value "3" emptyElement);
           ("siteCount", set_content "0" emptyElement);
           ("sitesList", emptyElement) ])
    blankState.

(** What [saveConfig] reads from the field of a level, and the name it
    takes for the level [n] from the page. *)
Definition reading (input : Element) : Z :=
  parseFormattedNumber (orElse (rawValue input) (value input)).

Definition levelNameRead (p : gmap string Element) (n : string) : string :=
  orElse
    (Some (Str.trim (match p !! ("levelName" ++ n) with
                     | Some el => value el
                     | None => "Sitio " ++ n
                     end)))
    ("Sitio " ++ n).

(** The maps after the rounds of [saveConfig] for the levels of a list,
    on a page [p]. *)
Fixpoint valuesSaved (p : gmap string Element) (levels : list Z)
    (values : gmap string Z) : gmap string Z :=
  match levels with
  | [] => values
  | i :: rest =>
      valuesSaved p rest
        (<[Z_toString i
           := match p !! ("level" ++ Z_toString i) with
              | Some input => reading input
              | None => 0
              end]> values)
  end.

Fixpoint namesSaved (p : gmap string Element) (levels : list Z)
    (names : gmap string string) : gmap string string :=
  match levels with
  | [] => names
  | i :: rest =>
      namesSaved p rest
        (<[Z_toString i := levelNameRead p (Z_toString i)]> names)
  end.

(** A level of the configuration form that [saveConfig] takes: its field
    is in the page and reads no more than the greatest value allowed. *)
Definition validLevel (p : gmap string Element) (i : Z) : Prop :=
  exists input,
    p !! ("level" ++ Z_toString i) = Some input
    /\ reading input <= 999999999999.

(** The configuration form with 250.000 typed for each level, the
    salvager box checked with 15 percent, the currency PLEX and the
    automatic calculation off. *)
Definition validLevelForm : State AppData :=
  set_page
    (fun _ =>
       <["hasSalvager" := set_checked true emptyElement]>
         (<["salvagerPercent" := set_value "15" emptyElement]>
            (<["currency" := set_value "PLEX" emptyElement]>
               (<["autoCalculate" := emptyElement]>
                  (list_to_map
                     (List.map
                        (fun i => ("level" ++ Z_toString i,
                                   levelInput "250.000"))
                        oneToTen))))))
    blankState.

(** The two fields of the level [i] in the configuration form. *)
Definition levelFields (st : State AppData) (i : Z) : Prop :=
  has st ("level" ++ Z_toString i) /\ has st ("levelName" ++ Z_toString i).

(** The fields of the level [i] hold the default: the value field shows
    [i * 100000] in the number format and reads as that number, and the
    name field holds "Sitio" and the number of the level. *)
Definition restored (cfg : Config.t) (st : State AppData) (i : Z) : Prop :=
  exists input nameInput,
    page st !! ("level" ++ Z_toString i) = Some input
    /\ value input = formatNumber cfg (inject_Z (i * 100000)) None
    /\ reading input = i * 100000
    /\ page st !! ("levelName" ++ Z_toString i) = Some nameInput
    /\ value nameInput = "Sitio " ++ Z_toString i.

(** The ids of the fields of the levels of a list. *)
Definition levelKeys (levels : list Z) : list string :=
  List.flat_map
    (fun i => ["level" ++ Z_toString i; "levelName" ++ Z_toString i]) levels.

(** The form of [validLevelForm] with the ten name fields, left empty. *)
Definition wholeForm : State AppData :=
  set_page
    (fun p =>
       list_to_map
         (List.map (fun i => ("levelName" ++ Z_toString i, emptyElement))
            oneToTen)
       ∪ p)
    validLevelForm.

(** * Properties *)

(** ** Running a function of the script *)

Section Run.

Context {S : Type}.

Lemma bind_ok {A B : Type} (m : Script S A) (k : A -> Script S B) st a st' :
  m st = (Ok a, st') -> bind m k st = k a st'.
Proof. intros H. unfold bind. now rewrite H. Qed.

Lemma bind_throw {A B : Type} (m : Script S A) (k : A -> Script S B) st e st' :
  m st = (Throw e, st') -> bind m k st = (Throw e, st').
Proof. intros H. unfold bind. now rewrite H. Qed.

Lemma preserves_ret {A B : Type} (f : S -> B) (a : A) : preserves f (ret a).
Proof. intros st. reflexivity. Qed.

Lemma preserves_throw {A B : Type} (f : S -> B) e :
  preserves f (throw (A := A) e).
Proof. intros st. reflexivity. Qed.

Lemma preserves_gets {A B : Type} (f : S -> B) (g : S -> A) :
  preserves f (gets g).
Proof. intros st. reflexivity. Qed.

Lemma preserves_modify {B : Type} (f : S -> B) (g : S -> S) :
  (forall st, f (g st) = f st) -> preserves f (modify g).
Proof. intros H st. apply H. Qed.

Lemma preserves_bind {A B C : Type} (f : S -> C) (m : Script S A)
    (k : A -> Script S B) :
  preserves f m -> (forall a, preserves f (k a)) -> preserves f (bind m k).
Proof.
  intros Hm Hk st. unfold bind. specialize (Hm st).
  destruct (m st) as [[a|e] st']; simpl in *.
  - now rewrite Hk.
  - assumption.
Qed.

Lemma preserves_async {B : Type} (f : S -> B) (m : Script S unit) :
  preserves f m -> preserves f (async m).
Proof. intros Hm st. apply Hm. Qed.

Lemma preserves_tryCatch {A B : Type} (f : S -> B) (m : Script S A) handler :
  preserves f m -> (forall e, preserves f (handler e)) ->
  preserves f (tryCatch m handler).
Proof.
  intros Hm Hh st. unfold tryCatch. specialize (Hm st).
  destruct (m st) as [[a|e] st']; simpl in *.
  - assumption.
  - now rewrite Hh.
Qed.

Lemma preserves_forEach {A B : Type} (f : S -> B) (l : list A) body :
  (forall x, preserves f (body x)) -> preserves f (forEach l body).
Proof.
  intros H. induction l as [|x l IH]; simpl.
  - apply preserves_ret.
  - apply preserves_bind; auto.
Qed.

Lemma preserves_mapM {A B C : Type} (f : S -> C) (g : A -> Script S B) l :
  (forall x, preserves f (g x)) -> preserves f (mapM g l).
Proof.
  intros H. induction l as [|x l IH]; simpl.
  - apply preserves_ret.
  - apply preserves_bind; [auto|]. intros y.
    apply preserves_bind; [auto|]. intros ys. apply preserves_ret.
Qed.

End Run.

(** Breaks a goal [preserves f m] along the structure of [m]; what is
    left are the writes to the state, closed when [f] does not read what
    they write. *)
Ltac preserve_step :=
  lazymatch goal with
  | |- preserves _ (ret _) => apply preserves_ret
  | |- preserves _ (throw _) => apply preserves_throw
  | |- preserves _ (gets _) => apply preserves_gets
  | |- preserves _ (bind _ _) => apply preserves_bind; [|intros ?]
  | |- preserves _ (async _) => apply preserves_async
  | |- preserves _ (tryCatch _ _) => apply preserves_tryCatch; [|intros ?]
  | |- preserves _ (forEach _ _) => apply preserves_forEach; intros ?
  | |- preserves _ (mapM _ _) => apply preserves_mapM; intros ?
  | |- preserves _ (modify _) => apply preserves_modify; intros ?
  | |- preserves _ (if ?b then _ else _) => destruct b
  | |- preserves _ (match ?o with _ => _ end) => destruct o
  | |- preserves _ _ =>
      progress unfold logAction, consoleWrite, alert, property, assign,
        getElementById, showMessage, updateDataStatus, saveData, updateBadges,
        updateAutoCalcIndicator, checkMembersExist, updateMembersList,
        updateParticipantCheckboxes, uncheckAll, clearSiteForm, readArray,
        spread, Array_sort
  end.

Ltac preserve := repeat preserve_step; try reflexivity.

Section Preserved.

Context {D B : Type} (f : State D -> B).

Lemma preserves_confirm :
  (forall g st, f (set_answers g st) = f st) -> preserves f confirm.
Proof. intros H st. apply H. Qed.

Lemma preserves_Date_now :
  (forall g st, f (set_clock g st) = f st) -> preserves f Date_now.
Proof. intros H st. apply H. Qed.

Lemma preserves_Math_random :
  (forall g st, f (set_randoms g st) = f st) -> preserves f Math_random.
Proof. intros H st. apply H. Qed.

End Preserved.

(** The functions that only refresh the page leave the document alone. *)
Lemma saveData_appData {D : Type} : preserves (@appData D) saveData.
Proof. preserve. Qed.

Lemma showMessage_appData {D : Type} message type :
  preserves (@appData D) (showMessage message type).
Proof. preserve. Qed.

Lemma updateMembersList_appData v : preserves appData (updateMembersList v).
Proof. preserve. Qed.

Lemma updateParticipantCheckboxes_appData v :
  preserves appData (updateParticipantCheckboxes v).
Proof. preserve. Qed.

Lemma updateBadges_appData : preserves appData updateBadges.
Proof. preserve. Qed.

Lemma checkMembersExist_appData : preserves appData checkMembersExist.
Proof. preserve. Qed.

Lemma clearSiteForm_appData : preserves appData clearSiteForm.
Proof. preserve. Qed.

Lemma siteRow_appData v s : preserves appData (siteRow v s).
Proof. unfold siteRow. preserve. Qed.

Lemma updateSitesList_appData v : preserves appData (updateSitesList v).
Proof. unfold updateSitesList. preserve. apply siteRow_appData. Qed.

(** ** Digits *)

Lemma append_assoc (s t u : string) : (s ++ t) ++ u = s ++ (t ++ u).
Proof.
  induction s as [|c s IH]; [reflexivity|].
  change (String c ((s ++ t) ++ u) = String c (s ++ (t ++ u))).
  now rewrite IH.
Qed.

Lemma allDigits_app s t :
  allDigits (s ++ t) = (allDigits s && allDigits t)%bool.
Proof.
  induction s as [|c s IH]; simpl; [reflexivity|].
  rewrite IH. apply andb_assoc.
Qed.

Lemma horner_app s t acc : horner (s ++ t) acc = horner t (horner s acc).
Proof. revert acc. induction s as [|c s IH]; intros acc; simpl; auto. Qed.

Lemma digitsValue_horner s acc seen :
  allDigits s = true ->
  Str.digitsValue 10 s acc seen = (horner s acc, (seen || nonEmpty s)%bool).
Proof.
  revert acc seen. induction s as [|c s IH]; intros acc seen H; simpl in *.
  - now rewrite orb_false_r.
  - apply andb_true_iff in H as [Hc Hs].
    unfold Str.radixValue. simpl. rewrite Hc, IH by assumption.
    now rewrite orb_true_r.
Qed.

Lemma digitChar_digit d :
  (d < 10)%N -> Str.isDigit (Str.digitChar d) = true /\ Str.digitValue (Str.digitChar d) = Z.of_N d.
Proof.
  intros H. unfold Str.digitChar, Str.isDigit, Str.digitValue, Str.code.
  apply N.ltb_lt in H as H'. rewrite H'.
  rewrite N_ascii_embedding by lia.
  split; [|lia].
  apply andb_true_iff. split; apply N.leb_le; lia.
Qed.

Lemma numeralFuel_app fuel radix n acc :
  Str.numeralFuel fuel radix n acc = Str.numeralFuel fuel radix n "" ++ acc.
Proof.
  revert n acc. induction fuel as [|fuel IH]; intros n acc; simpl; [reflexivity|].
  destruct (n <? radix)%N; [reflexivity|].
  rewrite IH. rewrite (IH _ (String _ "")).
  now rewrite append_assoc.
Qed.

Lemma decimalFuel_spec fuel n :
  (n < 2 ^ N.of_nat fuel)%N -> fuel <> O ->
  let s := Str.numeralFuel fuel 10 n "" in
  allDigits s = true /\ nonEmpty s = true /\ forall acc, acc = 0 -> horner s acc = Z.of_N n.
Proof.
  revert n. induction fuel as [|fuel IH]; intros n Hn Hfuel; simpl.
  - congruence.
  - assert (Hd : (n mod 10 < 10)%N) by (apply N.mod_lt; lia).
    destruct (digitChar_digit _ Hd) as [Hd1 Hd2].
    destruct (n <? 10)%N eqn:Hlt.
    + simpl. rewrite Hd1. repeat split. intros acc ->. rewrite Hd2.
      apply N.ltb_lt in Hlt. rewrite N.mod_small by assumption. lia.
    + apply N.ltb_ge in Hlt.
      rewrite numeralFuel_app.
      assert (Hn' : (n / 10 < 2 ^ N.of_nat fuel)%N).
      { apply N.Div0.div_lt_upper_bound.
        rewrite Nat2N.inj_succ, N.pow_succ_r' in Hn. lia. }
      assert (Hfuel' : fuel <> O).
      { intros ->. simpl in Hn'.
        assert (1 <= n / 10)%N by (apply N.div_le_lower_bound; lia). lia. }
      destruct (IH _ Hn' Hfuel') as (H1 & H2 & H3).
      rewrite allDigits_app, H1. simpl. rewrite Hd1.
      repeat split.
      * destruct (Str.numeralFuel fuel 10 (n / 10) ""); [discriminate|reflexivity].
      * intros acc ->. rewrite horner_app, H3 by reflexivity. simpl.
        rewrite Hd2. rewrite (N.div_mod n 10) at 3 by lia. lia.
Qed.

Lemma decimal_spec n :
  allDigits (Str.decimal n) = true /\ nonEmpty (Str.decimal n) = true
  /\ horner (Str.decimal n) 0 = Z.of_N n.
Proof.
  unfold Str.decimal, Str.numeral.
  destruct (decimalFuel_spec (S (N.to_nat (N.log2 n))) n) as (H1 & H2 & H3).
  - rewrite Nat2N.inj_succ, N2Nat.id.
    destruct (N.eq_dec n 0%N) as [->|Hn]; [reflexivity|].
    apply N.log2_spec. lia.
  - discriminate.
  - auto.
Qed.

Lemma remove_app p s t : Str.remove p (s ++ t) = Str.remove p s ++ Str.remove p t.
Proof.
  induction s as [|c s IH]; [reflexivity|].
  change (Str.remove p (String c (s ++ t)) = Str.remove p (String c s) ++ Str.remove p t).
  simpl. rewrite IH. now destruct (p c).
Qed.

Lemma remove_digits s : allDigits s = true -> Str.remove notDigit s = s.
Proof.
  induction s as [|c s IH]; simpl; [reflexivity|].
  intros H. apply andb_true_iff in H as [Hc Hs].
  unfold notDigit at 1. rewrite Hc. simpl. now rewrite IH.
Qed.

(** Grouping only adds separators: dropping what is not a digit gives
    the digits back. *)
Lemma remove_group3 sep digits :
  Str.remove notDigit sep = "" -> allDigits digits = true ->
  Str.remove notDigit (group3 sep digits) = digits.
Proof.
  intros Hsep. induction digits as [|d rest IH]; simpl; [reflexivity|].
  intros H. apply andb_true_iff in H as [Hd Hrest].
  unfold notDigit at 1. rewrite Hd. simpl. f_equal.
  destruct (_ && _)%bool; [|auto].
  rewrite remove_app, Hsep. auto.
Qed.

Lemma group3_nonEmpty sep digits :
  nonEmpty digits = true -> nonEmpty (group3 sep digits) = true.
Proof. destruct digits; [discriminate | reflexivity]. Qed.

(** A string that starts with a digit has no leading white space. *)
Lemma trimStart_digit c r :
  Str.isDigit c = true -> Str.trimStart (String c r) = String c r.
Proof.
  intros H.
  assert (Hnone : Str.dropOne Str.whiteSpace (String c r) = None).
  { destruct c as [[] [] [] [] [] [] [] []]; try discriminate H; reflexivity. }
  unfold Str.trimStart. cbn [String.length Str.dropWhile].
  now rewrite Hnone.
Qed.

(** [parseInt] on a non-empty string of decimal digits. *)
Lemma parseInt_digits s :
  allDigits s = true -> nonEmpty s = true -> parseInt s = Int (horner s 0).
Proof.
  intros Hall Hne. destruct s as [|c r]; [discriminate|].
  simpl in Hall. apply andb_true_iff in Hall as [Hc Hr].
  unfold parseInt. rewrite trimStart_digit by assumption.
  assert (Hsign : match String c r with
                  | String "-" t => (true, t)
                  | String "+" t => (false, t)
                  | _ => (false, String c r)
                  end = (false, String c r)).
  { destruct c as [[] [] [] [] [] [] [] []]; try discriminate Hc; reflexivity. }
  rewrite Hsign.
  assert (Hradix : match String c r with
                   | String "0" (String "x" t) => (16, t)
                   | String "0" (String "X" t) => (16, t)
                   | _ => (10, String c r)
                   end = (10, String c r)).
  { destruct r as [|c' r']; [destruct c as [[] [] [] [] [] [] [] []]; reflexivity|].
    simpl in Hr. apply andb_true_iff in Hr as [Hc' _].
    destruct c' as [[] [] [] [] [] [] [] []]; try discriminate Hc';
      destruct c as [[] [] [] [] [] [] [] []]; reflexivity. }
  rewrite Hradix.
  rewrite digitsValue_horner by (simpl; now rewrite Hc, Hr).
  reflexivity.
Qed.

Lemma Math_round_integer n : Math_round (inject_Z n) = n.
Proof.
  unfold Math_round, Qfloor, Qplus, inject_Z. simpl.
  rewrite Z.mul_1_r. replace (n * 2 + 1) with (1 + n * 2) by lia.
  rewrite Z.div_add by lia. reflexivity.
Qed.

Lemma parseFormattedNumber_toLocaleString l n :
  0 <= n -> parseFormattedNumber (toLocaleString l n) = n.
Proof.
  intros Hn. unfold toLocaleString.
  destruct (n <? 0) eqn:Hneg; [apply Z.ltb_lt in Hneg; lia|].
  destruct (decimal_spec (Z.to_N n)) as (Hall & Hne & Hval).
  assert (Hsep : Str.remove notDigit (groupSeparator l) = "") by now destruct l.
  unfold parseFormattedNumber.
  pose proof (group3_nonEmpty (groupSeparator l) _ Hne) as Hg.
  unfold nonEmpty in Hg. apply negb_true_iff in Hg. rewrite Hg.
  change (fun c => negb (Str.isDigit c)) with notDigit.
  rewrite remove_group3 by assumption.
  rewrite parseInt_digits by assumption. simpl. rewrite Hval. lia.
Qed.

(** ** C8: formatting a number and parsing it back *)

(** C8.  For every integer [n] from 0 to 2^53 and each of the formats
    ['comma'], ['space'] and ['dot'], [parseFormattedNumber] gives [n]
    back from [formatNumber(n, format)]. *)
Theorem formatNumber_roundtrip (cfg : Config.t) (n : Z) (format : string) :
  0 <= n <= 2 ^ 53 ->
  In format ["comma"; "space"; "dot"] ->
  parseFormattedNumber (formatNumber cfg (inject_Z n) (Some format)) = n.
Proof.
  intros [Hn _] Hf. unfold formatNumber. rewrite Math_round_integer.
  destruct Hf as [<-|[<-|[<-|[]]]]; simpl;
    now apply parseFormattedNumber_toLocaleString.
Qed.

(** ** C10: removing a member *)

(** C10.  When the user confirms, [removeMember(id)] leaves of the roster
    the members whose id is not strictly equal to [id], in their order,
    and leaves the sites, with their lists of participants, and the
    configuration as they were. *)
Theorem removeMember_removes_exactly (v : Version) (id : ident)
    (st : State AppData) :
  answers st O = true ->
  let st' := snd (removeMember v id st) in
  members (appData st')
  = List.filter (fun m => negb (strictEq (Member.id m) id))
      (members (appData st))
  /\ (forall m, In m (members (appData st'))
                <-> In m (members (appData st))
                    /\ strictEq (Member.id m) id = false)
  /\ sites (appData st') = sites (appData st)
  /\ config (appData st') = config (appData st).
Proof.
  intros Hyes st'.
  assert (Hdoc : appData st'
                 = with_members
                     (List.filter (fun m => negb (strictEq (Member.id m) id)))
                     (appData st)).
  { subst st'. unfold removeMember.
    erewrite bind_ok by reflexivity.
    erewrite bind_ok by reflexivity.
    cbn [answers set_console]. rewrite Hyes. cbn [negb].
    erewrite bind_ok by reflexivity.
    erewrite bind_ok by reflexivity.
    match goal with
    | |- appData (snd (?rest ?s)) = _ =>
        assert (Hrest : preserves appData rest) by preserve;
        rewrite (Hrest s)
    end.
    reflexivity. }
  rewrite Hdoc. cbn [members sites config with_members].
  split; [reflexivity|]. split; [|split; reflexivity].
  intros m. rewrite filter_In, negb_true_iff. reflexivity.
Qed.

Section Elements.

Context {D : Type}.

Lemma property_some {A : Type} id (get : Element -> A) (st : State D) el :
  page st !! id = Some el -> property id get st = (Ok (get el), st).
Proof.
  intros H. unfold property, getElementById, gets, bind. now rewrite H.
Qed.

Lemma assign_some id set (st : State D) el :
  page st !! id = Some el ->
  assign id set st = (Ok tt, set_page (fun p => <[id := set el]> p) st).
Proof.
  intros H. unfold assign, getElementById, gets, bind. now rewrite H.
Qed.

End Elements.

Lemma splitRuns_fields s :
  (exists piece rest rest',
      Str.splitRuns isDelimiter s false = piece :: rest
      /\ fields s = piece :: rest'
      /\ namesAmong rest = namesAmong rest')
  /\ namesAmong (Str.splitRuns isDelimiter s true)
     = namesAmong (fields s).
Proof.
  induction s as [|c r [(piece & rest & rest' & HA & HE & HF) HB]].
  - split; [|reflexivity]. exists "", [], []. auto.
  - cbn [Str.splitRuns fields]. destruct (isDelimiter c).
    + split; [|exact HB]. exists "", (Str.splitRuns isDelimiter r true), (fields r).
      auto.
    + rewrite HA, HE. split.
      * exists (String c piece), rest, rest'. auto.
      * unfold namesAmong in *. cbn [List.map List.filter].
        now rewrite HF.
Qed.

Lemma namesOf_delimitedNames raw : namesOf raw = delimitedNames raw.
Proof.
  destruct (splitRuns_fields raw) as [(piece & rest & rest' & HA & HE & HF) _].
  unfold namesOf, delimitedNames. rewrite HA, HE.
  unfold namesAmong in HF. cbn [List.map List.filter]. now rewrite HF.
Qed.

(** Drawing an identifier always succeeds and leaves the document. *)
Lemma replaceXY_ok {D : Type} pattern (st : State D) :
  exists s st', replaceXY pattern st = (Ok s, st') /\ appData st' = appData st.
Proof.
  revert st. induction pattern as [|c r IH]; intros st.
  - exists "", st. split; reflexivity.
  - cbn [replaceXY].
    assert (Hc : exists s st1, uuidChar c st = (Ok s, st1)
                               /\ appData st1 = appData st).
    { unfold uuidChar. destruct (_ || _)%bool.
      - eexists _, _. split; reflexivity.
      - eexists _, _. split; reflexivity. }
    destruct Hc as (s & st1 & Hs & H1).
    destruct (IH st1) as (t & st2 & Ht & H2).
    exists (s ++ t), st2. split; [|congruence].
    erewrite bind_ok by exact Hs. erewrite bind_ok by exact Ht. reflexivity.
Qed.

Lemma newId_ok {D : Type} v (st : State D) :
  exists i st', newId v st = (Ok i, st') /\ appData st' = appData st.
Proof.
  destruct v; unfold newId.
  - destruct (replaceXY_ok "xxxxxxxx-xxxx-4xxx-yxxx-xxxxxxxxxxxx" st)
      as (s & st' & Hs & H').
    exists (IdStr s), st'. split; [|assumption].
    unfold generateUUID. erewrite bind_ok by exact Hs. reflexivity.
  - eexists _, _. split; reflexivity.
Qed.

Lemma forEach_pushMember v flag names (st : State AppData) :
  exists added st',
    forEach names (pushMember v flag) st = (Ok tt, st')
    /\ appData st' = with_members (fun ms => (ms ++ added)%list) (appData st)
    /\ List.map Member.name added = names
    /\ Forall (fun m => Member.isSalvager m = flag) added.
Proof.
  revert st. induction names as [|n names IH]; intros st.
  - exists [], st. repeat split; [|constructor].
    destruct (appData st). unfold with_members. cbn. now rewrite app_nil_r.
  - destruct (newId_ok v st) as (i & st1 & Hi & H1).
    set (st2 := set_appData (with_members (fun ms =>
                  (ms ++ [Member.mk n flag i])%list)) st1).
    destruct (IH st2) as (added & st' & Hrun & Hdoc & Hnames & Hflags).
    exists (Member.mk n flag i :: added), st'. repeat split.
    + cbn [forEach]. unfold pushMember at 1.
      erewrite bind_ok; [exact Hrun|].
      erewrite bind_ok by exact Hi. reflexivity.
    + rewrite Hdoc. subst st2. cbn [appData set_appData]. rewrite H1.
      unfold with_members. cbn. now rewrite <- app_assoc.
    + cbn. now rewrite Hnames.
    + constructor; [reflexivity | assumption].
Qed.

(** A text made of names with commas between them has these names as
    its fields, when no name holds a delimiter. *)
Lemma fields_delimiterFree name :
  delimiterFree name = true -> fields name = [name].
Proof.
  induction name as [|c r IH]; [reflexivity|].
  cbn [delimiterFree fields]. intros H. apply andb_true_iff in H as [Hc Hr].
  apply negb_true_iff in Hc. rewrite Hc, IH by assumption. reflexivity.
Qed.

Lemma fields_comma name rest :
  delimiterFree name = true ->
  fields (name ++ String "," rest) = name :: fields rest.
Proof.
  induction name as [|c r IH]; [reflexivity|].
  cbn [delimiterFree]. intros H. apply andb_true_iff in H as [Hc Hr].
  apply negb_true_iff in Hc.
  change (fields (String c (r ++ String "," rest)) = String c r :: fields rest).
  cbn [fields]. rewrite Hc, IH by assumption. reflexivity.
Qed.

Lemma fields_joined names :
  names <> [] -> Forall (fun n => delimiterFree n = true) names ->
  fields (Str.join "," names) = names.
Proof.
  intros Hne Hall. induction Hall as [|n rest Hn Hrest IH]; [congruence|].
  destruct rest as [|n' rest'].
  - cbn. now apply fields_delimiterFree.
  - change (Str.join "," (n :: n' :: rest'))
      with (n ++ String "," (Str.join "," (n' :: rest'))).
    rewrite fields_comma by assumption. f_equal. apply IH. discriminate.
Qed.

(** ** C7: adding members *)

(** C7.  With the text of the name field holding [k >= 1] names between
    commas and line breaks, [addMember] appends [k] members to the
    roster, one for each name in the order of the text, each with the
    checked state of the salvager box, after the members that were
    there; with no name in the text the roster stays as it was. *)
Theorem addMember_appends (v : Version) (st : State AppData)
    (input box : Element) :
  page st !! "memberName" = Some input ->
  page st !! "isSalvager" = Some box ->
  let names := delimitedNames (value input) in
  let st' := snd (addMember v st) in
  (names <> [] ->
   exists added,
     members (appData st') = (members (appData st) ++ added)%list
     /\ length added = length names
     /\ List.map Member.name added = names
     /\ Forall (fun m => Member.isSalvager m = checked box) added)
  /\ (names = [] -> members (appData st') = members (appData st)).
Proof.
  intros Hinput Hbox names st'. subst st'. unfold addMember.
  erewrite bind_ok by reflexivity.
  erewrite bind_ok by (apply property_some; exact Hinput).
  erewrite bind_ok by (apply property_some; exact Hbox).
  cbv zeta. rewrite namesOf_delimitedNames. fold names. split.
  - intros Hne.
    destruct (length names =? 0)%nat eqn:Hlen.
    { apply Nat.eqb_eq in Hlen. destruct names; [congruence | discriminate]. }
    erewrite bind_ok by reflexivity.
    match goal with
    | |- context [bind (forEach ?l ?body) _ ?s] =>
        destruct (forEach_pushMember v (checked box) l s)
          as (added & st1 & Hpush & Hdoc & Hnames & Hflags)
    end.
    erewrite bind_ok by exact Hpush.
    match goal with
    | |- context [snd (?rest st1)] =>
        assert (Hrest : preserves appData rest) by preserve;
        rewrite (Hrest st1)
    end.
    exists added. rewrite Hdoc. repeat split; try assumption.
    now rewrite <- Hnames, length_map.
  - intros Hnil. rewrite Hnil. cbn [length Nat.eqb].
    match goal with
    | |- context [snd (?rest ?s)] =>
        assert (Hrest : preserves appData rest) by preserve;
        rewrite (Hrest s)
    end.
    reflexivity.
Qed.

(** ** C2: importing a file *)

Section ImportFacts.

Variable JSON_parse : string -> option JSON.
Variable renderAll : Script (State Document.t) unit.

(** What a file of type JSON that parses to a document lacking one of
    the three keys leaves behind: the parse and the error on the
    console, one alert, and the document as it was. *)
Lemma handleFileImport_missing_key (st : State Document.t) f text doc :
  fileType f = "application/json" ->
  fileText f = Some text ->
  JSON_parse text = Some doc ->
  (hasKey doc "config" && hasKey doc "members" && hasKey doc "sites")%bool
  = false ->
  let st' := snd (handleFileImport JSON_parse renderAll (Some f) st) in
  appData st' = appData st
  /\ console st'
     = (console st ++ ["DATA_IMPORT_FILE_SELECTED";
                       "DATA_IMPORT_PARSE_SUCCESS";
                       "DATA_IMPORT_ERROR";
                       "Error importing data:"])%list
  /\ exists e,
       alerts st'
       = (alerts st
          ++ [("Error al importar datos: " ++ messageOf e)%string])%list.
Proof.
  intros Htype Htext Hparse Hkeys.
  unfold handleFileImport, onload. rewrite Htype, Htext, Hparse.
  cbn [String.eqb negb].
  unfold tryCatch, bind, logAction, consoleWrite, alert, modify, throw, ret,
    getProperty.
  assert (Hdone : forall e,
             appData st = appData st
             /\ ((((console st ++ ["DATA_IMPORT_FILE_SELECTED"])
                   ++ ["DATA_IMPORT_PARSE_SUCCESS"])
                  ++ ["DATA_IMPORT_ERROR"])
                 ++ ["Error importing data:"])%list
                = (console st ++ ["DATA_IMPORT_FILE_SELECTED";
                                  "DATA_IMPORT_PARSE_SUCCESS";
                                  "DATA_IMPORT_ERROR";
                                  "Error importing data:"])%list
             /\ exists e',
                  (alerts st
                   ++ [("Error al importar datos: " ++ messageOf e)%string])%list
                  = (alerts st
                     ++ [("Error al importar datos: " ++ messageOf e')%string])%list).
  { intros e. split; [reflexivity|]. split; [|now exists e].
    now repeat rewrite <- app_assoc. }
  destruct doc as [| b | q | s | items | properties]; cbn;
    try exact (Hdone TypeError);
    try exact (Hdone (Error "Estructura de datos inválida")).
  unfold hasKey in Hkeys.
  destruct (lookupProperty "config" properties) as [c|];
    destruct (lookupProperty "members" properties) as [m|];
    destruct (lookupProperty "sites" properties) as [s|];
    try discriminate Hkeys; cbn;
    exact (Hdone (Error "Estructura de datos inválida")).
Qed.

(** C2.  A file is taken (the confirmation is logged and the slots are
    assigned) only when the parsed document has the three keys
    [config], [members] and [sites]; when one is missing the document of
    the page stays as it was, the error is logged and an alert shows
    it. *)
Theorem handleFileImport_requires_all_keys (st : State Document.t)
    (f : File) (text : string) (doc : JSON) :
  fileType f = "application/json" ->
  fileText f = Some text ->
  JSON_parse text = Some doc ->
  let st' := snd (handleFileImport JSON_parse renderAll (Some f) st) in
  (~ In "DATA_IMPORT_CONFIRMED" (console st) ->
   In "DATA_IMPORT_CONFIRMED" (console st') ->
   hasKey doc "config" = true /\ hasKey doc "members" = true
   /\ hasKey doc "sites" = true)
  /\ ((hasKey doc "config" && hasKey doc "members" && hasKey doc "sites")%bool
      = false ->
      appData st' = appData st
      /\ In "DATA_IMPORT_ERROR" (console st')
      /\ exists e,
           alerts st'
           = (alerts st
          ++ [("Error al importar datos: " ++ messageOf e)%string])%list).
Proof.
  intros Htype Htext Hparse st'.
  pose proof (handleFileImport_missing_key st f text doc Htype Htext Hparse)
    as Hmissing.
  fold st' in Hmissing. cbv zeta in Hmissing. split.
  - intros Hbefore Hafter.
    destruct (hasKey doc "config" && hasKey doc "members"
              && hasKey doc "sites")%bool eqn:Hkeys.
    + apply andb_true_iff in Hkeys as [Hkeys Hs].
      apply andb_true_iff in Hkeys as [Hc Hm]. auto.
    + destruct (Hmissing eq_refl) as (_ & Hconsole & _).
      rewrite Hconsole in Hafter. apply in_app_or in Hafter as [Hold|Hnew].
      * contradiction.
      * cbn in Hnew. repeat destruct Hnew as [Hnew|Hnew]; try discriminate Hnew.
        contradiction.
  - intros Hkeys. destruct (Hmissing Hkeys) as (Hdoc & Hconsole & Halert).
    split; [assumption|]. split; [|assumption].
    rewrite Hconsole. apply in_or_app. right. cbn. auto.
Qed.

End ImportFacts.

(** ** C3 and C6: the table of sites *)

Lemma siteRow_ok v s (st : State AppData) values :
  Config.levelValues (config (appData st)) = Some values ->
  siteRow v s st
  = (Ok (siteRowOf v (locale st) (config (appData st)) values
           (members (appData st)) s), st).
Proof.
  intros H. unfold siteRow, bind, gets. now rewrite H.
Qed.

Lemma mapM_siteRow_ok v ss (st : State AppData) values :
  Config.levelValues (config (appData st)) = Some values ->
  mapM (siteRow v) ss st
  = (Ok (List.map (siteRowOf v (locale st) (config (appData st)) values
                     (members (appData st))) ss), st).
Proof.
  intros H. induction ss as [|s ss IH]; [reflexivity|].
  cbn [mapM List.map].
  erewrite bind_ok by (apply siteRow_ok; exact H).
  erewrite bind_ok by exact IH. reflexivity.
Qed.

(** With its two elements on the page and the map of level values in the
    configuration, [updateSitesList] returns and leaves in [sitesList]
    the table of the rows of the sites, or the empty state. *)
Lemma updateSitesList_ok v (st : State AppData) values counter table :
  Config.levelValues (config (appData st)) = Some values ->
  page st !! "siteCount" = Some counter ->
  page st !! "sitesList" = Some table ->
  let st' := snd (updateSitesList v st) in
  let rows := List.map (siteRowOf v (locale st) (config (appData st)) values
                          (members (appData st))) (sites (appData st)) in
  fst (updateSitesList v st) = Ok tt
  /\ page st' !! "sitesList"
     = Some (set_content
               (if (length (sites (appData st)) =? 0)%nat
                then emptyState "No hay sitios registrados"
                       "Registra sitios para comenzar a calcular pagos"
                else sitesTableHtml (Str.join "" rows)) table).
Proof.
  intros Hvalues Hcount Hlist st' rows. subst st'.
  unfold updateSitesList.
  erewrite bind_ok by reflexivity.
  erewrite bind_ok by (apply assign_some; exact Hcount).
  set (st1 := set_page _ st).
  assert (Hlist1 : page st1 !! "sitesList" = Some table).
  { subst st1. cbn [page set_page]. now rewrite lookup_insert_ne. }
  destruct (length (sites (appData st)) =? 0)%nat.
  - rewrite (assign_some _ _ _ _ Hlist1). cbn [fst snd page set_page].
    split; [reflexivity|]. apply lookup_insert_eq.
  - erewrite bind_ok by (apply mapM_siteRow_ok; exact Hvalues).
    rewrite (assign_some _ _ _ _ Hlist1). cbn [fst snd page set_page].
    split; [reflexivity|]. apply lookup_insert_eq.
Qed.

Lemma participantName_unknown ms pid :
  (forall m, In m ms -> strictEq (Member.id m) pid = false) ->
  participantName ms pid = "Desconocido".
Proof.
  intros H. unfold participantName, findMember.
  destruct (List.find _ ms) as [m|] eqn:Hfind; [|reflexivity].
  apply find_some in Hfind as [Hin Heq]. rewrite H in Heq by assumption.
  discriminate.
Qed.

Lemma participantName_known ms pid m :
  In m ms -> strictEq (Member.id m) pid = true ->
  exists member,
    In member ms /\ strictEq (Member.id member) pid = true
    /\ participantName ms pid = Member.name member.
Proof.
  intros Hin Heq. unfold participantName, findMember.
  destruct (List.find _ ms) as [member|] eqn:Hfind.
  - apply find_some in Hfind as [Hin' Heq']. eauto.
  - eapply find_none in Hfind; [|exact Hin]. cbn in Hfind. congruence.
Qed.

(** C3.  With the map of level values in place and its two elements on
    the page, [updateSitesList] returns without an exception whatever the
    participants of the sites are; the third cell of a row joins the
    labels of the participants, and the label of an id is "Desconocido"
    when no member has it and the name of a member that has it
    otherwise. *)
Theorem updateSitesList_tolerates_unknown_participants (v : Version)
    (st : State AppData) (values : gmap string Z) (counter table : Element) :
  Config.levelValues (config (appData st)) = Some values ->
  page st !! "siteCount" = Some counter ->
  page st !! "sitesList" = Some table ->
  sites (appData st) <> [] ->
  let ms := members (appData st) in
  let st' := snd (updateSitesList v st) in
  fst (updateSitesList v st) = Ok tt
  /\ (exists rows,
        page st' !! "sitesList"
        = Some (set_content (sitesTableHtml (Str.join "" rows)) table)
        /\ Forall2
             (fun s row =>
                exists levelName value,
                  row = siteRowHtml (Site.name s) levelName
                          (Str.join ", "
                             (List.map (participantName ms)
                                (Site.participants s)))
                          value (Z_toString (Site.id s)))
             (sites (appData st)) rows)
  /\ (forall pid,
        (forall m, In m ms -> strictEq (Member.id m) pid = false) ->
        participantName ms pid = "Desconocido")
  /\ (forall pid m,
        In m ms -> strictEq (Member.id m) pid = true ->
        exists member,
          In member ms /\ strictEq (Member.id member) pid = true
          /\ participantName ms pid = Member.name member).
Proof.
  intros Hvalues Hcount Hlist Hsites ms st'.
  destruct (updateSitesList_ok v st values counter table Hvalues Hcount Hlist)
    as [Hok Hpage].
  split; [exact Hok|]. split; [|split].
  - exists (List.map (siteRowOf v (locale st) (config (appData st)) values ms)
              (sites (appData st))).
    split.
    + fold st' in Hpage. rewrite Hpage.
      destruct (sites (appData st)); [congruence|].
      cbn [length Nat.eqb]. reflexivity.
    + clear. induction (sites (appData st)) as [|s ss IH]; constructor.
      * eexists _, _. reflexivity.
      * exact IH.
  - apply participantName_unknown.
  - apply participantName_known.
Qed.

Lemma toLocaleString_zero l : toLocaleString l 0 = "0".
Proof. destruct l; reflexivity. Qed.

Lemma formatNumber_zero cfg format : formatNumber cfg 0 format = "0".
Proof.
  unfold formatNumber. change (Math_round 0) with 0.
  repeat match goal with
         | |- context [if ?b then _ else _] => destruct b
         end; apply toLocaleString_zero.
Qed.

(** C6.  A site whose level has no entry in [levelValues] gets the value
    0, and the fourth cell of its row is "0", a space and the configured
    currency ("ISK" when none is configured). *)
Theorem missing_level_value_shows_zero (v : Version) (st : State AppData)
    (values : gmap string Z) (counter table : Element) :
  Config.levelValues (config (appData st)) = Some values ->
  page st !! "siteCount" = Some counter ->
  page st !! "sitesList" = Some table ->
  sites (appData st) <> [] ->
  let cfg := config (appData st) in
  let st' := snd (updateSitesList v st) in
  exists rows,
    page st' !! "sitesList"
    = Some (set_content (sitesTableHtml (Str.join "" rows)) table)
    /\ Forall2
         (fun s row =>
            values !! Number_toString (Site.level s) = None ->
            valueOr0 values (Number_toString (Site.level s)) = 0
            /\ exists levelName participants,
                 row = siteRowHtml (Site.name s) levelName participants
                         ("0 " ++ orElse (Config.currency cfg) "ISK")
                         (Z_toString (Site.id s)))
         (sites (appData st)) rows.
Proof.
  intros Hvalues Hcount Hlist Hsites cfg st'.
  destruct (updateSitesList_ok v st values counter table Hvalues Hcount Hlist)
    as [_ Hpage].
  exists (List.map (siteRowOf v (locale st) cfg values (members (appData st)))
            (sites (appData st))).
  split.
  - fold st' in Hpage. rewrite Hpage.
    destruct (sites (appData st)); [congruence|].
    cbn [length Nat.eqb]. reflexivity.
  - clear Hsites Hpage. induction (sites (appData st)) as [|s ss IH]; constructor; [|exact IH].
    intros Hnone.
    assert (Hzero : valueOr0 values (Number_toString (Site.level s)) = 0)
      by (unfold valueOr0; now rewrite Hnone).
    split; [exact Hzero|].
    exists (levelNameOf cfg (Number_toString (Site.level s))),
           (participantNames (members (appData st)) s).
    unfold siteRowOf. rewrite Hzero.
    assert (Hfmt : formatLevelValue v (locale st) cfg 0 = "0").
    { destruct v; cbn [formatLevelValue];
        [apply formatNumber_zero | apply toLocaleString_zero]. }
    rewrite Hfmt. reflexivity.
Qed.

(** ** Sorting *)


Lemma byTotalDescending_le a b :
  Qle_bool (byTotalDescending a b) 0 = true <-> totalGe a b.
Proof.
  unfold byTotalDescending, totalGe. rewrite Qle_bool_iff.
  split; intros H.
  - apply (Qplus_le_l _ _ (- Payment.total a)%Q).
    rewrite Qplus_opp_r. exact H.
  - apply (Qplus_le_l _ _ (- Payment.total a)%Q) in H.
    rewrite Qplus_opp_r in H. exact H.
Qed.

Lemma byTotalDescending_gt a b :
  Qle_bool (byTotalDescending a b) 0 = false -> totalGe b a.
Proof.
  intros H. unfold totalGe.
  destruct (Qlt_le_dec (Payment.total a) (Payment.total b)) as [Hlt|Hle].
  - now apply Qlt_le_weak.
  - apply byTotalDescending_le in Hle. unfold totalGe in *. congruence.
Qed.

Lemma totalGe_trans a b c : totalGe a b -> totalGe b c -> totalGe a c.
Proof. unfold totalGe. intros H1 H2. now apply Qle_trans with (Payment.total b). Qed.

Lemma insertSorted_perm x l :
  Permutation (x :: l) (insertSorted byTotalDescending x l).
Proof.
  induction l as [|y l IH]; cbn [insertSorted]; [reflexivity|].
  destruct (Qle_bool _ _); [reflexivity|].
  rewrite perm_swap. now apply perm_skip.
Qed.

Lemma sorted_perm l : Permutation l (sorted byTotalDescending l).
Proof.
  induction l as [|x l IH]; [reflexivity|].
  unfold sorted in *. cbn [fold_right].
  rewrite <- insertSorted_perm. now apply perm_skip.
Qed.

Lemma insertSorted_sorted x l :
  StronglySorted totalGe l ->
  StronglySorted totalGe (insertSorted byTotalDescending x l).
Proof.
  induction l as [|y l IH]; intros Hs; cbn [insertSorted].
  - repeat constructor.
  - destruct (Qle_bool (byTotalDescending x y) 0) eqn:Hxy.
    + apply byTotalDescending_le in Hxy.
      constructor; [assumption|]. constructor; [assumption|].
      apply StronglySorted_inv in Hs as [_ Hall].
      eapply List.Forall_impl; [|exact Hall].
      intros z Hz. now apply totalGe_trans with y.
    + apply byTotalDescending_gt in Hxy.
      apply StronglySorted_inv in Hs as [Hs Hall].
      constructor; [now apply IH|].
      eapply Permutation_Forall; [apply insertSorted_perm|].
      constructor; assumption.
Qed.

Lemma sorted_sorted l : StronglySorted totalGe (sorted byTotalDescending l).
Proof.
  induction l as [|x l IH]; [constructor|].
  unfold sorted in *. cbn [fold_right]. now apply insertSorted_sorted.
Qed.

(** ** C4 and C9: the panel of payments *)

Section Payments.

Variables (v : Version) (st : State AppData) (c : Calculations).
Variables (items : list Payment.t) (paid count average list : Element).

Hypothesis Hcalc : calculations st = Some c.
Hypothesis Hitems : heap st !! payments c = Some items.
Hypothesis Hpaid : page st !! "totalPaid" = Some paid.
Hypothesis Hcount : page st !! "totalSites" = Some count.
Hypothesis Haverage : page st !! "avgPerSite" = Some average.
Hypothesis Hlist : page st !! "paymentsList" = Some list.

Let cfg := config (appData st).
Let currency := orElse (Config.currency cfg) "ISK".
Let avgPerSite : float :=
  if 0 <? totalSites c
  then divide (totalPaid c) (totalSites c) else FNum 0.

(** The page after the three figures are written. *)
Let figures : gmap string Element :=
  <["avgPerSite" := set_content
       (formatFloat v (locale st) cfg avgPerSite ++ " " ++ currency) average]>
    (<["totalSites" := set_content (Z_toString (totalSites c)) count]>
       (<["totalPaid" := set_content
            (formatAmount v (locale st) cfg (totalPaid c) ++ " " ++ currency)
            paid]> (page st))).

Lemma updatePaymentsDisplay_ok :
  let st' := snd (updatePaymentsDisplay v st) in
  fst (updatePaymentsDisplay v st) = Ok tt
  /\ appData st' = appData st
  /\ calculations st' = calculations st
  /\ heap st'
     = (if (length items =? 0)%nat then heap st
        else <[fresh (dom (heap st)) := sorted byTotalDescending items]>
               (heap st))
  /\ page st'
     = <["paymentsList" := set_content
           (if (length items =? 0)%nat then noPayments "Sin pagos"
            else Str.join ""
                   (List.map (paymentItem v (locale st) cfg currency)
                      (sorted byTotalDescending items))) list]> figures.
Proof.
  unfold updatePaymentsDisplay.
  erewrite bind_ok by reflexivity. erewrite bind_ok by reflexivity.
  erewrite bind_ok by reflexivity. rewrite Hcalc.
  erewrite bind_ok by (apply assign_some; exact Hpaid).
  erewrite bind_ok.
  2:{ apply assign_some. cbn [page set_page].
      rewrite lookup_insert_ne by discriminate. exact Hcount. }
  erewrite bind_ok.
  2:{ apply assign_some. cbn [page set_page].
      do 2 rewrite lookup_insert_ne by discriminate. exact Haverage. }
  match goal with
  | |- context [bind (readArray _) _ ?s] => set (st3 := s)
  end.
  assert (Hpage3 : page st3 = figures) by reflexivity.
  assert (Hheap3 : heap st3 = heap st) by reflexivity.
  assert (Hdoc3 : appData st3 = appData st) by reflexivity.
  assert (Hcalc3 : calculations st3 = calculations st) by reflexivity.
  clearbody st3.
  assert (Hlist3 : page st3 !! "paymentsList" = Some list).
  { rewrite Hpage3. unfold figures.
    do 3 rewrite lookup_insert_ne by discriminate. exact Hlist. }
  assert (Hread : readArray (payments c) st3 = (Ok items, st3)).
  { unfold readArray, bind, gets. now rewrite Hheap3, Hitems. }
  erewrite bind_ok by exact Hread.
  destruct (length items =? 0)%nat.
  - rewrite (assign_some _ _ _ _ Hlist3). cbn [fst snd].
    cbn [appData calculations heap page set_page].
    rewrite Hpage3. repeat split; congruence.
  - assert (Hspread : spread (payments c) st3
                      = (Ok (fresh (dom (heap st))),
                         set_heap (fun h => <[fresh (dom (heap st)) := items]> h)
                           st3)).
    { unfold spread. erewrite bind_ok by exact Hread.
      erewrite bind_ok by reflexivity. rewrite Hheap3.
      erewrite bind_ok by reflexivity. reflexivity. }
    erewrite bind_ok by exact Hspread.
    assert (Hsort : forall s : State AppData,
               heap s !! fresh (dom (heap st)) = Some items ->
               Array_sort byTotalDescending (fresh (dom (heap st))) s
               = (Ok (fresh (dom (heap st))),
                  set_heap (fun h =>
                    <[fresh (dom (heap st))
                      := sorted byTotalDescending items]> h) s)).
    { intros s Hs. unfold Array_sort, readArray, bind, gets, modify, ret.
      now rewrite Hs. }
    erewrite bind_ok.
    2:{ apply Hsort. cbn [heap set_heap]. apply lookup_insert_eq. }
    erewrite bind_ok.
    2:{ unfold readArray, bind, gets, ret. cbn [heap set_heap].
        now rewrite lookup_insert_eq. }
    erewrite assign_some by exact Hlist3. cbn [fst snd].
    cbn [appData calculations heap page set_page set_heap].
    rewrite Hpage3, Hheap3, insert_insert_eq. repeat split; congruence.
Qed.

End Payments.

(** C4.  [updatePaymentsDisplay] shows the payments in an order that is
    a permutation of [calculations.payments] with totals that never
    increase, and it sorts a copy: the array [calculations.payments]
    refers to, and [calculations] itself, are after the call what they
    were before. *)
Theorem payments_shown_sorted_on_a_copy (v : Version) (st : State AppData)
    (c : Calculations) (items : list Payment.t)
    (paid count average list : Element) :
  calculations st = Some c ->
  heap st !! payments c = Some items ->
  page st !! "totalPaid" = Some paid ->
  page st !! "totalSites" = Some count ->
  page st !! "avgPerSite" = Some average ->
  page st !! "paymentsList" = Some list ->
  let cfg := config (appData st) in
  let currency := orElse (Config.currency cfg) "ISK" in
  let st' := snd (updatePaymentsDisplay v st) in
  exists shown,
    (items <> [] ->
     page st' !! "paymentsList"
     = Some (set_content
               (Str.join ""
                  (List.map (paymentItem v (locale st) cfg currency) shown))
               list))
    /\ Permutation items shown
    /\ StronglySorted totalGe shown
    /\ calculations st' = Some c
    /\ heap st' !! payments c = Some items.
Proof.
  intros Hcalc Hitems Hpaid Hcount Haverage Hlist cfg currency st'.
  destruct (updatePaymentsDisplay_ok v st c items paid count average list
              Hcalc Hitems Hpaid Hcount Haverage Hlist)
    as (_ & _ & Hcalc' & Hheap & Hpage).
  fold st' in Hcalc', Hheap, Hpage.
  exists (sorted byTotalDescending items). split; [|split; [|split; [|split]]].
  - intros Hne.
    assert (Hlen : (length items =? 0)%nat = false)
      by (destruct items; [congruence | reflexivity]).
    rewrite Hlen in Hpage. rewrite Hpage. apply lookup_insert_eq.
  - apply sorted_perm.
  - apply sorted_sorted.
  - congruence.
  - rewrite Hheap. destruct (length items =? 0)%nat; [exact Hitems|].
    rewrite lookup_insert_ne; [exact Hitems|].
    intros Heq. apply (is_fresh (dom (heap st))). rewrite Heq.
    apply elem_of_dom. eauto.
Qed.

(** C9.  With [calculations] present and [totalSites] at most 0, the
    average [updatePaymentsDisplay] shows is "0" and the currency: the
    quotient is never taken.  At [totalSites = 0] the quotient is not a
    finite number, and it would be shown as "NaN", "∞" or "-∞". *)
Theorem average_is_zero_without_sites (v : Version) (st : State AppData)
    (c : Calculations) (paid count average : Element) :
  calculations st = Some c ->
  totalSites c <= 0 ->
  page st !! "totalPaid" = Some paid ->
  page st !! "totalSites" = Some count ->
  page st !! "avgPerSite" = Some average ->
  let currency := orElse (Config.currency (config (appData st))) "ISK" in
  let st' := snd (updatePaymentsDisplay v st) in
  page st' !! "avgPerSite" = Some (set_content ("0 " ++ currency) average)
  /\ (totalSites c = 0 ->
      In (formatFloat v (locale st) (config (appData st))
            (divide (totalPaid c) (totalSites c)))
         ["NaN"; "∞"; "-∞"]).
Proof.
  intros Hcalc Hsites Hpaid Hcount Haverage currency st'. subst st'.
  split.
  2:{ intros ->. unfold divide. cbn [Z.eqb].
      destruct (Qeq_bool (totalPaid c) 0); [now left|].
      destruct (Qle_bool 0 (totalPaid c)); cbn; auto. }
  unfold updatePaymentsDisplay.
  erewrite bind_ok by reflexivity. erewrite bind_ok by reflexivity.
  erewrite bind_ok by reflexivity. rewrite Hcalc.
  erewrite bind_ok by (apply assign_some; exact Hpaid).
  erewrite bind_ok.
  2:{ apply assign_some. cbn [page set_page].
      rewrite lookup_insert_ne by discriminate. exact Hcount. }
  erewrite bind_ok.
  2:{ apply assign_some. cbn [page set_page].
      do 2 rewrite lookup_insert_ne by discriminate. exact Haverage. }
  assert (Hzero : (0 <? totalSites c) = false) by (apply Z.ltb_ge; lia).
  rewrite Hzero.
  assert (Hfmt : formatFloat v (locale st) (config (appData st)) (FNum 0)
                 = "0").
  { destruct v; cbn [formatFloat formatAmount];
      [apply formatNumber_zero | apply toLocaleString_zero]. }
  rewrite Hfmt.
  match goal with
  | |- page (snd (?rest _)) !! _ = _ =>
      assert (Hrest : preserves (fun s0 => page s0 !! "avgPerSite") rest)
  end.
  { preserve; cbn [page set_page]; apply lookup_insert_ne; discriminate. }
  rewrite Hrest. cbn [page set_page]. rewrite lookup_insert_eq. reflexivity.
Qed.

(** ** C1: what [addSite] stores *)

Lemma addSite_effect (v : Version) (st : State AppData) (name level : Element) :
  page st !! "siteName" = Some name ->
  page st !! "siteLevel" = Some level ->
  sites (appData (snd (addSite v st)))
  = if takesSite (value name) (value level) (participantChecks st)
    then (sites (appData st)
          ++ [Site.mk (clock st O) (Str.trim (value name))
                (parseInt (value level))
                (List.map (participantId v)
                   (List.filter checked (participantChecks st)))])%list
    else sites (appData st).
Proof.
  intros Hname Hlevel. unfold addSite, takesSite.
  erewrite bind_ok by reflexivity.
  erewrite bind_ok by (apply property_some; exact Hname).
  erewrite bind_ok by (apply property_some; exact Hlevel).
  destruct (nonEmpty (Str.trim (value name))); cbn [negb andb].
  2:{ match goal with
      | |- sites (appData (snd (?m ?s))) = _ =>
          assert (H : preserves appData m) by preserve; now rewrite (H s)
      end. }
  destruct (lessThan _ 1 || greaterThan _ 10)%bool; cbn [negb andb].
  { match goal with
    | |- sites (appData (snd (?m ?s))) = _ =>
        assert (H : preserves appData m) by preserve; now rewrite (H s)
    end. }
  erewrite bind_ok by reflexivity. cbn [participantChecks set_console].
  rewrite length_map.
  destruct (length (List.filter checked (participantChecks st)) =? 0)%nat;
    cbn [negb].
  { match goal with
    | |- sites (appData (snd (?m ?s))) = _ =>
        assert (H : preserves appData m) by preserve; now rewrite (H s)
    end. }
  erewrite bind_ok by reflexivity.
  erewrite bind_ok by reflexivity.
  erewrite bind_ok by reflexivity.
  match goal with
  | |- sites (appData (snd (?m ?s))) = _ =>
      assert (H : preserves appData m);
      [preserve; apply updateSitesList_appData | rewrite (H s)]
  end.
  reflexivity.
Qed.

(** A form with a blank name, a level that is a number outside 1 to 10,
    or no checked box leaves the sites as they are. *)
Lemma addSite_rejects (v : Version) (st : State AppData) (name level : Element) :
  page st !! "siteName" = Some name ->
  page st !! "siteLevel" = Some level ->
  Str.trim (value name) = ""
  \/ (exists z, parseInt (value level) = Int z /\ (z < 1 \/ 10 < z))
  \/ List.filter checked (participantChecks st) = [] ->
  sites (appData (snd (addSite v st))) = sites (appData st).
Proof.
  intros Hname Hlevel Hbad. rewrite (addSite_effect v st name level Hname Hlevel).
  unfold takesSite. destruct Hbad as [Hn|[(z & Hz & Hout)|Hb]].
  - now rewrite Hn.
  - rewrite Hz. cbn [lessThan greaterThan].
    destruct Hout as [Hlt|Hgt].
    + apply Z.ltb_lt in Hlt. rewrite Hlt. cbn. now rewrite andb_false_r.
    + apply Z.ltb_lt in Hgt. rewrite Hgt, orb_true_r. cbn.
      now rewrite andb_false_r.
  - rewrite Hb. cbn. now rewrite andb_false_r.
Qed.

(** The site [addSite] stores has a participant, and a level that is in
    1 to 10 whenever it is a number; nothing makes it a number. *)
Lemma addSite_stored_site (v : Version) (st : State AppData)
    (name level : Element) :
  page st !! "siteName" = Some name ->
  page st !! "siteLevel" = Some level ->
  sites (appData (snd (addSite v st))) <> sites (appData st) ->
  exists s,
    sites (appData (snd (addSite v st))) = (sites (appData st) ++ [s])%list
    /\ Site.participants s <> []
    /\ Site.name s <> ""
    /\ (Site.level s = NaN
        \/ exists z, Site.level s = Int z /\ 1 <= z <= 10).
Proof.
  intros Hname Hlevel Hchanged.
  rewrite (addSite_effect v st name level Hname Hlevel) in *.
  unfold takesSite in *.
  destruct (nonEmpty (Str.trim (value name))) eqn:Hn;
    cbn [negb andb] in *; [|congruence].
  destruct (lessThan _ 1 || greaterThan _ 10)%bool eqn:Hl;
    cbn [negb andb] in *; [congruence|].
  destruct (length (List.filter checked (participantChecks st)) =? 0)%nat
    eqn:Hb; cbn [negb andb] in *; [congruence|].
  eexists. split; [reflexivity|]. cbn. repeat split.
  - destruct (List.filter checked (participantChecks st)); discriminate.
  - intros H. rewrite H in Hn. discriminate.
  - destruct (parseInt (value level)) as [|z]; [now left|]. right.
    exists z. split; [reflexivity|]. cbn in Hl.
    apply orb_false_iff in Hl as [H1 H2].
    apply Z.ltb_ge in H1, H2. lia.
Qed.

(** C1.  On the form of [emptyLevelForm], whose level field is empty,
    [addSite] stores a site whose level is [NaN]: both comparisons of
    the range check are false on [NaN]. *)
Theorem addSite_stores_site_without_level (v : Version) :
  sites (appData (snd (addSite v emptyLevelForm)))
  = [Site.mk 1700000000000 "Alpha" NaN
       [match v with Current => IdStr "7" | Legacy => IdNum (Int 7) end]].
Proof. destruct v; vm_compute; reflexivity. Qed.

(** ** C5: what [saveConfig] stores *)

Lemma writesInRange_refl st : writesInRange st st.
Proof. intros values' key x H1 H2. right. eauto. Qed.

Lemma writesInRange_trans st1 st2 st3 :
  writesInRange st1 st2 -> writesInRange st2 st3 -> writesInRange st1 st3.
Proof.
  intros H12 H23 values3 key x H3 Hx.
  destruct (H23 _ _ _ H3 Hx) as [Hr|(values2 & H2 & Hx2)]; [now left|].
  exact (H12 _ _ _ H2 Hx2).
Qed.

Lemma writesInRange_same st st' :
  levelValuesOf st' = levelValuesOf st -> writesInRange st st'.
Proof. intros H values' key x H1 H2. right. rewrite H in H1. eauto. Qed.

Lemma saveLevel_writesInRange i st : writesInRange st (snd (saveLevel i st)).
Proof.
  unfold saveLevel.
  destruct (page st !! ("level" ++ Z_toString i)) as [input|] eqn:Hinput.
  2:{ unfold property at 1, getElementById, gets, bind. rewrite Hinput.
      apply writesInRange_refl. }
  erewrite bind_ok by (apply property_some; exact Hinput).
  erewrite bind_ok by (apply property_some; exact Hinput).
  erewrite bind_ok by reflexivity.
  set (levelValue := parseFormattedNumber _).
  destruct ((levelValue <? 0) || (999999999999 <? levelValue))%bool eqn:Hout.
  - match goal with
    | |- writesInRange st (snd (?m ?s)) =>
        assert (H : preserves appData m) by preserve
    end.
    apply writesInRange_same. unfold levelValuesOf. now rewrite H.
  - apply orb_false_iff in Hout as [Hlow Hhigh].
    apply Z.ltb_ge in Hlow, Hhigh.
    erewrite bind_ok by reflexivity. cbn [snd ret].
    intros values' key x Hvalues' Hx.
    unfold levelValuesOf in *. cbn in Hvalues'.
    destruct (Config.levelValues (config (appData st))) as [values|];
      [|discriminate]. cbn in Hvalues'.
    injection Hvalues' as <-.
    rewrite insert_insert_eq in Hx.
    destruct (decide (Z_toString i = key)) as [<-|Hne].
    + rewrite lookup_insert_eq in Hx. injection Hx as <-. left. lia.
    + rewrite lookup_insert_ne in Hx by assumption. right. eauto.
Qed.

Lemma forLevels_writesInRange levels st :
  writesInRange st (snd (forLevels saveLevel levels st)).
Proof.
  revert st. induction levels as [|i levels IH]; intros st.
  - apply writesInRange_refl.
  - cbn [forLevels]. unfold bind at 1.
    pose proof (saveLevel_writesInRange i st) as Hi.
    destruct (saveLevel i st) as [[[|]|e] st1]; cbn [snd] in *.
    + eapply writesInRange_trans; [exact Hi | apply IH].
    + exact Hi.
    + exact Hi.
Qed.

(** Whatever the form holds, a level value that [saveConfig] leaves in
    the configuration is within the bounds or was there before. *)
Lemma saveConfig_values_in_range st :
  writesInRange st (snd (saveConfig st)).
Proof.
  unfold saveConfig.
  erewrite bind_ok by reflexivity. erewrite bind_ok by reflexivity.
  erewrite bind_ok by reflexivity.
  match goal with
  | |- writesInRange st (snd (bind (forLevels _ _) _ ?s)) => set (st0 := s)
  end.
  assert (H0 : writesInRange st st0).
  { intros values' key x Hvalues' Hx. subst st0. unfold levelValuesOf in *.
    cbn in Hvalues'.
    destruct (Config.levelValues (config (appData st))) as [values|] eqn:Hv.
    - right. exists values. cbn in Hvalues'. injection Hvalues' as <-. auto.
    - cbn in Hvalues'. injection Hvalues' as <-.
      rewrite lookup_empty in Hx. discriminate. }
  eapply writesInRange_trans; [exact H0|].
  unfold bind at 1.
  pose proof (forLevels_writesInRange oneToTen st0) as Hloop.
  destruct (forLevels saveLevel oneToTen st0) as [[[|]|e] st1]; cbn [snd] in *;
    try exact Hloop.
  eapply writesInRange_trans; [exact Hloop|].
  apply writesInRange_same.
  match goal with
  | |- levelValuesOf (snd (?m ?s)) = _ =>
      assert (H : preserves levelValuesOf m) by preserve
  end.
  apply H.
Qed.

(** C5.  On the form of [oversizedLevelForm], whose level 2 is out of
    range, [saveConfig] shows the error and arms no save, and yet the
    level values of the document have changed: level 1, validated and
    stored before level 2 was looked at, is now 5. *)
Theorem saveConfig_keeps_part_of_rejected_form :
  let st' := snd (saveConfig oversizedLevelForm) in
  (Config.levelValues (config (appData oversizedLevelForm))
   = Some {["1" := 100000]})
  /\ Config.levelValues (config (appData st')) = Some {["1" := 5]}
  /\ activeSection st' = Some [mkToast "error-message" "Valor de nivel 2 inválido"]
  /\ saveTimeout st' = false.
Proof. vm_compute. repeat split. Qed.

(** ** The theorems at work on the scenarios *)

Lemma formatNumber_roundtrip_witness :
  0 <= 1234567 <= 2 ^ 53
  /\ In "space" ["comma"; "space"; "dot"]
  /\ parseFormattedNumber
       (formatNumber (config initialAppData) (inject_Z 1234567) (Some "space"))
     = 1234567.
Proof.
  assert (H1 : 0 <= 1234567 <= 2 ^ 53) by lia.
  assert (H2 : In "space" ["comma"; "space"; "dot"]) by (simpl; auto).
  exact (conj H1 (conj H2 (formatNumber_roundtrip _ _ _ H1 H2))).
Defined.

Lemma removeMember_removes_exactly_witness :
  answers demoState O = true
  /\ List.map Member.name
       (members (appData (snd (removeMember Current (IdStr "7") demoState))))
     = ["Bob"]
  /\ sites (appData (snd (removeMember Current (IdStr "7") demoState)))
     = sites (appData demoState).
Proof.
  assert (H : answers demoState O = true) by reflexivity.
  destruct (removeMember_removes_exactly Current (IdStr "7") demoState H)
    as (Hmembers & _ & Hsites & _).
  split; [exact H|]. split; [|exact Hsites].
  rewrite Hmembers. reflexivity.
Defined.

Lemma addMember_appends_witness :
  page demoState !! "memberName" = Some (set_value "Cy, Di" emptyElement)
  /\ page demoState !! "isSalvager" = Some (set_checked true emptyElement)
  /\ delimitedNames "Cy, Di" = ["Cy"; "Di"]
  /\ List.map Member.name (members (appData (snd (addMember Current demoState))))
     = ["Ann"; "Bob"; "Cy"; "Di"].
Proof.
  assert (H1 : page demoState !! "memberName"
               = Some (set_value "Cy, Di" emptyElement))
    by (vm_compute; reflexivity).
  assert (H2 : page demoState !! "isSalvager"
               = Some (set_checked true emptyElement))
    by (vm_compute; reflexivity).
  assert (H3 : delimitedNames "Cy, Di" = ["Cy"; "Di"])
    by (vm_compute; reflexivity).
  destruct (addMember_appends Current demoState _ _ H1 H2) as [Hadd _].
  change (value (set_value "Cy, Di" emptyElement)) with "Cy, Di" in Hadd.
  rewrite H3 in Hadd.
  destruct (Hadd ltac:(discriminate)) as (added & Hmembers & _ & Hnames & _).
  refine (conj H1 (conj H2 (conj H3 _))).
  rewrite Hmembers, List.map_app, Hnames. reflexivity.
Defined.

Lemma handleFileImport_requires_all_keys_witness :
  fileType sampleFile = "application/json"
  /\ fileText sampleFile = Some sampleText
  /\ sampleParse sampleText
     = Some (JObject [("config", JObject []); ("members", JArray [])])
  /\ appData (snd (handleFileImport sampleParse (ret tt) (Some sampleFile)
                     importState))
     = appData importState.
Proof.
  assert (H1 : fileType sampleFile = "application/json") by reflexivity.
  assert (H2 : fileText sampleFile = Some sampleText) by reflexivity.
  assert (H3 : sampleParse sampleText
               = Some (JObject [("config", JObject []); ("members", JArray [])]))
    by (vm_compute; reflexivity).
  destruct (handleFileImport_requires_all_keys sampleParse (ret tt) importState
              sampleFile sampleText _ H1 H2 H3) as [_ Hmissing].
  destruct (Hmissing eq_refl) as (Hdoc & _).
  exact (conj H1 (conj H2 (conj H3 Hdoc))).
Defined.

Lemma updateSitesList_tolerates_unknown_participants_witness :
  Config.levelValues (config (appData demoState)) = Some {["1" := 500000]}
  /\ page demoState !! "siteCount" = Some emptyElement
  /\ page demoState !! "sitesList" = Some emptyElement
  /\ sites (appData demoState) <> []
  /\ fst (updateSitesList Current demoState) = Ok tt
  /\ participantName (members (appData demoState)) (IdStr "9") = "Desconocido".
Proof.
  assert (H1 : Config.levelValues (config (appData demoState))
               = Some {["1" := 500000]}) by reflexivity.
  assert (H2 : page demoState !! "siteCount" = Some emptyElement)
    by (vm_compute; reflexivity).
  assert (H3 : page demoState !! "sitesList" = Some emptyElement)
    by (vm_compute; reflexivity).
  assert (H4 : sites (appData demoState) <> []) by discriminate.
  destruct (updateSitesList_tolerates_unknown_participants Current demoState
              _ _ _ H1 H2 H3 H4) as (Hok & _ & Hunknown & _).
  refine (conj H1 (conj H2 (conj H3 (conj H4 (conj Hok _))))).
  apply Hunknown. intros m [<-|[<-|[]]]; reflexivity.
Defined.

Lemma missing_level_value_shows_zero_witness :
  Config.levelValues (config (appData demoState)) = Some {["1" := 500000]}
  /\ page demoState !! "siteCount" = Some emptyElement
  /\ page demoState !! "sitesList" = Some emptyElement
  /\ sites (appData demoState) <> []
  /\ exists levelName participants,
       page (snd (updateSitesList Current demoState)) !! "sitesList"
       = Some (set_content
                 (sitesTableHtml
                    (siteRowHtml "Gate" levelName participants "0 ISK"
                       "1700000000000"))
                 emptyElement).
Proof.
  assert (H1 : Config.levelValues (config (appData demoState))
               = Some {["1" := 500000]}) by reflexivity.
  assert (H2 : page demoState !! "siteCount" = Some emptyElement)
    by (vm_compute; reflexivity).
  assert (H3 : page demoState !! "sitesList" = Some emptyElement)
    by (vm_compute; reflexivity).
  assert (H4 : sites (appData demoState) <> []) by discriminate.
  destruct (missing_level_value_shows_zero Current demoState _ _ _ H1 H2 H3 H4)
    as (rows & Hpage & Hrows).
  refine (conj H1 (conj H2 (conj H3 (conj H4 _)))).
  change (sites (appData demoState))
    with [Site.mk 1700000000000 "Gate" (Int 3) [IdStr "7"; IdStr "9"]] in Hrows.
  inversion Hrows as [|s row ss rows' Hrow Hrest]; subst.
  inversion Hrest; subst.
  destruct (Hrow ltac:(vm_compute; reflexivity))
    as (_ & levelName & participants & ->).
  exists levelName, participants. exact Hpage.
Defined.

Lemma payments_shown_sorted_on_a_copy_witness :
  calculations demoState = Some (mkCalculations (350 # 1) 0 1%positive)
  /\ heap demoState !! 1%positive = Some demoPayments
  /\ page demoState !! "totalPaid" = Some emptyElement
  /\ page demoState !! "totalSites" = Some emptyElement
  /\ page demoState !! "avgPerSite" = Some emptyElement
  /\ page demoState !! "paymentsList" = Some emptyElement
  /\ heap (snd (updatePaymentsDisplay Current demoState)) !! 1%positive
     = Some demoPayments.
Proof.
  assert (H1 : calculations demoState
               = Some (mkCalculations (350 # 1) 0 1%positive)) by reflexivity.
  assert (H2 : heap demoState !! 1%positive = Some demoPayments)
    by (vm_compute; reflexivity).
  assert (H3 : page demoState !! "totalPaid" = Some emptyElement)
    by (vm_compute; reflexivity).
  assert (H4 : page demoState !! "totalSites" = Some emptyElement)
    by (vm_compute; reflexivity).
  assert (H5 : page demoState !! "avgPerSite" = Some emptyElement)
    by (vm_compute; reflexivity).
  assert (H6 : page demoState !! "paymentsList" = Some emptyElement)
    by (vm_compute; reflexivity).
  destruct (payments_shown_sorted_on_a_copy Current demoState _ _ _ _ _ _
              H1 H2 H3 H4 H5 H6) as (shown & _ & _ & _ & _ & Hheap).
  exact (conj H1 (conj H2 (conj H3 (conj H4 (conj H5 (conj H6 Hheap)))))).
Defined.

Lemma average_is_zero_without_sites_witness :
  calculations demoState = Some (mkCalculations (350 # 1) 0 1%positive)
  /\ totalSites (mkCalculations (350 # 1) 0 1%positive) <= 0
  /\ page demoState !! "totalPaid" = Some emptyElement
  /\ page demoState !! "totalSites" = Some emptyElement
  /\ page demoState !! "avgPerSite" = Some emptyElement
  /\ page (snd (updatePaymentsDisplay Current demoState)) !! "avgPerSite"
     = Some (set_content "0 ISK" emptyElement)
  /\ divide (350 # 1) 0 = FInfinity false.
Proof.
  assert (H1 : calculations demoState
               = Some (mkCalculations (350 # 1) 0 1%positive)) by reflexivity.
  assert (H2 : totalSites (mkCalculations (350 # 1) 0 1%positive) <= 0)
    by (cbn; lia).
  assert (H3 : page demoState !! "totalPaid" = Some emptyElement)
    by (vm_compute; reflexivity).
  assert (H4 : page demoState !! "totalSites" = Some emptyElement)
    by (vm_compute; reflexivity).
  assert (H5 : page demoState !! "avgPerSite" = Some emptyElement)
    by (vm_compute; reflexivity).
  pose proof (proj1 (average_is_zero_without_sites Current demoState _ _ _ _
                       H1 H2 H3 H4 H5)) as Havg.
  exact (conj H1 (conj H2 (conj H3 (conj H4 (conj H5 (conj Havg eq_refl)))))).
Defined.

(** * Further properties *)

(** ** Reading numbers back *)

Lemma allDigits_remove s : allDigits (Str.remove notDigit s) = true.
Proof.
  induction s as [|c s IH]; [reflexivity|]. cbn [Str.remove].
  unfold notDigit at 1. destruct (Str.isDigit c) eqn:Hc; cbn [negb]; [|exact IH].
  cbn [allDigits]. now rewrite Hc, IH.
Qed.

Lemma horner_nonneg s acc : allDigits s = true -> 0 <= acc -> 0 <= horner s acc.
Proof.
  revert acc. induction s as [|c s IH]; intros acc Hs Hacc; [exact Hacc|].
  cbn [allDigits] in Hs. apply andb_true_iff in Hs as [Hc Hs].
  cbn [horner]. apply IH; [exact Hs|].
  unfold Str.isDigit in Hc. apply andb_true_iff in Hc as [Hc _].
  apply N.leb_le in Hc. unfold Str.digitValue. lia.
Qed.

Lemma parseInt_empty : parseInt "" = NaN.
Proof. reflexivity. Qed.

(** What [parseFormattedNumber] reads: the digits of the text, as a
    number. *)
Lemma parseFormattedNumber_digits s :
  parseFormattedNumber s = horner (Str.remove notDigit s) 0.
Proof.
  unfold parseFormattedNumber.
  destruct (String.eqb s "") eqn:Hs.
  { apply String.eqb_eq in Hs. now subst s. }
  change (fun c => negb (Str.isDigit c)) with notDigit.
  pose proof (allDigits_remove s) as Hall.
  destruct (Str.remove notDigit s) as [|c r] eqn:Hd; [reflexivity|].
  rewrite parseInt_digits by (assumption || reflexivity). reflexivity.
Qed.

Lemma parseFormattedNumber_toLocaleString_abs l z :
  parseFormattedNumber (toLocaleString l z) = Z.abs z.
Proof.
  destruct (Z.ltb_spec z 0) as [Hneg|Hpos].
  - rewrite parseFormattedNumber_digits. unfold toLocaleString.
    apply Z.ltb_lt in Hneg as Hneg'. rewrite Hneg'.
    destruct (decimal_spec (Z.to_N (- z))) as (Hall & Hne & Hval).
    assert (Hsep : Str.remove notDigit (groupSeparator l) = "") by now destruct l.
    rewrite remove_app. change (Str.remove notDigit "-") with "".
    change ("" ++ ?x) with x.
    rewrite remove_group3 by assumption. rewrite Hval. lia.
  - rewrite parseFormattedNumber_toLocaleString by assumption. lia.
Qed.

Lemma parseFormattedNumber_Z_toString z :
  parseFormattedNumber (Z_toString z) = Z.abs z.
Proof.
  rewrite parseFormattedNumber_digits. unfold Z_toString.
  destruct (Z.ltb_spec z 0) as [Hneg|Hpos].
  - destruct (decimal_spec (Z.to_N (- z))) as (Hall & Hne & Hval).
    rewrite remove_app. change (Str.remove notDigit "-") with "".
    change ("" ++ ?x) with x.
    rewrite remove_digits by assumption. rewrite Hval. lia.
  - destruct (decimal_spec (Z.to_N z)) as (Hall & Hne & Hval).
    rewrite remove_digits by assumption. rewrite Hval. lia.
Qed.

(** X1.  [parseFormattedNumber] never returns a negative number: a sign
    goes with the other characters that are not digits, so the first
    half of the check [levelValue < 0 || levelValue > 999999999999] of
    [saveConfig] never holds. *)
Theorem parseFormattedNumber_never_negative (s : string) :
  0 <= parseFormattedNumber s
  /\ (parseFormattedNumber s <? 0) = false.
Proof.
  assert (H : 0 <= parseFormattedNumber s).
  { rewrite parseFormattedNumber_digits.
    apply horner_nonneg; [apply allDigits_remove | lia]. }
  split; [exact H|]. apply Z.ltb_ge. exact H.
Qed.

(** X2.  Formatting an integer and parsing the text back gives its
    absolute value, whatever the format: the sign is lost. *)
Theorem parseFormattedNumber_formatNumber_abs (cfg : Config.t) (z : Z)
    (format : option string) :
  Z.abs z <= 2 ^ 53 ->
  parseFormattedNumber (formatNumber cfg (inject_Z z) format) = Z.abs z.
Proof.
  intros _. unfold formatNumber. rewrite Math_round_integer.
  repeat match goal with
         | |- context [if ?b then _ else _] => destruct b
         end; apply parseFormattedNumber_toLocaleString_abs.
Qed.

Lemma parseFormattedNumber_formatNumber_abs_witness :
  Z.abs (-1500) <= 2 ^ 53
  /\ parseFormattedNumber
       (formatNumber (config initialAppData) (inject_Z (-1500)) (Some "dot"))
     = 1500.
Proof.
  assert (H : Z.abs (-1500) <= 2 ^ 53) by (vm_compute; discriminate).
  split; [exact H|].
  exact (parseFormattedNumber_formatNumber_abs (config initialAppData) (-1500)
           (Some "dot") H).
Defined.

(** ** Trimming *)

Lemma append_nil_r (s : string) : s ++ "" = s.
Proof.
  induction s as [|c s IH]; [reflexivity|].
  change (String c (s ++ "") = String c s). now rewrite IH.
Qed.

Lemma length_append (s t : string) :
  String.length (s ++ t) = (String.length s + String.length t)%nat.
Proof.
  induction s as [|c s IH]; [reflexivity|].
  change (S (String.length (s ++ t)) = S (String.length s + String.length t)).
  now rewrite IH.
Qed.

Lemma rev_onto_app s acc : Str.rev_onto s acc = Str.rev_onto s "" ++ acc.
Proof.
  revert acc. induction s as [|c s IH]; intros acc; [reflexivity|].
  cbn [Str.rev_onto]. rewrite IH, (IH (String c "")).
  now rewrite append_assoc.
Qed.

Lemma rev_app s t : Str.rev (s ++ t) = Str.rev t ++ Str.rev s.
Proof.
  unfold Str.rev. induction s as [|c s IH].
  - change ("" ++ t) with t. now rewrite append_nil_r.
  - change (String c s ++ t) with (String c (s ++ t)). cbn [Str.rev_onto].
    rewrite rev_onto_app, IH, (rev_onto_app s (String c "")).
    now rewrite append_assoc.
Qed.

Lemma rev_involutive s : Str.rev (Str.rev s) = s.
Proof.
  induction s as [|c s IH]; [reflexivity|].
  unfold Str.rev at 2. cbn [Str.rev_onto]. rewrite rev_onto_app.
  fold (Str.rev s). rewrite rev_app, IH. reflexivity.
Qed.

Lemma dropPrefix_some w s r : Str.dropPrefix w s = Some r -> s = w ++ r.
Proof.
  revert s. induction w as [|a w IH]; intros s H.
  - cbn in H. now injection H as <-.
  - destruct s as [|b s]; [discriminate|]. cbn [Str.dropPrefix] in H.
    destruct (Ascii.eqb a b) eqn:Hab; [|discriminate].
    apply Ascii.eqb_eq in Hab as ->.
    change (String b s = String b (w ++ r)). f_equal. now apply IH.
Qed.

Lemma dropPrefix_app w p q r :
  Str.dropPrefix w p = Some r -> Str.dropPrefix w (p ++ q) = Some (r ++ q).
Proof.
  revert p. induction w as [|a w IH]; intros p H.
  - cbn in H. injection H as <-. reflexivity.
  - destruct p as [|b p]; [discriminate|]. cbn [Str.dropPrefix] in H.
    change (String b p ++ q) with (String b (p ++ q)). cbn [Str.dropPrefix].
    destruct (Ascii.eqb a b); [|discriminate]. now apply IH.
Qed.

Lemma dropOne_some ws s r :
  Str.dropOne ws s = Some r -> exists w, In w ws /\ s = w ++ r.
Proof.
  induction ws as [|w ws IH]; [discriminate|]. cbn [Str.dropOne].
  destruct (Str.dropPrefix w s) as [r'|] eqn:Hw.
  - intros H. injection H as <-. exists w. split; [now left|].
    now apply dropPrefix_some.
  - intros H. destruct (IH H) as (w' & Hin & Heq). exists w'. split; [now right|].
    exact Heq.
Qed.

(** White space at the head of a text is at the head of every text that
    extends it. *)
Lemma dropOne_none_prefix ws p q :
  Str.dropOne ws (p ++ q) = None -> Str.dropOne ws p = None.
Proof.
  induction ws as [|w ws IH]; [reflexivity|]. cbn [Str.dropOne].
  destruct (Str.dropPrefix w (p ++ q)) as [r|] eqn:Hpq; [discriminate|].
  destruct (Str.dropPrefix w p) as [r|] eqn:Hp.
  - rewrite (dropPrefix_app _ _ q _ Hp) in Hpq. discriminate.
  - exact IH.
Qed.

Lemma dropWhile_suffix fuel ws s :
  exists p, s = p ++ Str.dropWhile fuel ws s.
Proof.
  revert s. induction fuel as [|fuel IH]; intros s; [now exists ""|].
  cbn [Str.dropWhile]. destruct (Str.dropOne ws s) as [r|] eqn:Hr; [|now exists ""].
  destruct (dropOne_some _ _ _ Hr) as (w & _ & ->).
  destruct (IH r) as (p & Hp). exists (w ++ p).
  rewrite append_assoc. now rewrite <- Hp.
Qed.

Lemma dropWhile_done fuel ws s :
  Forall (fun w => w <> "") ws -> (String.length s <= fuel)%nat ->
  Str.dropOne ws (Str.dropWhile fuel ws s) = None.
Proof.
  intros Hws. revert s. induction fuel as [|fuel IH]; intros s Hlen.
  - destruct s; [|cbn in Hlen; lia]. cbn [Str.dropWhile].
    destruct (Str.dropOne ws "") as [r|] eqn:Hr; [|reflexivity].
    destruct (dropOne_some _ _ _ Hr) as (w & Hin & Heq).
    rewrite List.Forall_forall in Hws. specialize (Hws w Hin).
    destruct w; [congruence | discriminate].
  - cbn [Str.dropWhile]. destruct (Str.dropOne ws s) as [r|] eqn:Hr; [|exact Hr].
    apply IH. destruct (dropOne_some _ _ _ Hr) as (w & Hin & ->).
    rewrite List.Forall_forall in Hws. specialize (Hws w Hin).
    rewrite length_append in Hlen. destruct w; [congruence|]. cbn in Hlen. lia.
Qed.

Lemma whiteSpace_nonEmpty : Forall (fun w => w <> "") Str.whiteSpace.
Proof. repeat constructor; discriminate. Qed.

Lemma whiteSpace_rev_nonEmpty :
  Forall (fun w => w <> "") (List.map Str.rev Str.whiteSpace).
Proof. repeat constructor; discriminate. Qed.

Lemma length_rev s : String.length (Str.rev s) = String.length s.
Proof.
  induction s as [|c s IH]; [reflexivity|].
  unfold Str.rev. cbn [Str.rev_onto]. rewrite rev_onto_app, length_append.
  fold (Str.rev s). rewrite IH. cbn. lia.
Qed.

Lemma trimStart_suffix s : exists p, s = p ++ Str.trimStart s.
Proof. apply dropWhile_suffix. Qed.

Lemma trimEnd_prefix s : exists q, s = Str.trimEnd s ++ q.
Proof.
  unfold Str.trimEnd.
  destruct (dropWhile_suffix (String.length s) (List.map Str.rev Str.whiteSpace)
              (Str.rev s)) as (p & Hp).
  exists (Str.rev p). rewrite <- rev_app, <- Hp. now rewrite rev_involutive.
Qed.

Lemma trim_startsWithSpace s : startsWithSpace (Str.trim s) = false.
Proof.
  unfold startsWithSpace, Str.trim.
  assert (H : Str.dropOne Str.whiteSpace (Str.trimStart s) = None).
  { apply dropWhile_done; [apply whiteSpace_nonEmpty | lia]. }
  destruct (trimEnd_prefix (Str.trimStart s)) as (q & Hq).
  rewrite Hq in H. apply dropOne_none_prefix in H. now rewrite H.
Qed.

Lemma trim_endsWithSpace s : endsWithSpace (Str.trim s) = false.
Proof.
  unfold endsWithSpace, Str.trim, Str.trimEnd. rewrite rev_involutive.
  rewrite dropWhile_done; [reflexivity | apply whiteSpace_rev_nonEmpty |].
  rewrite length_rev. lia.
Qed.

Lemma delimiterFree_app s t :
  delimiterFree (s ++ t) = (delimiterFree s && delimiterFree t)%bool.
Proof.
  induction s as [|c s IH]; [reflexivity|].
  change (String c s ++ t) with (String c (s ++ t)). cbn [delimiterFree].
  rewrite IH. apply andb_assoc.
Qed.

Lemma trim_delimiterFree s :
  delimiterFree s = true -> delimiterFree (Str.trim s) = true.
Proof.
  intros H. unfold Str.trim.
  destruct (trimStart_suffix s) as (p & Hp).
  destruct (trimEnd_prefix (Str.trimStart s)) as (q & Hq).
  rewrite Hp, delimiterFree_app in H. apply andb_true_iff in H as [_ H].
  rewrite Hq, delimiterFree_app in H. now apply andb_true_iff in H as [H _].
Qed.

Lemma splitRuns_delimiterFree s inRun :
  Forall (fun piece => delimiterFree piece = true)
    (Str.splitRuns isDelimiter s inRun).
Proof.
  revert inRun. induction s as [|c s IH]; intros inRun.
  - repeat constructor.
  - cbn [Str.splitRuns]. destruct (isDelimiter c) eqn:Hc.
    + destruct inRun; [apply IH|]. constructor; [reflexivity | apply IH].
    + specialize (IH false).
      destruct (Str.splitRuns isDelimiter s false) as [|piece pieces].
      * repeat constructor. cbn [delimiterFree]. now rewrite Hc.
      * apply Forall_cons in IH as [Hp Hps]. constructor; [|exact Hps].
        cbn [delimiterFree]. now rewrite Hc, Hp.
Qed.

(** X3.  The names [addMember] takes from a text are never empty, hold no
    comma and no line break, and neither begin nor end with white
    space. *)
Theorem namesOf_are_clean (raw : string) :
  Forall (fun n => n <> ""
                   /\ delimiterFree n = true
                   /\ startsWithSpace n = false
                   /\ endsWithSpace n = false)
    (namesOf raw).
Proof.
  unfold namesOf. apply List.Forall_forall. intros n Hn.
  apply filter_In in Hn as [Hin Hne]. apply in_map_iff in Hin as (piece & <- & Hin).
  pose proof (splitRuns_delimiterFree raw false) as Hfree.
  rewrite List.Forall_forall in Hfree. specialize (Hfree piece Hin).
  split; [|split; [|split]].
  - intros Heq. rewrite Heq in Hne. discriminate.
  - now apply trim_delimiterFree.
  - apply trim_startsWithSpace.
  - apply trim_endsWithSpace.
Qed.

(** ** Identifiers *)

Lemma toInt32_random (r : Q) :
  (0 <= r)%Q -> (r < 1)%Q -> 0 <= toInt32 (r * 16) <= 15.
Proof.
  intros H0 H1. unfold toInt32.
  assert (Hq0 : (0 <= r * 16)%Q).
  { apply Qmult_le_0_compat; [exact H0 | discriminate]. }
  apply Qle_bool_iff in Hq0 as Hb. rewrite Hb.
  assert (Hf : 0 <= Qfloor (r * 16) <= 15).
  { destruct r as [a b]. unfold Qle, Qlt in H0, H1. cbn in H0, H1.
    unfold Qfloor, Qmult. cbn [Qnum Qden].
    rewrite Pos2Z.inj_mul. change (Z.pos 1) with 1. rewrite Z.mul_1_r.
    split.
    - apply Z.div_pos; lia.
    - assert (a * 16 / Z.pos b < 16); [|lia].
      apply Z.div_lt_upper_bound; lia. }
  rewrite Z.mod_small by lia. lia.
Qed.

Lemma uuidChar_shape {D : Type} (c : ascii) (st : State D) :
  (forall n, (0 <= randoms st n)%Q /\ (randoms st n < 1)%Q) ->
  exists d st',
    uuidChar c st = (Ok (String d ""), st')
    /\ followsPattern (String c "") (String d "") = true
    /\ forall n, (0 <= randoms st' n)%Q /\ (randoms st' n < 1)%Q.
Proof.
  intros Hr. unfold uuidChar.
  destruct (Ascii.eqb c "x" || Ascii.eqb c "y")%bool eqn:Hxy.
  - destruct (Hr O) as [H0 H1].
    pose proof (toInt32_random _ H0 H1) as Hv.
    unfold Math_random, bind, ret. cbn [randoms set_randoms].
    set (r := toInt32 (randoms st 0%nat * 16)) in *.
    assert (Hcases : r = 0 \/ r = 1 \/ r = 2 \/ r = 3 \/ r = 4 \/ r = 5 \/ r = 6
                     \/ r = 7 \/ r = 8 \/ r = 9 \/ r = 10 \/ r = 11 \/ r = 12
                     \/ r = 13 \/ r = 14 \/ r = 15) by lia.
    clearbody r.
    assert (Hnext : forall n,
               (0 <= randoms (set_randoms (fun f k => f (S k)) st) n)%Q
               /\ (randoms (set_randoms (fun f k => f (S k)) st) n < 1)%Q).
    { intros n. apply Hr. }
    destruct (Ascii.eqb c "x") eqn:Hx.
    + apply Ascii.eqb_eq in Hx as ->.
      repeat destruct Hcases as [->|Hcases]; try subst r;
        (eexists _, _; split; [reflexivity|]; split; [reflexivity | exact Hnext]).
    + rewrite orb_false_l in Hxy. apply Ascii.eqb_eq in Hxy as ->.
      repeat destruct Hcases as [->|Hcases]; try subst r;
        (eexists _, _; split; [reflexivity|]; split; [reflexivity | exact Hnext]).
  - exists c, st. split; [reflexivity|]. split; [|exact Hr].
    apply orb_false_iff in Hxy as [Hx Hy]. cbn [followsPattern].
    rewrite Hx, Hy, Ascii.eqb_refl. reflexivity.
Qed.

Lemma followsPattern_cons c pattern d s :
  followsPattern (String c pattern) (String d s)
  = (followsPattern (String c "") (String d "") && followsPattern pattern s)%bool.
Proof.
  cbn [followsPattern]. now rewrite andb_true_r.
Qed.

Lemma replaceXY_shape {D : Type} (pattern : string) (st : State D) :
  (forall n, (0 <= randoms st n)%Q /\ (randoms st n < 1)%Q) ->
  exists s st',
    replaceXY pattern st = (Ok s, st')
    /\ followsPattern pattern s = true
    /\ forall n, (0 <= randoms st' n)%Q /\ (randoms st' n < 1)%Q.
Proof.
  revert st. induction pattern as [|c pattern IH]; intros st Hr.
  - exists "", st. repeat split; apply Hr.
  - destruct (uuidChar_shape c st Hr) as (d & st1 & Hd & Hc & Hr1).
    destruct (IH st1 Hr1) as (s & st2 & Hs & Hp & Hr2).
    exists (String d s), st2. split; [|split; [|exact Hr2]].
    + cbn [replaceXY]. erewrite bind_ok by exact Hd.
      erewrite bind_ok by exact Hs. reflexivity.
    + rewrite followsPattern_cons, Hc, Hp. reflexivity.
Qed.

Lemma followsPattern_length pattern s :
  followsPattern pattern s = true -> String.length s = String.length pattern.
Proof.
  revert s. induction pattern as [|c pattern IH]; intros [|d s] H;
    try discriminate H; [reflexivity|].
  cbn [followsPattern] in H. apply andb_true_iff in H as [_ H].
  cbn [String.length]. f_equal. now apply IH.
Qed.

(** X4.  With [Math.random()] returning numbers from 0 up to, but not
    including, 1, [generateUUID] returns 36 characters in the layout of
    a version-4 UUID: hexadecimal digits in five groups with hyphens
    between them, a [4] at the head of the third group and one of [8],
    [9], [a], [b] at the head of the fourth. *)
Theorem generateUUID_shape {D : Type} (st : State D) :
  (forall n, (0 <= randoms st n)%Q /\ (randoms st n < 1)%Q) ->
  exists s st',
    generateUUID st = (Ok s, st')
    /\ followsPattern "xxxxxxxx-xxxx-4xxx-yxxx-xxxxxxxxxxxx" s = true
    /\ String.length s = 36%nat.
Proof.
  intros Hr.
  destruct (replaceXY_shape "xxxxxxxx-xxxx-4xxx-yxxx-xxxxxxxxxxxx" st Hr)
    as (s & st' & Hs & Hp & _).
  exists s, st'. split; [exact Hs|]. split; [exact Hp|].
  now rewrite (followsPattern_length _ _ Hp).
Qed.

Lemma generateUUID_shape_witness :
  (forall n, (0 <= randoms blankState n)%Q /\ (randoms blankState n < 1)%Q)
  /\ exists s st',
       generateUUID blankState = (Ok s, st')
       /\ followsPattern "xxxxxxxx-xxxx-4xxx-yxxx-xxxxxxxxxxxx" s = true
       /\ String.length s = 36%nat.
Proof.
  assert (H : forall n, (0 <= randoms blankState n)%Q
                        /\ (randoms blankState n < 1)%Q).
  { intros n. split; [apply Qle_refl | reflexivity]. }
  split; [exact H|]. exact (generateUUID_shape blankState H).
Defined.

(** ** Running the handlers step by step *)

Section Steps.

Context {D : Type}.

Lemma saveData_run (st : State D) : saveData st = (Ok tt, snd (saveData st)).
Proof. reflexivity. Qed.

Lemma showMessage_run message type (st : State D) :
  showMessage message type st = (Ok tt, snd (showMessage message type st)).
Proof.
  unfold showMessage, bind, logAction, modify, gets, consoleWrite. cbn.
  destruct (activeSection st); reflexivity.
Qed.

Lemma saveData_page (st : State D) id :
  id <> "dataStatus" -> page (snd (saveData st)) !! id = page st !! id.
Proof.
  intros Hid. unfold saveData, async, updateDataStatus, assign, getElementById,
    bind, logAction, modify, gets. cbn.
  destruct (page st !! "dataStatus"); cbn; [|reflexivity].
  now rewrite lookup_insert_ne.
Qed.

Lemma saveData_doc (st : State D) : appData (snd (saveData st)) = appData st.
Proof. apply saveData_appData. Qed.

Lemma saveData_checks (st : State D) :
  participantChecks (snd (saveData st)) = participantChecks st.
Proof.
  assert (H : preserves participantChecks (@saveData D)) by preserve. apply H.
Qed.

Lemma saveData_locale (st : State D) : locale (snd (saveData st)) = locale st.
Proof.
  assert (H : preserves locale (@saveData D)) by preserve. apply H.
Qed.

Lemma showMessage_page message type (st : State D) :
  page (snd (showMessage message type st)) = page st.
Proof.
  assert (H : preserves page (@showMessage D message type)) by preserve.
  apply H.
Qed.

Lemma showMessage_doc message type (st : State D) :
  appData (snd (showMessage message type st)) = appData st.
Proof. apply showMessage_appData. Qed.

Lemma showMessage_checks message type (st : State D) :
  participantChecks (snd (showMessage message type st)) = participantChecks st.
Proof.
  assert (H : preserves participantChecks (@showMessage D message type))
    by preserve.
  apply H.
Qed.

End Steps.

Section Writes.

Context {D : Type}.

Lemma appData_set_console f (st : State D) :
  appData (set_console f st) = appData st.
Proof. reflexivity. Qed.

Lemma page_set_console f (st : State D) :
  page (set_console f st) = page st.
Proof. reflexivity. Qed.

Lemma participantChecks_set_console f (st : State D) :
  participantChecks (set_console f st) = participantChecks st.
Proof. reflexivity. Qed.

Lemma locale_set_console f (st : State D) :
  locale (set_console f st) = locale st.
Proof. reflexivity. Qed.

Lemma answers_set_console f (st : State D) :
  answers (set_console f st) = answers st.
Proof. reflexivity. Qed.

Lemma clock_set_console f (st : State D) :
  clock (set_console f st) = clock st.
Proof. reflexivity. Qed.

Lemma appData_set_answers f (st : State D) :
  appData (set_answers f st) = appData st.
Proof. reflexivity. Qed.

Lemma page_set_answers f (st : State D) :
  page (set_answers f st) = page st.
Proof. reflexivity. Qed.

Lemma participantChecks_set_answers f (st : State D) :
  participantChecks (set_answers f st) = participantChecks st.
Proof. reflexivity. Qed.

Lemma locale_set_answers f (st : State D) :
  locale (set_answers f st) = locale st.
Proof. reflexivity. Qed.

Lemma answers_set_answers f (st : State D) :
  answers (set_answers f st) = f (answers st).
Proof. reflexivity. Qed.

Lemma clock_set_answers f (st : State D) :
  clock (set_answers f st) = clock st.
Proof. reflexivity. Qed.

Lemma appData_set_appData f (st : State D) :
  appData (set_appData f st) = f (appData st).
Proof. reflexivity. Qed.

Lemma page_set_appData f (st : State D) :
  page (set_appData f st) = page st.
Proof. reflexivity. Qed.

Lemma participantChecks_set_appData f (st : State D) :
  participantChecks (set_appData f st) = participantChecks st.
Proof. reflexivity. Qed.

Lemma locale_set_appData f (st : State D) :
  locale (set_appData f st) = locale st.
Proof. reflexivity. Qed.

Lemma answers_set_appData f (st : State D) :
  answers (set_appData f st) = answers st.
Proof. reflexivity. Qed.

Lemma clock_set_appData f (st : State D) :
  clock (set_appData f st) = clock st.
Proof. reflexivity. Qed.

Lemma appData_set_page f (st : State D) :
  appData (set_page f st) = appData st.
Proof. reflexivity. Qed.

Lemma page_set_page f (st : State D) :
  page (set_page f st) = f (page st).
Proof. reflexivity. Qed.

Lemma participantChecks_set_page f (st : State D) :
  participantChecks (set_page f st) = participantChecks st.
Proof. reflexivity. Qed.

Lemma locale_set_page f (st : State D) :
  locale (set_page f st) = locale st.
Proof. reflexivity. Qed.

Lemma answers_set_page f (st : State D) :
  answers (set_page f st) = answers st.
Proof. reflexivity. Qed.

Lemma clock_set_page f (st : State D) :
  clock (set_page f st) = clock st.
Proof. reflexivity. Qed.

Lemma appData_set_participantChecks f (st : State D) :
  appData (set_participantChecks f st) = appData st.
Proof. reflexivity. Qed.

Lemma page_set_participantChecks f (st : State D) :
  page (set_participantChecks f st) = page st.
Proof. reflexivity. Qed.

Lemma participantChecks_set_participantChecks f (st : State D) :
  participantChecks (set_participantChecks f st) = f (participantChecks st).
Proof. reflexivity. Qed.

Lemma locale_set_participantChecks f (st : State D) :
  locale (set_participantChecks f st) = locale st.
Proof. reflexivity. Qed.

Lemma answers_set_participantChecks f (st : State D) :
  answers (set_participantChecks f st) = answers st.
Proof. reflexivity. Qed.

Lemma clock_set_participantChecks f (st : State D) :
  clock (set_participantChecks f st) = clock st.
Proof. reflexivity. Qed.

Lemma appData_set_clock f (st : State D) :
  appData (set_clock f st) = appData st.
Proof. reflexivity. Qed.

Lemma page_set_clock f (st : State D) :
  page (set_clock f st) = page st.
Proof. reflexivity. Qed.

Lemma participantChecks_set_clock f (st : State D) :
  participantChecks (set_clock f st) = participantChecks st.
Proof. reflexivity. Qed.

Lemma locale_set_clock f (st : State D) :
  locale (set_clock f st) = locale st.
Proof. reflexivity. Qed.

Lemma answers_set_clock f (st : State D) :
  answers (set_clock f st) = answers st.
Proof. reflexivity. Qed.

Lemma clock_set_clock f (st : State D) :
  clock (set_clock f st) = f (clock st).
Proof. reflexivity. Qed.

Lemma appData_set_alerts f (st : State D) :
  appData (set_alerts f st) = appData st.
Proof. reflexivity. Qed.

Lemma page_set_alerts f (st : State D) :
  page (set_alerts f st) = page st.
Proof. reflexivity. Qed.

Lemma participantChecks_set_alerts f (st : State D) :
  participantChecks (set_alerts f st) = participantChecks st.
Proof. reflexivity. Qed.

Lemma locale_set_alerts f (st : State D) :
  locale (set_alerts f st) = locale st.
Proof. reflexivity. Qed.

Lemma answers_set_alerts f (st : State D) :
  answers (set_alerts f st) = answers st.
Proof. reflexivity. Qed.

Lemma clock_set_alerts f (st : State D) :
  clock (set_alerts f st) = clock st.
Proof. reflexivity. Qed.

End Writes.

(** A read through a write, by the equation of the two. *)
Ltac read_step :=
  match goal with
  | |- context [appData (?w ?f ?s)] =>
      first
        [ rewrite (appData_set_console f s)
        | rewrite (appData_set_answers f s)
        | rewrite (appData_set_appData f s)
        | rewrite (appData_set_page f s)
        | rewrite (appData_set_participantChecks f s)
        | rewrite (appData_set_clock f s)
        | rewrite (appData_set_alerts f s) ]
  | |- context [page (?w ?f ?s)] =>
      first
        [ rewrite (page_set_console f s)
        | rewrite (page_set_answers f s)
        | rewrite (page_set_appData f s)
        | rewrite (page_set_page f s)
        | rewrite (page_set_participantChecks f s)
        | rewrite (page_set_clock f s)
        | rewrite (page_set_alerts f s) ]
  | |- context [participantChecks (?w ?f ?s)] =>
      first
        [ rewrite (participantChecks_set_console f s)
        | rewrite (participantChecks_set_answers f s)
        | rewrite (participantChecks_set_appData f s)
        | rewrite (participantChecks_set_page f s)
        | rewrite (participantChecks_set_participantChecks f s)
        | rewrite (participantChecks_set_clock f s)
        | rewrite (participantChecks_set_alerts f s) ]
  | |- context [locale (?w ?f ?s)] =>
      first
        [ rewrite (locale_set_console f s)
        | rewrite (locale_set_answers f s)
        | rewrite (locale_set_appData f s)
        | rewrite (locale_set_page f s)
        | rewrite (locale_set_participantChecks f s)
        | rewrite (locale_set_clock f s)
        | rewrite (locale_set_alerts f s) ]
  | |- context [answers (?w ?f ?s)] =>
      first
        [ rewrite (answers_set_console f s)
        | rewrite (answers_set_answers f s)
        | rewrite (answers_set_appData f s)
        | rewrite (answers_set_page f s)
        | rewrite (answers_set_participantChecks f s)
        | rewrite (answers_set_clock f s)
        | rewrite (answers_set_alerts f s) ]
  | |- context [clock (?w ?f ?s)] =>
      first
        [ rewrite (clock_set_console f s)
        | rewrite (clock_set_answers f s)
        | rewrite (clock_set_appData f s)
        | rewrite (clock_set_page f s)
        | rewrite (clock_set_participantChecks f s)
        | rewrite (clock_set_clock f s)
        | rewrite (clock_set_alerts f s) ]
  end.

(** Simplifies what is read from a state written as the writes on
    another one; every step is a rewriting, which the kernel checks
    without comparing states. *)
Ltac simp_state :=
  repeat first
    [ read_step
    | progress cbv beta
    | progress cbn [fst snd]
    | rewrite saveData_page by discriminate
    | rewrite saveData_doc
    | rewrite saveData_checks
    | rewrite saveData_locale
    | rewrite showMessage_page
    | rewrite showMessage_doc
    | rewrite showMessage_checks
    | rewrite lookup_insert_ne by discriminate
    | rewrite lookup_insert_eq ].

Ltac look := simp_state; first [eassumption | reflexivity].

(** The closed forms of the functions that refresh the page; [d] is the
    document of the state they start from. *)

Lemma updateBadges_run (st : State AppData) d a b :
  appData st = d ->
  page st !! "memberBadge" = Some a ->
  page st !! "siteBadge" = Some b ->
  updateBadges st
  = (Ok tt,
     set_console (fun c => (c ++ ["UI_BADGES_UPDATE"])%list)
       (set_page (fun p =>
          <["siteBadge" := set_content (nat_toString (length (sites d))) b]> p)
          (set_page (fun p =>
             <["memberBadge"
               := set_content (nat_toString (length (members d))) a]> p) st))).
Proof.
  intros <- Ha Hb. unfold updateBadges.
  erewrite bind_ok by reflexivity. erewrite bind_ok by reflexivity.
  erewrite bind_ok by (apply assign_some; exact Ha).
  erewrite bind_ok by (apply assign_some; look).
  reflexivity.
Qed.

Lemma updateMembersList_run v (st : State AppData) d a b :
  appData st = d ->
  page st !! "memberCount" = Some a ->
  page st !! "membersList" = Some b ->
  updateMembersList v st
  = (Ok tt,
     set_page (fun p =>
        <["membersList" := set_content (rosterHtml v (members d)) b]> p)
       (set_page (fun p =>
          <["memberCount"
            := set_content (nat_toString (length (members d))) a]> p) st)).
Proof.
  intros <- Ha Hb. unfold updateMembersList, rosterHtml.
  erewrite bind_ok by reflexivity.
  erewrite bind_ok by (apply assign_some; exact Ha).
  destruct (length (members (appData st)) =? 0)%nat;
    (erewrite assign_some by look; reflexivity).
Qed.

Lemma updateParticipantCheckboxes_run v (st : State AppData) d a :
  appData st = d ->
  page st !! "participantCheckboxes" = Some a ->
  updateParticipantCheckboxes v st
  = (Ok tt,
     set_participantChecks (fun _ => List.map boxOf (members d))
       (set_page (fun p =>
          <["participantCheckboxes"
            := set_content (boxesHtml v (members d)) a]> p) st)).
Proof.
  intros <- Ha. unfold updateParticipantCheckboxes, boxesHtml.
  erewrite bind_ok by reflexivity.
  destruct (members (appData st)) as [|m ms] eqn:Hms; cbn [length Nat.eqb].
  - erewrite bind_ok by (apply assign_some; exact Ha). reflexivity.
  - erewrite bind_ok by (apply assign_some; exact Ha). reflexivity.
Qed.

Lemma checkMembersExist_run (st : State AppData) d button :
  appData st = d ->
  page st !! "addSiteBtn" = button ->
  checkMembersExist st
  = (Ok tt,
     match button with
     | Some el =>
         set_page (fun p =>
           <["addSiteBtn" := set_disabled (length (members d) =? 0)%nat el]> p)
           st
     | None => st
     end).
Proof.
  intros <- <-.
  unfold checkMembersExist, getElementById, bind, gets, modify, ret.
  destruct (page st !! "addSiteBtn"); reflexivity.
Qed.

Lemma updateSitesList_run v (st : State AppData) d l a b :
  appData st = d ->
  locale st = l ->
  page st !! "siteCount" = Some a ->
  page st !! "sitesList" = Some b ->
  (sites d <> [] -> is_Some (Config.levelValues (config d))) ->
  updateSitesList v st
  = (Ok tt,
     set_page (fun p =>
        <["sitesList"
          := set_content
               (sitesHtml v l d (default ∅ (Config.levelValues (config d))))
               b]> p)
       (set_page (fun p =>
          <["siteCount" := set_content (nat_toString (length (sites d))) a]> p)
          st)).
Proof.
  intros <- <- Ha Hb Hvalues. unfold updateSitesList, sitesHtml.
  erewrite bind_ok by reflexivity.
  erewrite bind_ok by (apply assign_some; exact Ha).
  destruct (sites (appData st)) as [|s ss] eqn:Hss; cbn [length Nat.eqb].
  - erewrite assign_some by look. reflexivity.
  - destruct Hvalues as [values Hv]; [discriminate|].
    erewrite bind_ok.
    2:{ apply mapM_siteRow_ok. simp_state. exact Hv. }
    erewrite assign_some by look. simp_state. rewrite Hv. reflexivity.
Qed.

Lemma clearSiteForm_run (st : State AppData) a b :
  page st !! "siteName" = Some a ->
  page st !! "siteLevel" = Some b ->
  clearSiteForm st
  = (Ok tt,
     set_participantChecks (List.map (set_checked false))
       (set_page (fun p => <["siteLevel" := set_value "1" b]> p)
          (set_page (fun p => <["siteName" := set_value "" a]> p)
             (set_console (fun c => (c ++ ["SITE_FORM_CLEAR"])%list) st)))).
Proof.
  intros Ha Hb. unfold clearSiteForm.
  erewrite bind_ok by reflexivity.
  erewrite bind_ok by (apply assign_some; look).
  erewrite bind_ok by (apply assign_some; look).
  reflexivity.
Qed.

(** The map of level values is there for the rows to be written. *)
Ltac sites_side :=
  first
    [ intros H; now contradiction H
    | intros _; cbn [config with_sites with_members]; eassumption ].

(** Runs the statement at the head of a sequence. *)
Ltac exec_step :=
  lazymatch goal with
  | |- context [bind ?m ?k ?s] =>
      lazymatch m with
      | saveData => rewrite (bind_ok m k s tt _ (saveData_run s))
      | showMessage ?a ?b =>
          rewrite (bind_ok m k s tt _ (showMessage_run a b s))
      | checkMembersExist =>
          erewrite (bind_ok m k s) by (eapply checkMembersExist_run; look)
      | property _ _ => erewrite (bind_ok m k s) by (apply property_some; look)
      | assign _ _ => erewrite (bind_ok m k s) by (apply assign_some; look)
      | updateBadges =>
          erewrite (bind_ok m k s) by (eapply updateBadges_run; look)
      | updateMembersList _ =>
          erewrite (bind_ok m k s) by (eapply updateMembersList_run; look)
      | updateParticipantCheckboxes _ =>
          erewrite (bind_ok m k s)
            by (eapply updateParticipantCheckboxes_run; look)
      | clearSiteForm =>
          erewrite (bind_ok m k s) by (eapply clearSiteForm_run; look)
      | updateSitesList _ =>
          erewrite (bind_ok m k s)
            by (eapply updateSitesList_run;
                [look | look | look | look | sites_side])
      | logAction _ => erewrite (bind_ok m k s) by reflexivity
      | consoleWrite _ => erewrite (bind_ok m k s) by reflexivity
      | alert _ => erewrite (bind_ok m k s) by reflexivity
      | gets _ => erewrite (bind_ok m k s) by reflexivity
      | modify _ => erewrite (bind_ok m k s) by reflexivity
      | confirm => erewrite (bind_ok m k s) by reflexivity
      | Date_now => erewrite (bind_ok m k s) by reflexivity
      end
  end.

Ltac exec := repeat exec_step.

(** ** Removing sites *)

(** X5.  When the user confirms, [removeSite(id)] leaves of the sites
    those whose id is not [id], in their order, and leaves the roster
    and the configuration as they were. *)
Theorem removeSite_removes_exactly (v : Version) (id : Z)
    (st : State AppData) :
  answers st O = true ->
  let st' := snd (removeSite v id st) in
  sites (appData st')
  = List.filter (fun s => negb (Site.id s =? id)) (sites (appData st))
  /\ (forall s, In s (sites (appData st'))
                <-> In s (sites (appData st)) /\ Site.id s <> id)
  /\ members (appData st') = members (appData st)
  /\ config (appData st') = config (appData st).
Proof.
  intros Hyes st'.
  assert (Hdoc : appData st'
                 = with_sites
                     (List.filter (fun s => negb (Site.id s =? id)))
                     (appData st)).
  { subst st'. unfold removeSite. exec. simp_state. rewrite Hyes. cbn [negb].
    exec.
    match goal with
    | |- appData (snd (?rest ?s)) = _ =>
        assert (Hrest : preserves appData rest);
        [preserve; apply updateSitesList_appData | rewrite (Hrest s)]
    end.
    simp_state. reflexivity. }
  rewrite Hdoc. cbn [members sites config with_sites].
  split; [reflexivity|]. split; [|split; reflexivity].
  intros s. rewrite filter_In, negb_true_iff, Z.eqb_neq. reflexivity.
Qed.

Lemma removeSite_removes_exactly_witness :
  answers demoState O = true
  /\ sites (appData (snd (removeSite Current 1700000000000 demoState))) = [].
Proof.
  assert (H : answers demoState O = true) by reflexivity.
  split; [exact H|].
  exact (proj1 (removeSite_removes_exactly Current 1700000000000 demoState H)).
Defined.

Lemma sitesHtml_empty v l d values :
  sites d = [] ->
  sitesHtml v l d values
  = emptyState "No hay sitios registrados"
      "Registra sitios para comenzar a calcular pagos".
Proof. intros H. unfold sitesHtml. now rewrite H. Qed.

(** X6.  When the user confirms, [clearAllSites] leaves no site, keeps
    the roster and the configuration, and shows the count 0 and the
    empty state in place of the table; with no row to write it does so
    even when the configuration has no map of level values. *)
Theorem clearAllSites_empties (v : Version) (st : State AppData)
    (counter table : Element) :
  answers st O = true ->
  page st !! "siteCount" = Some counter ->
  page st !! "sitesList" = Some table ->
  let st' := snd (clearAllSites v st) in
  sites (appData st') = []
  /\ members (appData st') = members (appData st)
  /\ config (appData st') = config (appData st)
  /\ page st' !! "siteCount" = Some (set_content "0" counter)
  /\ page st' !! "sitesList"
     = Some (set_content
               (emptyState "No hay sitios registrados"
                  "Registra sitios para comenzar a calcular pagos") table).
Proof.
  intros Hyes Hcounter Htable st'. subst st'. unfold clearAllSites.
  exec. simp_state. rewrite Hyes. cbn [negb]. exec.
  match goal with
  | |- context [snd (?rest ?s)] =>
      assert (Hdoc : preserves appData rest) by preserve;
      assert (Hcount : preserves (fun s0 => page s0 !! "siteCount") rest)
        by (preserve; cbn [page set_page]; apply lookup_insert_ne; discriminate);
      assert (Hlist : preserves (fun s0 => page s0 !! "sitesList") rest)
        by (preserve; cbn [page set_page]; apply lookup_insert_ne; discriminate);
      rewrite (Hdoc s), (Hcount s), (Hlist s)
  end.
  simp_state. rewrite sitesHtml_empty by reflexivity.
  repeat split.
Qed.

Lemma clearAllSites_empties_witness :
  answers demoState O = true
  /\ page demoState !! "siteCount" = Some emptyElement
  /\ page demoState !! "sitesList" = Some emptyElement
  /\ sites (appData (snd (clearAllSites Current demoState))) = [].
Proof.
  assert (H1 : answers demoState O = true) by reflexivity.
  assert (H2 : page demoState !! "siteCount" = Some emptyElement)
    by reflexivity.
  assert (H3 : page demoState !! "sitesList" = Some emptyElement)
    by reflexivity.
  split; [exact H1|]. split; [exact H2|]. split; [exact H3|].
  exact (proj1 (clearAllSites_empties Current demoState _ _ H1 H2 H3)).
Defined.

(** ** A declined confirmation *)

(** X7.  The handlers that ask first ([removeMember], [removeSite],
    [clearAllSites], [resetLevels]) do nothing when the user declines:
    the document, the page, the pending save and the messages are as
    they were; only the console has grown. *)
Theorem declined_confirmation_changes_nothing (v : Version) (e : Event)
    (st : State AppData) :
  asksFirst e = true ->
  answers st O = false ->
  sameButLog st (snd (handle v e st)).
Proof.
  intros Hasks Hno.
  destruct e; try discriminate Hasks; cbn [handle];
    try (destruct v; cbn [resetLevelsOf]);
    unfold removeMember, removeSite, clearAllSites, resetLevels,
      LegacyScript.resetLevels;
    exec; simp_state; rewrite Hno; cbn [negb];
    unfold logAction, modify; cbn [snd]; unfold sameButLog; simp_state;
    repeat split.
Qed.

Lemma declined_confirmation_changes_nothing_witness :
  asksFirst ClickClearAllSites = true
  /\ answers (set_answers (fun _ _ => false) demoState) O = false
  /\ sameButLog (set_answers (fun _ _ => false) demoState)
       (snd (handle Current ClickClearAllSites
               (set_answers (fun _ _ => false) demoState))).
Proof.
  assert (H1 : asksFirst ClickClearAllSites = true) by reflexivity.
  assert (H2 : answers (set_answers (fun _ _ => false) demoState) O = false)
    by reflexivity.
  split; [exact H1|]. split; [exact H2|].
  exact (declined_confirmation_changes_nothing Current ClickClearAllSites _
           H1 H2).
Defined.

(** ** A text without a name *)

(** X8.  With no name in the text of the field, [addMember] tells the
    user and stops: one alert, and the document, the page, the check
    boxes and the pending save as they were. *)
Theorem addMember_without_a_name (v : Version) (st : State AppData)
    (input box : Element) :
  page st !! "memberName" = Some input ->
  page st !! "isSalvager" = Some box ->
  delimitedNames (value input) = [] ->
  let st' := snd (addMember v st) in
  alerts st' = (alerts st ++ ["Ingresa un nombre"])%list
  /\ appData st' = appData st
  /\ page st' = page st
  /\ participantChecks st' = participantChecks st
  /\ saveTimeout st' = saveTimeout st.
Proof.
  intros Hinput Hbox Hnone st'. subst st'. unfold addMember.
  exec. cbv zeta. rewrite namesOf_delimitedNames, Hnone.
  cbn [length Nat.eqb]. exec.
  unfold alert, modify. simp_state. repeat split.
Qed.

Lemma addMember_without_a_name_witness :
  let st := set_page (fun p => <["memberName" := set_value " , " emptyElement]> p)
              demoState in
  page st !! "memberName" = Some (set_value " , " emptyElement)
  /\ page st !! "isSalvager" = Some (set_checked true emptyElement)
  /\ delimitedNames " , " = []
  /\ alerts (snd (addMember Current st)) = ["Ingresa un nombre"].
Proof.
  set (st := set_page (fun p => <["memberName" := set_value " , " emptyElement]> p)
               demoState).
  assert (H1 : page st !! "memberName" = Some (set_value " , " emptyElement))
    by reflexivity.
  assert (H2 : page st !! "isSalvager" = Some (set_checked true emptyElement))
    by reflexivity.
  assert (H3 : delimitedNames (value (set_value " , " emptyElement)) = [])
    by reflexivity.
  split; [exact H1|]. split; [exact H2|]. split; [exact H3|].
  exact (proj1 (addMember_without_a_name Current st _ _ H1 H2 H3)).
Defined.

(** ** The page and the document *)

Lemma preserves_forLevels {B : Type} (f : State AppData -> B) body levels :
  (forall i, preserves f (body i)) -> preserves f (forLevels body levels).
Proof.
  intros H. induction levels as [|i levels IH]; cbn [forLevels].
  - apply preserves_ret.
  - apply preserves_bind; [apply H|]. intros [|]; [exact IH | apply preserves_ret].
Qed.

Lemma replaceXY_preserves {D B : Type} (f : State D -> B) pattern :
  (forall g st, f (set_randoms g st) = f st) -> preserves f (replaceXY pattern).
Proof.
  intros H. induction pattern as [|c pattern IH]; cbn [replaceXY].
  - apply preserves_ret.
  - apply preserves_bind.
    + unfold uuidChar. destruct (_ || _)%bool; [|apply preserves_ret].
      apply preserves_bind; [now apply preserves_Math_random|].
      intros r. apply preserves_ret.
    + intros s. apply preserves_bind; [exact IH|]. intros t. apply preserves_ret.
Qed.

Lemma newId_preserves {D B : Type} (f : State D -> B) v :
  (forall g st, f (set_randoms g st) = f st) ->
  (forall g st, f (set_clock g st) = f st) ->
  preserves f (newId v).
Proof.
  intros Hr Hc. destruct v; unfold newId, generateUUID.
  - apply preserves_bind; [now apply replaceXY_preserves|].
    intros s. apply preserves_ret.
  - apply preserves_bind; [now apply preserves_Date_now|]. intros now.
    apply preserves_bind; [now apply preserves_Math_random|]. intros r.
    apply preserves_ret.
Qed.

Lemma pushMember_preserves {B : Type} (f : State AppData -> B) v flag n :
  (forall g st, f (set_randoms g st) = f st) ->
  (forall g st, f (set_clock g st) = f st) ->
  (forall g st, f (set_appData g st) = f st) ->
  preserves f (pushMember v flag n).
Proof.
  intros Hr Hc Hd. unfold pushMember. apply preserves_bind.
  - now apply newId_preserves.
  - intros i. apply preserves_modify. intros st. apply Hd.
Qed.

(** Two ids differ, one of them possibly written with a number at its
    end. *)
Ltac ne_id :=
  first
    [ discriminate
    | let H := fresh in
      intros H; cbv beta iota delta [String.append] in H; discriminate H ].

Lemma map_value_set_checked b (l : list Element) :
  List.map value (List.map (set_checked b) l) = List.map value l.
Proof. rewrite List.map_map. reflexivity. Qed.

Lemma view_set_page k x (st : State AppData) :
  k <> "memberCount" -> k <> "memberBadge" -> k <> "membersList" ->
  k <> "participantCheckboxes" -> k <> "siteCount" -> k <> "siteBadge" ->
  k <> "addSiteBtn" ->
  view (set_page (fun p => <[k := x]> p) st) = view st.
Proof.
  intros. unfold view. rewrite page_set_page, appData_set_page,
    participantChecks_set_page.
  now repeat rewrite lookup_insert_ne by assumption.
Qed.

Lemma view_set_checked b (st : State AppData) :
  view (set_participantChecks (List.map (set_checked b)) st) = view st.
Proof.
  unfold view. cbn [participantChecks set_participantChecks appData page].
  now rewrite map_value_set_checked.
Qed.

(** The goals [preserve] leaves for [view]: a write that the view does
    not see. *)
Ltac unseen :=
  first
    [ apply view_set_page; ne_id
    | apply view_set_checked
    | reflexivity ].

Lemma inSync_view v (st st' : State AppData) :
  view st' = view st -> inSync v st -> inSync v st'.
Proof.
  unfold view, inSync, shows. intros H.
  injection H as Hm Hs Hc H1 H2 H3 H4 H5 H6 H7.
  rewrite Hm, Hs, Hc, H1, H2, H3, H4, H5, H6, H7. auto.
Qed.

Lemma selectAllParticipants_view : preserves view selectAllParticipants.
Proof. unfold selectAllParticipants. preserve; unseen. Qed.

Lemma deselectAllParticipants_view : preserves view deselectAllParticipants.
Proof. unfold deselectAllParticipants. preserve; unseen. Qed.

Lemma clearSiteForm_view : preserves view clearSiteForm.
Proof. preserve; unseen. Qed.

Lemma updateSalvagerSettings_view : preserves view updateSalvagerSettings.
Proof. unfold updateSalvagerSettings. preserve; unseen. Qed.

Lemma saveConfig_view : preserves view saveConfig.
Proof.
  unfold saveConfig. preserve; try unseen.
  apply preserves_forLevels. intros i. unfold saveLevel. preserve; unseen.
Qed.

Lemma legacy_saveConfig_view : preserves view LegacyScript.saveConfig.
Proof.
  unfold LegacyScript.saveConfig. preserve; try unseen.
  unfold LegacyScript.saveLevel. preserve; unseen.
Qed.

Lemma resetLevels_view : preserves view resetLevels.
Proof.
  unfold resetLevels. preserve; try unseen.
  - now apply preserves_confirm.
  - unfold resetLevel. preserve; unseen.
Qed.

Lemma legacy_resetLevels_view : preserves view LegacyScript.resetLevels.
Proof.
  unfold LegacyScript.resetLevels. preserve; try unseen.
  - now apply preserves_confirm.
  - unfold LegacyScript.resetLevel. preserve; unseen.
Qed.

(** Runs the last statement of a handler. *)
Ltac exec_last :=
  lazymatch goal with
  | |- context [snd (checkMembersExist ?s)] =>
      erewrite (checkMembersExist_run s) by look
  | |- context [snd (updateBadges ?s)] =>
      erewrite (updateBadges_run s) by look
  | H : context [snd (checkMembersExist ?s)] |- _ =>
      erewrite (checkMembersExist_run s) in H by look
  | H : context [snd (updateBadges ?s)] |- _ =>
      erewrite (updateBadges_run s) in H by look
  end.

(** An element the handler has written, or one it has left alone. *)
Ltac shown :=
  unfold shows; eexists; split; [look | first [reflexivity | eassumption]].

Lemma value_boxOf ms :
  List.map value (List.map boxOf ms)
  = List.map (fun m => ident_toString (Member.id m)) ms.
Proof. rewrite List.map_map. reflexivity. Qed.

Lemma forEach_pushMember_run v flag names (st : State AppData) :
  exists added,
    forEach names (pushMember v flag) st
    = (Ok tt, snd (forEach names (pushMember v flag) st))
    /\ appData (snd (forEach names (pushMember v flag) st))
       = with_members (fun ms => (ms ++ added)%list) (appData st)
    /\ page (snd (forEach names (pushMember v flag) st)) = page st.
Proof.
  destruct (forEach_pushMember v flag names st)
    as (added & st' & Hrun & Hdoc & _).
  exists added. rewrite Hrun. split; [reflexivity|]. split; [exact Hdoc|].
  assert (H : preserves page (forEach names (pushMember v flag))).
  { apply preserves_forEach. intros n.
    apply pushMember_preserves; reflexivity. }
  rewrite <- (H st), Hrun. reflexivity.
Qed.

(** What is left of [inSync] once the state is written out. *)
Ltac sync_close :=
  unfold inSync; simp_state; cbn [members sites config with_members with_sites];
  repeat split;
  first
    [ shown
    | apply value_boxOf
    | rewrite map_value_set_checked; assumption
    | assumption
    | let el := fresh "el" in
      let H := fresh "H" in
      intros el H;
      first [ injection H as <-; reflexivity | congruence | eauto ] ].

Section Sync.

Variables (v : Version) (st : State AppData).

Hypothesis Hready : ready st.
Hypothesis Hsync : inSync v st.

(** The elements of a page that is ready and in sync. *)
Ltac elements :=
  destruct Hready as [Hvalues Hids];
  unfold requiredIds in Hids;
  repeat match goal with
         | H : Forall _ (_ :: _) |- _ => apply Forall_cons in H as [[? ?] H]
         end;
  destruct Hsync as ([mc [Hmc Hmc']] & [mb [Hmb Hmb']] & [ml [Hml Hml']]
                     & [pc [Hpc Hpc']] & Hboxes & [sc [Hsc Hsc']]
                     & [sb [Hsb Hsb']] & Hbtn);
  repeat match goal with
         | H1 : page st !! ?i = Some ?a, H2 : page st !! ?i = Some ?b |- _ =>
             rewrite H1 in H2; injection H2 as <-
         end.

Ltac branch :=
  match goal with
  | |- context [if ?b then _ else _] => destruct b
  end.

Ltac unchanged := apply (inSync_view v st); [reflexivity | exact Hsync].

Lemma removeMember_inSync id : inSync v (snd (removeMember v id st)).
Proof.
  elements.
  destruct (page st !! "addSiteBtn") as [btn|] eqn:Hbutton.
  all: unfold removeMember; exec; simp_state.
  all: destruct (answers st 0%nat); cbn [negb]; [|unchanged].
  all: exec; exec_last; sync_close.
Qed.

Lemma removeSite_inSync id : inSync v (snd (removeSite v id st)).
Proof.
  elements.
  unfold removeSite; exec; simp_state.
  destruct (answers st 0%nat); cbn [negb]; [|unchanged].
  exec; exec_last; sync_close.
Qed.

Lemma clearAllSites_inSync : inSync v (snd (clearAllSites v st)).
Proof.
  elements.
  unfold clearAllSites; exec; simp_state.
  destruct (answers st 0%nat); cbn [negb]; [|unchanged].
  exec; sync_close.
Qed.

Lemma addSite_inSync : inSync v (snd (addSite v st)).
Proof.
  elements.
  unfold addSite; exec; cbv zeta.
  branch; [exec; unchanged|].
  branch; [exec; unchanged|].
  exec. simp_state.
  branch; [exec; unchanged|].
  exec. sync_close.
Qed.

Lemma addMember_inSync : inSync v (snd (addMember v st)).
Proof.
  elements.
  destruct (page st !! "addSiteBtn") as [btn|] eqn:Hbutton.
  all: unfold addMember; exec; cbv zeta.
  all: branch; [exec; unchanged|].
  all: exec.
  all: match goal with
       | |- context [bind (forEach ?l (pushMember _ ?flag)) _ ?s] =>
           destruct (forEach_pushMember_run v flag l s)
             as (added & Hrun & Hdoc1 & Hpage1);
           erewrite bind_ok by exact Hrun;
           repeat match goal with
                  | Hx : page st !! ?i = ?r |- _ =>
                      lazymatch goal with
                      | _ : page (snd (forEach l (pushMember v flag) s)) !! i = r
                        |- _ => fail
                      | _ =>
                          assert (page (snd (forEach l (pushMember v flag) s))
                                    !! i = r)
                            by (rewrite Hpage1; simp_state; exact Hx)
                      end
                  end;
           revert Hdoc1; simp_state; intros Hdoc1
       end.
  all: exec.
  all: unfold inSync; simp_state; rewrite ?Hdoc1; sync_close.
Qed.

Lemma handle_inSync e : inSync v (snd (handle v e st)).
Proof.
  destruct e; cbn [handle].
  - apply addMember_inSync.
  - apply removeMember_inSync.
  - apply (inSync_view v st); [apply selectAllParticipants_view | exact Hsync].
  - apply (inSync_view v st); [apply deselectAllParticipants_view | exact Hsync].
  - apply addSite_inSync.
  - apply (inSync_view v st); [apply clearSiteForm_view | exact Hsync].
  - apply removeSite_inSync.
  - apply clearAllSites_inSync.
  - apply (inSync_view v st); [|exact Hsync].
    destruct v; [apply saveConfig_view | apply legacy_saveConfig_view].
  - apply (inSync_view v st); [|exact Hsync].
    destruct v; [apply saveConfig_view | apply legacy_saveConfig_view].
  - apply (inSync_view v st); [|exact Hsync].
    destruct v; [apply resetLevels_view | apply legacy_resetLevels_view].
  - apply (inSync_view v st); [apply updateSalvagerSettings_view | exact Hsync].
Qed.

End Sync.

(** No handler adds an element to the page or takes one away. *)

Lemma assign_dom {D : Type} id set :
  preserves (fun st : State D => dom (page st)) (assign id set).
Proof.
  intros st. unfold assign, getElementById, bind, gets, modify, throw.
  destruct (page st !! id) as [el|] eqn:Hel; cbn [snd page set_page];
    [|reflexivity].
  apply dom_insert_lookup_L. rewrite Hel. eauto.
Qed.

Lemma checkMembersExist_dom :
  preserves (fun st : State AppData => dom (page st)) checkMembersExist.
Proof.
  intros st. unfold checkMembersExist, getElementById, bind, gets, modify, ret.
  destruct (page st !! "addSiteBtn") as [el|] eqn:Hel; cbn [snd page set_page];
    [|reflexivity].
  apply dom_insert_lookup_L. rewrite Hel. eauto.
Qed.

(** Breaks a goal [preserves f m] as [preserve] does, with [asg] for the
    assignments to an element and [leaf] for the other writes. *)
Ltac frame_step asg leaf :=
  lazymatch goal with
  | |- preserves _ (assign _ _) => asg
  | |- preserves _ checkMembersExist => asg
  | |- preserves _ (ret _) => apply preserves_ret
  | |- preserves _ (throw _) => apply preserves_throw
  | |- preserves _ (gets _) => apply preserves_gets
  | |- preserves _ (bind _ _) => apply preserves_bind; [|intros ?]
  | |- preserves _ (async _) => apply preserves_async
  | |- preserves _ (forEach _ _) => apply preserves_forEach; intros ?
  | |- preserves _ (mapM _ _) => apply preserves_mapM; intros ?
  | |- preserves _ (forLevels _ _) => apply preserves_forLevels; intros ?
  | |- preserves _ (newId _) => apply newId_preserves; intros; reflexivity
  | |- preserves _ confirm => apply preserves_confirm; intros; reflexivity
  | |- preserves _ Date_now => apply preserves_Date_now; intros; reflexivity
  | |- preserves _ (modify _) => apply preserves_modify; intros ?; leaf
  | |- preserves _ (if ?b then _ else _) => destruct b
  | |- preserves _ (match ?o with _ => _ end) => destruct o
  | |- preserves _ _ =>
      progress unfold logAction, consoleWrite, alert, property,
        getElementById, showMessage, updateDataStatus, saveData, updateBadges,
        updateAutoCalcIndicator, updateMembersList,
        updateParticipantCheckboxes, uncheckAll, clearSiteForm,
        updateSitesList, siteRow, pushMember, addMember, removeMember, addSite,
        removeSite, clearAllSites, selectAllParticipants,
        deselectAllParticipants, updateSalvagerSettings, saveConfig,
        saveLevel, resetLevels, resetLevel, LegacyScript.saveConfig,
        LegacyScript.saveLevel, LegacyScript.resetLevels,
        LegacyScript.resetLevel, saveConfigOf, resetLevelsOf
  end.

Ltac keeps_elements :=
  repeat frame_step
    ltac:(first [apply assign_dom | apply checkMembersExist_dom])
    ltac:(reflexivity).

Lemma handle_dom v e :
  preserves (fun st : State AppData => dom (page st)) (handle v e).
Proof. destruct e, v; cbn [handle]; keeps_elements. Qed.

(** The map of level values, once there, stays. *)
Ltac keeps_values :=
  repeat frame_step
    ltac:(unfold assign, checkMembersExist)
    ltac:(first
            [ reflexivity
            | cbn [appData set_appData config with_config with_levelValues
                   with_levelNames Config.levelValues];
              match goal with
              | |- context [Config.levelValues ?c] =>
                  destruct (Config.levelValues c)
              end; reflexivity ]).

Lemma saveConfig_values (st : State AppData) :
  is_Some (Config.levelValues (config (appData (snd (saveConfig st))))).
Proof.
  unfold saveConfig. do 3 exec_step.
  match goal with
  | |- context [snd (?rest ?s)] =>
      assert (Hrest : preserves
                        (fun s0 : State AppData =>
                           match Config.levelValues (config (appData s0)) with
                           | Some _ => true
                           | None => false
                           end) rest) by keeps_values;
      specialize (Hrest s); cbv beta in Hrest;
      destruct (Config.levelValues (config (appData (snd (rest s)))));
      [eauto|]
  end.
  revert Hrest. simp_state.
  cbn [config with_config with_levelValues with_levelNames Config.levelValues].
  destruct (Config.levelValues (config (appData st))); discriminate.
Qed.

Lemma handle_values v e (st : State AppData) :
  is_Some (Config.levelValues (config (appData st))) ->
  is_Some (Config.levelValues (config (appData (snd (handle v e st))))).
Proof.
  intros Hvalues.
  assert (Hkeep : forall m : M unit,
             preserves (fun s : State AppData =>
                          match Config.levelValues (config (appData s)) with
                          | Some _ => true
                          | None => false
                          end) m ->
             is_Some (Config.levelValues (config (appData (snd (m st)))))).
  { intros m Hm. specialize (Hm st). cbv beta in Hm.
    destruct Hvalues as [values Hv]. rewrite Hv in Hm.
    destruct (Config.levelValues (config (appData (snd (m st)))));
      [eauto | discriminate]. }
  destruct e, v; cbn [handle saveConfigOf resetLevelsOf];
    try apply saveConfig_values; apply Hkeep; keeps_values.
Qed.

Lemma handle_ready v e (st : State AppData) :
  ready st -> ready (snd (handle v e st)).
Proof.
  intros [Hvalues Hids]. split; [now apply handle_values|].
  eapply List.Forall_impl; [|exact Hids]. intros id Hid. unfold has in *.
  apply elem_of_dom. rewrite (handle_dom v e st). now apply elem_of_dom.
Qed.



(** ** When the table of sites cannot be written *)

(** X10.  With its two elements on the page, [updateSitesList] throws in
    one case only: there is a site and the configuration has no map of
    level values.  It has then written the count and left the table as
    it was. *)
Theorem updateSitesList_throws_only_without_values (v : Version)
    (st : State AppData) (counter table : Element) :
  page st !! "siteCount" = Some counter ->
  page st !! "sitesList" = Some table ->
  let st' := snd (updateSitesList v st) in
  let counted :=
    set_content (nat_toString (length (sites (appData st)))) counter in
  ((sites (appData st) = []
    \/ is_Some (Config.levelValues (config (appData st)))) ->
   fst (updateSitesList v st) = Ok tt)
  /\ (sites (appData st) <> [] ->
      Config.levelValues (config (appData st)) = None ->
      fst (updateSitesList v st) = Throw TypeError
      /\ page st' !! "siteCount" = Some counted
      /\ page st' !! "sitesList" = Some table).
Proof.
  intros Hcounter Htable st' counted. split.
  - intros Hok.
    rewrite (updateSitesList_run v st (appData st) (locale st) counter table);
      try reflexivity; try assumption.
    intros Hne. destruct Hok as [Hnil|Hsome]; [contradiction | exact Hsome].
  - intros Hne Hnone. subst st' counted. unfold updateSitesList.
    exec. simp_state.
    destruct (sites (appData st)) as [|s ss] eqn:Hss; [contradiction|].
    cbn [length Nat.eqb mapM].
    assert (Hrow : forall s0 : State AppData,
               appData s0 = appData st ->
               siteRow v s s0 = (Throw TypeError, s0)).
    { intros s0 Hs0. unfold siteRow, bind, gets. now rewrite Hs0, Hnone. }
    erewrite bind_throw.
    2:{ erewrite bind_throw; [reflexivity|]. apply Hrow. now simp_state. }
    simp_state. repeat split. exact Htable.
Qed.

Lemma updateSitesList_throws_only_without_values_witness :
  let st := set_appData
              (with_config (with_levelValues (fun _ => None))) demoState in
  page st !! "siteCount" = Some emptyElement
  /\ page st !! "sitesList" = Some emptyElement
  /\ sites (appData st) <> []
  /\ Config.levelValues (config (appData st)) = None
  /\ fst (updateSitesList Current st) = Throw TypeError.
Proof.
  set (st := set_appData (with_config (with_levelValues (fun _ => None)))
               demoState).
  assert (H1 : page st !! "siteCount" = Some emptyElement) by reflexivity.
  assert (H2 : page st !! "sitesList" = Some emptyElement) by reflexivity.
  assert (H3 : sites (appData st) <> []) by discriminate.
  assert (H4 : Config.levelValues (config (appData st)) = None) by reflexivity.
  split; [exact H1|]. split; [exact H2|]. split; [exact H3|].
  split; [exact H4|].
  exact (proj1 (proj2 (updateSitesList_throws_only_without_values Current st
                         _ _ H1 H2) H3 H4)).
Defined.

(** ** Equal totals *)

Lemma filter_insertSorted (t : Q) x l :
  List.filter (fun p => Qeq_bool (Payment.total p) t)
    (insertSorted byTotalDescending x l)
  = List.filter (fun p => Qeq_bool (Payment.total p) t) (x :: l).
Proof.
  induction l as [|y l IH]; [reflexivity|]. cbn [insertSorted].
  destruct (Qle_bool (byTotalDescending x y) 0) eqn:Hxy; [reflexivity|].
  cbn [List.filter] in *. rewrite IH.
  destruct (Qeq_bool (Payment.total x) t) eqn:Hx; [|reflexivity].
  destruct (Qeq_bool (Payment.total y) t) eqn:Hy; [|reflexivity].
  apply Qeq_bool_iff in Hx, Hy.
  assert (Hle : Qle_bool (byTotalDescending x y) 0 = true).
  { apply byTotalDescending_le. unfold totalGe. rewrite Hx, Hy.
    apply Qle_refl. }
  congruence.
Qed.

Lemma filter_sorted (t : Q) l :
  List.filter (fun p => Qeq_bool (Payment.total p) t)
    (sorted byTotalDescending l)
  = List.filter (fun p => Qeq_bool (Payment.total p) t) l.
Proof.
  induction l as [|x l IH]; [reflexivity|].
  unfold sorted in *. cbn [fold_right]. rewrite filter_insertSorted.
  cbn [List.filter]. now rewrite IH.
Qed.


(** ** The check boxes and the roster *)

Lemma parseInt_minus_digits s :
  allDigits s = true -> nonEmpty s = true ->
  parseInt (String "-" s) = Int (- horner s 0).
Proof.
  intros Hall Hne. destruct s as [|c r]; [discriminate|].
  cbn [allDigits] in Hall. apply andb_true_iff in Hall as [Hc Hr].
  unfold parseInt.
  assert (Htrim : Str.trimStart (String "-" (String c r))
                  = String "-" (String c r)).
  { unfold Str.trimStart. cbn [String.length Str.dropWhile].
    assert (Hnone : Str.dropOne Str.whiteSpace (String "-" (String c r)) = None)
      by reflexivity.
    now rewrite Hnone. }
  rewrite Htrim.
  assert (Hradix : match String c r with
                   | String "0" (String "x" t) => (16, t)
                   | String "0" (String "X" t) => (16, t)
                   | _ => (10, String c r)
                   end = (10, String c r)).
  { destruct r as [|c' r']; [destruct c as [[] [] [] [] [] [] [] []]; reflexivity|].
    cbn [allDigits] in Hr. apply andb_true_iff in Hr as [Hc' _].
    destruct c' as [[] [] [] [] [] [] [] []]; try discriminate Hc';
      destruct c as [[] [] [] [] [] [] [] []]; reflexivity. }
  rewrite Hradix.
  rewrite digitsValue_horner by (cbn [allDigits]; now rewrite Hc, Hr).
  reflexivity.
Qed.

(** Reading back the text of an integer. *)
Lemma parseInt_Z_toString z : parseInt (Z_toString z) = Int z.
Proof.
  unfold Z_toString. destruct (Z.ltb_spec z 0) as [Hneg|Hpos].
  - destruct (decimal_spec (Z.to_N (- z))) as (Hall & Hne & Hval).
    change ("-" ++ Str.decimal (Z.to_N (- z)))
      with (String "-" (Str.decimal (Z.to_N (- z)))).
    rewrite parseInt_minus_digits by assumption. rewrite Hval. f_equal. lia.
  - destruct (decimal_spec (Z.to_N z)) as (Hall & Hne & Hval).
    rewrite parseInt_digits by assumption. rewrite Hval. f_equal. lia.
Qed.

Lemma participantId_boxOf v m :
  nativeId v (Member.id m) = true ->
  participantId v (set_checked true (boxOf m)) = Member.id m.
Proof.
  destruct m as [name flag [s|[|z]]], v; cbn; try discriminate; intros _.
  - reflexivity.
  - now rewrite parseInt_Z_toString.
Qed.

Lemma filter_checked_all ms :
  List.filter checked (List.map (set_checked true) (List.map boxOf ms))
  = List.map (set_checked true) (List.map boxOf ms).
Proof. induction ms as [|m ms IH]; [reflexivity|]. cbn. now rewrite IH. Qed.

(** X12.  The check boxes [updateParticipantCheckboxes] writes stand for
    the members: with all of them selected, [addSite] stores a site
    whose participants are the ids of the roster, in its order.  The
    ids are those the script gives (texts in the current one, numbers in
    the legacy one), and names and ids hold no markup, so that the boxes
    the browser builds are the ones written. *)
Theorem all_selected_are_the_roster (v : Version) (st : State AppData)
    (container name level : Element) (z : Z) :
  page st !! "participantCheckboxes" = Some container ->
  page st !! "siteName" = Some name ->
  page st !! "siteLevel" = Some level ->
  Str.trim (value name) <> "" ->
  parseInt (value level) = Int z -> 1 <= z <= 10 ->
  members (appData st) <> [] ->
  Forall (fun m => nativeId v (Member.id m) = true
                   /\ plainText (Member.name m) = true)
    (members (appData st)) ->
  let st1 := snd (updateParticipantCheckboxes v st) in
  let st2 := snd (selectAllParticipants st1) in
  sites (appData (snd (addSite v st2)))
  = (sites (appData st)
     ++ [Site.mk (clock st O) (Str.trim (value name)) (Int z)
           (List.map Member.id (members (appData st)))])%list.
Proof.
  intros Hcontainer Hname Hlevel Hnamed Hparse Hrange Hroster Hnative st1 st2.
  assert (Hst2 : st2
                 = set_participantChecks (List.map (set_checked true))
                     (set_console
                        (fun c => (c ++ ["SITE_SELECT_ALL_PARTICIPANTS"])%list)
                        (set_participantChecks
                           (fun _ => List.map boxOf (members (appData st)))
                           (set_page (fun p =>
                              <["participantCheckboxes"
                                := set_content
                                     (boxesHtml v (members (appData st)))
                                     container]> p) st)))).
  { subst st2 st1.
    erewrite (updateParticipantCheckboxes_run v st) by (reflexivity || eassumption).
    reflexivity. }
  assert (Hname2 : page st2 !! "siteName" = Some name)
    by (rewrite Hst2; look).
  assert (Hlevel2 : page st2 !! "siteLevel" = Some level)
    by (rewrite Hst2; look).
  assert (Hchecks : participantChecks st2
                    = List.map (set_checked true)
                        (List.map boxOf (members (appData st))))
    by (rewrite Hst2; now simp_state).
  assert (Hdoc : appData st2 = appData st) by (rewrite Hst2; now simp_state).
  assert (Hclock : clock st2 = clock st) by (rewrite Hst2; now simp_state).
  rewrite (addSite_effect v st2 name level Hname2 Hlevel2).
  rewrite Hchecks, Hdoc, Hclock, filter_checked_all, Hparse.
  assert (Htakes : takesSite (value name) (value level)
                     (List.map (set_checked true)
                        (List.map boxOf (members (appData st)))) = true).
  { unfold takesSite. rewrite Hparse, filter_checked_all.
    cbn [lessThan greaterThan].
    assert (Hn : nonEmpty (Str.trim (value name)) = true).
    { unfold nonEmpty. apply negb_true_iff. apply String.eqb_neq. exact Hnamed. }
    rewrite Hn.
    assert (H1 : (z <? 1) = false) by (apply Z.ltb_ge; lia).
    assert (H2 : (10 <? z) = false) by (apply Z.ltb_ge; lia).
    rewrite H1, H2. destruct (members (appData st)); [congruence | reflexivity]. }
  rewrite Htakes. do 3 f_equal.
  clear -Hnative. induction Hnative as [|m ms [Hm _] _ IH]; [reflexivity|].
  cbn [List.map]. rewrite participantId_boxOf by exact Hm. now rewrite IH.
Qed.

Lemma all_selected_are_the_roster_witness :
  let st := set_page
              (fun p =>
                 <["participantCheckboxes" := emptyElement]>
                   (<["siteName" := set_value "Gate" emptyElement]>
                      (<["siteLevel" := set_value "3" emptyElement]> p)))
              demoState in
  sites (appData
           (snd (addSite Current
                   (snd (selectAllParticipants
                           (snd (updateParticipantCheckboxes Current st)))))))
  = [ Site.mk 1700000000000 "Gate" (Int 3) [IdStr "7"; IdStr "9"];
      Site.mk 1700000000000 "Gate" (Int 3) [IdStr "7"; IdStr "8"] ].
Proof.
  set (st := set_page _ demoState).
  refine (all_selected_are_the_roster Current st emptyElement
            (set_value "Gate" emptyElement) (set_value "3" emptyElement) 3
            _ _ _ _ _ _ _ _); try reflexivity.
  - discriminate.
  - lia.
  - discriminate.
  - repeat constructor.
Defined.

(** ** A form that [saveConfig] takes *)

Lemma reading_nonneg input : 0 <= reading input.
Proof.
  unfold reading. rewrite parseFormattedNumber_digits.
  apply horner_nonneg; [apply allDigits_remove | lia].
Qed.

Lemma saveLevel_run i (st : State AppData) input :
  page st !! ("level" ++ Z_toString i) = Some input ->
  reading input <= 999999999999 ->
  saveLevel i st
  = (Ok true,
     set_appData (with_config (fun c =>
       with_levelNames
         (fun o => store (Z_toString i) (levelNameRead (page st) (Z_toString i))
                     (store (Z_toString i)
                        (levelNameRead (page st) (Z_toString i)) o))
         (with_levelValues
            (fun o => store (Z_toString i) (reading input)
                        (store (Z_toString i) (reading input) o))
            c))) st).
Proof.
  intros Hinput Hmax. unfold saveLevel.
  erewrite bind_ok by (apply property_some; exact Hinput).
  erewrite bind_ok by (apply property_some; exact Hinput).
  erewrite bind_ok by reflexivity.
  fold (reading input).
  assert (Hlow : (reading input <? 0) = false)
    by (apply Z.ltb_ge, reading_nonneg).
  assert (Hhigh : (999999999999 <? reading input) = false)
    by (apply Z.ltb_ge; exact Hmax).
  rewrite Hlow, Hhigh. cbn [orb].
  erewrite bind_ok by reflexivity.
  reflexivity.
Qed.

Lemma forLevels_saveLevel_run levels :
  forall (st : State AppData) values names,
    Forall (validLevel (page st)) levels ->
    Config.levelValues (config (appData st)) = Some values ->
    Config.levelNames (config (appData st)) = Some names ->
    exists st',
      forLevels saveLevel levels st = (Ok true, st')
      /\ page st' = page st
      /\ Config.levelValues (config (appData st'))
         = Some (valuesSaved (page st) levels values)
      /\ Config.levelNames (config (appData st'))
         = Some (namesSaved (page st) levels names)
      /\ members (appData st') = members (appData st)
      /\ sites (appData st') = sites (appData st)
      /\ Config.numberFormat (config (appData st'))
         = Config.numberFormat (config (appData st)).
Proof.
  induction levels as [|i levels IH]; intros st values names Hvalid Hv Hn.
  - exists st. cbn [forLevels valuesSaved namesSaved]. repeat split; assumption.
  - inversion Hvalid as [|? ? [input [Hinput Hmax]] Hrest]; subst.
    cbn [forLevels].
    erewrite bind_ok by (apply saveLevel_run; eassumption).
    cbv beta iota.
    match goal with
    | |- context [forLevels saveLevel levels ?s] => set (st1 := s)
    end.
    destruct (IH st1 (<[Z_toString i := reading input]> values)
                (<[Z_toString i := levelNameRead (page st) (Z_toString i)]>
                   names))
      as (st' & Hrun & Hpage & Hvalues & Hnames & Hm & Hs & Hf).
    + exact Hrest.
    + subst st1. cbn. rewrite Hv. cbn [store]. now rewrite insert_insert_eq.
    + subst st1. cbn. rewrite Hn. cbn [store]. now rewrite insert_insert_eq.
    + exists st'. rewrite Hrun. cbn [valuesSaved namesSaved].
      rewrite Hinput. subst st1.
      repeat split; assumption.
Qed.

Lemma valuesSaved_oneToTen p values i input :
  In i oneToTen ->
  p !! ("level" ++ Z_toString i) = Some input ->
  valuesSaved p oneToTen values !! Z_toString i = Some (reading input).
Proof.
  intros Hin Hinput. unfold oneToTen in *. cbn [valuesSaved].
  cbn [In] in Hin.
  repeat (destruct Hin as [<- | Hin];
          [rewrite Hinput;
           repeat (rewrite lookup_insert_ne
                     by (intros Heq; vm_compute in Heq; discriminate));
           apply lookup_insert_eq|]).
  destruct Hin.
Qed.

Lemma tail_appData (s : State AppData) :
  appData (snd ((saveData ;; updateAutoCalcIndicator ;;
                 showMessage "Configuración guardada correctamente" "success")
                  s))
  = appData s.
Proof.
  assert (H : preserves appData
                (saveData ;; updateAutoCalcIndicator ;;
                 showMessage "Configuración guardada correctamente" "success"))
    by preserve.
  apply H.
Qed.

Lemma saveConfig_valid_run (st : State AppData) hs sp cu ac :
  Forall (validLevel (page st)) oneToTen ->
  page st !! "hasSalvager" = Some hs ->
  page st !! "salvagerPercent" = Some sp ->
  page st !! "currency" = Some cu ->
  page st !! "autoCalculate" = Some ac ->
  appData (snd (saveConfig st))
  = mkAppData
      (Config.mk
         (Some (valuesSaved (page st) oneToTen
                  (default ∅ (Config.levelValues (config (appData st))))))
         (Some (namesSaved (page st) oneToTen
                  (default ∅ (Config.levelNames (config (appData st))))))
         (checked hs) (parseFloat (value sp)) (Some (value cu)) (checked ac)
         (Config.numberFormat (config (appData st))))
      (members (appData st)) (sites (appData st)).
Proof.
  intros Hvalid Hhs Hsp Hcu Hac.
  unfold saveConfig. do 3 exec_step.
  match goal with
  | |- context [bind (forLevels saveLevel oneToTen) _ ?s] => set (st0 := s)
  end.
  destruct (forLevels_saveLevel_run oneToTen st0
              (default ∅ (Config.levelValues (config (appData st))))
              (default ∅ (Config.levelNames (config (appData st)))))
    as (st1 & Hrun & Hpage & Hvalues & Hnames & Hm & Hs & Hf).
  { exact Hvalid. }
  { subst st0. cbn.
    now destruct (Config.levelValues (config (appData st))). }
  { subst st0. cbn.
    now destruct (Config.levelNames (config (appData st))). }
  assert (Hpage1 : page st1 = page st) by (rewrite Hpage; reflexivity).
  erewrite bind_ok by exact Hrun. cbv beta iota.
  erewrite bind_ok by (apply property_some; rewrite Hpage1; exact Hhs).
  erewrite bind_ok by (apply property_some; rewrite Hpage1; exact Hsp).
  erewrite bind_ok by (apply property_some; rewrite Hpage1; exact Hcu).
  erewrite bind_ok by (apply property_some; rewrite Hpage1; exact Hac).
  do 2 exec_step.
  rewrite tail_appData. simp_state.
  destruct (appData st1) as [c ms ss] eqn:Hd.
  cbn [config with_config members sites] in *.
  unfold with_config. cbn [config members sites].
  rewrite Hvalues, Hnames, Hf, Hm, Hs. subst st0. reflexivity.
Qed.

(** X13.  When each of the ten level fields reads a value no greater than
    999,999,999,999 and the four settings fields are in the page,
    [saveConfig] stores all ten readings under the keys "1" to "10",
    takes the four settings from the page, and leaves the number
    format, the roster and the sites as they were. *)
Theorem saveConfig_stores_a_valid_form (st : State AppData) hs sp cu ac :
  Forall (validLevel (page st)) oneToTen ->
  page st !! "hasSalvager" = Some hs ->
  page st !! "salvagerPercent" = Some sp ->
  page st !! "currency" = Some cu ->
  page st !! "autoCalculate" = Some ac ->
  let d := appData (snd (saveConfig st)) in
  (forall i input,
      In i oneToTen ->
      page st !! ("level" ++ Z_toString i) = Some input ->
      exists values,
        Config.levelValues (config d) = Some values
        /\ values !! Z_toString i = Some (reading input))
  /\ Config.hasSalvager (config d) = checked hs
  /\ Config.salvagerPercent (config d) = parseFloat (value sp)
  /\ Config.currency (config d) = Some (value cu)
  /\ Config.autoCalculate (config d) = checked ac
  /\ Config.numberFormat (config d)
     = Config.numberFormat (config (appData st))
  /\ members d = members (appData st)
  /\ sites d = sites (appData st).
Proof.
  intros Hvalid Hhs Hsp Hcu Hac d. subst d.
  rewrite (saveConfig_valid_run st hs sp cu ac) by assumption.
  cbn [config members sites Config.levelValues Config.hasSalvager
       Config.salvagerPercent Config.currency Config.autoCalculate
       Config.numberFormat].
  repeat split.
  intros i input Hin Hinput. eexists. split; [reflexivity|].
  apply valuesSaved_oneToTen; assumption.
Qed.

Lemma saveConfig_stores_a_valid_form_witness :
  Forall (validLevel (page validLevelForm)) oneToTen
  /\ Config.currency (config (appData (snd (saveConfig validLevelForm))))
     = Some "PLEX".
Proof.
  assert (H0 : Forall (validLevel (page validLevelForm)) oneToTen).
  { repeat constructor;
      (exists (levelInput "250.000"); split;
       [reflexivity | apply Z.leb_le; vm_compute; reflexivity]). }
  split; [exact H0|].
  exact (proj1 (proj2 (proj2 (proj2
           (saveConfig_stores_a_valid_form validLevelForm
              (set_checked true emptyElement) (set_value "15" emptyElement)
              (set_value "PLEX" emptyElement) emptyElement
              H0 eq_refl eq_refl eq_refl eq_refl))))).
Defined.

(** ** The number fields of the configuration form *)

(** X14.  Whatever is typed into a number field, after [handleNumberInput]
    the raw value of the field holds digits only, and [saveConfig] reads
    from the field the number that the digits typed make (0 when there is
    none), whichever number format is chosen. *)
Theorem handleNumberInput_keeps_the_digits (cfg : Config.t) (input : Element) :
  (exists digits,
      rawValue (handleNumberInput cfg input) = Some digits
      /\ allDigits digits = true)
  /\ reading (handleNumberInput cfg input)
     = parseFormattedNumber (value input).
Proof.
  unfold handleNumberInput.
  change (fun c => negb (Str.isDigit c)) with notDigit.
  pose proof (allDigits_remove (value input)) as Hall.
  split.
  { exists (Str.remove notDigit (value input)).
    split; [|exact Hall]. now destruct (nonEmpty _). }
  unfold reading, nonEmpty.
  destruct (String.eqb (Str.remove notDigit (value input)) "") eqn:Hd;
    cbn [negb rawValue value set_rawValue set_value orElse]; rewrite Hd.
  - reflexivity.
  - rewrite !parseFormattedNumber_digits. now rewrite remove_digits.
Qed.

(** ** The defaults of the levels *)

Lemma resetLevel_run i (st : State AppData) d a b :
  appData st = d ->
  page st !! ("level" ++ Z_toString i) = Some a ->
  page st !! ("levelName" ++ Z_toString i) = Some b ->
  ("level" ++ Z_toString i) <> ("levelName" ++ Z_toString i) ->
  resetLevel i st
  = (Ok tt,
     set_page
       (fun p =>
          <["levelName" ++ Z_toString i
            := set_value ("Sitio " ++ Z_toString i) b]>
            (<["level" ++ Z_toString i
               := set_rawValue (Some (Z_toString (i * 100000)))
                    (set_value
                       (formatNumber (config d) (inject_Z (i * 100000)) None)
                       a)]> p))
       st).
Proof.
  intros <- Ha Hb Hne. unfold resetLevel.
  erewrite bind_ok by reflexivity.
  erewrite bind_ok by (apply assign_some; exact Ha).
  erewrite bind_ok
    by (apply assign_some; cbn [page set_page]; apply lookup_insert_eq).
  erewrite assign_some
    by (cbn [page set_page]; rewrite !lookup_insert_ne by exact Hne;
        exact Hb).
  f_equal. destruct st. unfold set_page. cbn.
  f_equal. rewrite insert_insert_eq. reflexivity.
Qed.

Lemma Z_toString_nonEmpty z : 0 <= z -> String.eqb (Z_toString z) "" = false.
Proof.
  intros Hz. unfold Z_toString.
  destruct (Z.ltb_spec z 0) as [Hneg|_]; [lia|].
  destruct (decimal_spec (Z.to_N z)) as (_ & Hne & _).
  unfold nonEmpty in Hne. now destruct (String.eqb _ _).
Qed.

Lemma reading_default z a shown :
  0 <= z ->
  reading (set_rawValue (Some (Z_toString z)) (set_value shown a)) = z.
Proof.
  intros Hz. unfold reading. cbn [rawValue set_rawValue orElse].
  rewrite Z_toString_nonEmpty by exact Hz.
  rewrite parseFormattedNumber_Z_toString. lia.
Qed.

Lemma has_insert (p : gmap string Element) id key e :
  is_Some (p !! id) -> is_Some (<[key := e]> p !! id).
Proof.
  intros H. destruct (decide (key = id)) as [->|Hne].
  - rewrite lookup_insert_eq. eauto.
  - now rewrite lookup_insert_ne.
Qed.

Lemma forEach_resetLevel_run levels :
  forall (st : State AppData),
    NoDup (levelKeys levels) ->
    Forall (fun i => 0 <= i) levels ->
    Forall (levelFields st) levels ->
    exists st',
      forEach levels resetLevel st = (Ok tt, st')
      /\ appData st' = appData st
      /\ Forall (restored (config (appData st)) st') levels
      /\ (forall id, id ∉ levelKeys levels -> page st' !! id = page st !! id)
      /\ (forall id, has st id -> has st' id).
Proof.
  induction levels as [|i levels IH]; intros st Hkeys Hpos Hfields.
  - exists st. cbn [forEach]. repeat split; auto.
  - cbn [levelKeys List.flat_map] in Hkeys. fold (levelKeys levels) in Hkeys.
    cbn [app] in Hkeys.
    apply NoDup_cons in Hkeys as [Hlevel Hkeys].
    apply NoDup_cons in Hkeys as [Hname Hkeys].
    apply not_elem_of_cons in Hlevel as [Hne Hlevel].
    apply Forall_cons in Hpos as [Hi Hpos].
    apply Forall_cons in Hfields as [[[a Ha] [b Hb]] Hfields].
    cbn [forEach].
    erewrite bind_ok by (eapply resetLevel_run; eauto).
    match goal with
    | |- context [forEach levels resetLevel ?s] => set (st1 := s)
    end.
    destruct (IH st1) as (st' & Hrun & Hdata & Hrestored & Hframe & Hhas).
    + exact Hkeys.
    + exact Hpos.
    + eapply List.Forall_impl; [|exact Hfields].
      intros j [H1 H2]. subst st1. unfold has in *. cbn [page set_page].
      split; do 2 apply has_insert; assumption.
    + exists st'. split; [exact Hrun|]. split; [exact Hdata|].
      split; [|split].
      * apply Forall_cons. split; [|exact Hrestored].
        eexists _, _.
        rewrite (Hframe _ Hlevel), (Hframe _ Hname). subst st1.
        cbn [page set_page].
        rewrite lookup_insert_ne by (intros Heq; apply Hne; now symmetry).
        rewrite !lookup_insert_eq.
        split; [reflexivity|]. split; [reflexivity|].
        split; [apply reading_default; lia|]. split; reflexivity.
      * intros id Hid. cbn [levelKeys List.flat_map] in Hid.
        fold (levelKeys levels) in Hid. cbn [app] in Hid.
        apply not_elem_of_cons in Hid as [Hid1 Hid].
        apply not_elem_of_cons in Hid as [Hid2 Hid].
        rewrite (Hframe _ Hid). subst st1. cbn [page set_page].
        rewrite !lookup_insert_ne by (intros Heq; congruence).
        reflexivity.
      * intros id Hid. apply Hhas. subst st1. unfold has in *.
        cbn [page set_page]. do 2 apply has_insert. exact Hid.
Qed.

Lemma levelKeys_oneToTen : NoDup (levelKeys oneToTen).
Proof. apply (bool_decide_unpack _). vm_compute. exact I. Qed.

Lemma resetLevels_run (st : State AppData) :
  answers st O = true ->
  Forall (levelFields st) oneToTen ->
  let st' := snd (resetLevels st) in
  appData st' = appData st
  /\ Forall (restored (config (appData st)) st') oneToTen
  /\ (forall id, id ∉ levelKeys oneToTen -> page st' !! id = page st !! id).
Proof.
  intros Hyes Hfields st'. subst st'. unfold resetLevels. do 2 exec_step.
  simp_state. rewrite Hyes. cbn [negb]. exec_step.
  match goal with
  | |- context [bind (forEach oneToTen resetLevel) _ ?s] => set (st0 := s)
  end.
  destruct (forEach_resetLevel_run oneToTen st0)
    as (st1 & Hrun & Hdata & Hrestored & Hframe & _).
  { exact levelKeys_oneToTen. }
  { unfold oneToTen. repeat constructor; lia. }
  { exact Hfields. }
  erewrite bind_ok by exact Hrun.
  rewrite showMessage_appData, Hdata.
  split; [reflexivity|]. split.
  - eapply List.Forall_impl; [|exact Hrestored].
    intros i (input & nameInput & H1 & H2 & H3 & H4 & H5).
    exists input, nameInput. rewrite showMessage_page. auto.
  - intros id Hid. rewrite showMessage_page. now rewrite Hframe.
Qed.

(** X15.  When the user confirms and the twenty fields of the levels are in
    the page, [resetLevels] leaves in the field of every level [i] from 1
    to 10 the text of [i * 100000] in the number format, with a raw value
    that reads as [i * 100000], and in its name field "Sitio" and the
    number; the document is not touched: the defaults are not stored
    until the configuration is saved. *)
Theorem resetLevels_restores_the_form (st : State AppData) :
  answers st O = true ->
  Forall (levelFields st) oneToTen ->
  Forall (restored (config (appData st)) (snd (resetLevels st))) oneToTen
  /\ appData (snd (resetLevels st)) = appData st.
Proof.
  intros Hyes Hfields.
  destruct (resetLevels_run st Hyes Hfields) as (Hdata & Hrestored & _).
  split; assumption.
Qed.

Lemma namesSaved_oneToTen p names i :
  In i oneToTen ->
  namesSaved p oneToTen names !! Z_toString i
  = Some (levelNameRead p (Z_toString i)).
Proof.
  intros Hin. unfold oneToTen in *. cbn [namesSaved]. cbn [In] in Hin.
  repeat (destruct Hin as [<- | Hin];
          [repeat (rewrite lookup_insert_ne
                     by (intros Heq; vm_compute in Heq; discriminate));
           apply lookup_insert_eq|]).
  destruct Hin.
Qed.

Lemma levelNameRead_default p i nameInput :
  In i oneToTen ->
  p !! ("levelName" ++ Z_toString i) = Some nameInput ->
  value nameInput = "Sitio " ++ Z_toString i ->
  levelNameRead p (Z_toString i) = "Sitio " ++ Z_toString i.
Proof.
  intros Hin Hname Hvalue. unfold levelNameRead. rewrite Hname, Hvalue.
  unfold oneToTen in Hin. cbn [In] in Hin.
  repeat (destruct Hin as [<- | Hin]; [vm_compute; reflexivity|]).
  destruct Hin.
Qed.

Lemma oneToTen_range i : In i oneToTen -> 1 <= i <= 10.
Proof. unfold oneToTen. cbn [In]. lia. Qed.

(** X16.  [resetLevels] and [saveConfig] fit together: when the user
    confirms the reset and the form is whole, saving the configuration
    right after the reset stores [i * 100000] as the value and "Sitio"
    with the number as the name of every level [i] from 1 to 10,
    whichever number format the defaults were shown in. *)
Theorem saveConfig_after_resetLevels (st : State AppData) hs sp cu ac :
  answers st O = true ->
  Forall (levelFields st) oneToTen ->
  page st !! "hasSalvager" = Some hs ->
  page st !! "salvagerPercent" = Some sp ->
  page st !! "currency" = Some cu ->
  page st !! "autoCalculate" = Some ac ->
  let d := appData (snd (saveConfig (snd (resetLevels st)))) in
  forall i,
    In i oneToTen ->
    exists values names,
      Config.levelValues (config d) = Some values
      /\ values !! Z_toString i = Some (i * 100000)
      /\ Config.levelNames (config d) = Some names
      /\ names !! Z_toString i = Some ("Sitio " ++ Z_toString i).
Proof.
  intros Hyes Hfields Hhs Hsp Hcu Hac d i Hin. subst d.
  destruct (resetLevels_run st Hyes Hfields) as (Hdata & Hrestored & Hframe).
  set (st1 := snd (resetLevels st)) in *.
  assert (Hvalid : Forall (validLevel (page st1)) oneToTen).
  { apply List.Forall_forall. intros j Hj.
    pose proof (proj1 (List.Forall_forall _ _) Hrestored j Hj)
      as (input & _ & Hinput & _ & Hreading & _).
    exists input. split; [exact Hinput|].
    apply oneToTen_range in Hj. lia. }
  pose proof (proj1 (List.Forall_forall _ _) Hrestored i Hin)
    as (input & nameInput & Hinput & _ & Hreading & Hname & Hvalue).
  rewrite (saveConfig_valid_run st1 hs sp cu ac); try exact Hvalid.
  2-5: rewrite Hframe;
       [assumption | apply (bool_decide_unpack _); vm_compute; exact I].
  cbn [config Config.levelValues Config.levelNames].
  eexists _, _. split; [reflexivity|]. split; [|split; [reflexivity|]].
  - rewrite (valuesSaved_oneToTen _ _ i input Hin Hinput). now rewrite Hreading.
  - rewrite namesSaved_oneToTen by exact Hin.
    now rewrite (levelNameRead_default _ i nameInput Hin Hname Hvalue).
Qed.

Lemma wholeForm_fields : Forall (levelFields wholeForm) oneToTen.
Proof.
  unfold oneToTen, levelFields, has.
  repeat (constructor; [split; eexists; vm_compute; reflexivity|]).
  constructor.
Qed.

Lemma resetLevels_restores_the_form_witness :
  answers wholeForm O = true
  /\ Forall (levelFields wholeForm) oneToTen
  /\ appData (snd (resetLevels wholeForm)) = appData wholeForm.
Proof.
  assert (H1 : answers wholeForm O = true) by reflexivity.
  split; [exact H1|]. split; [exact wholeForm_fields|].
  exact (proj2 (resetLevels_restores_the_form wholeForm H1 wholeForm_fields)).
Defined.

Lemma saveConfig_after_resetLevels_witness :
  answers wholeForm O = true
  /\ Forall (levelFields wholeForm) oneToTen
  /\ exists values names,
       Config.levelValues
         (config (appData (snd (saveConfig (snd (resetLevels wholeForm))))))
       = Some values
       /\ values !! Z_toString 3 = Some (3 * 100000)
       /\ Config.levelNames
            (config (appData (snd (saveConfig (snd (resetLevels wholeForm))))))
          = Some names
       /\ names !! Z_toString 3 = Some ("Sitio " ++ Z_toString 3).
Proof.
  assert (H1 : answers wholeForm O = true) by reflexivity.
  assert (H3 : In 3 oneToTen) by (unfold oneToTen; cbn [In]; auto).
  split; [exact H1|]. split; [exact wholeForm_fields|].
  exact (saveConfig_after_resetLevels wholeForm
           (set_checked true emptyElement) (set_value "15" emptyElement)
           (set_value "PLEX" emptyElement) emptyElement
           H1 wholeForm_fields eq_refl eq_refl eq_refl eq_refl 3 H3).
Defined.

